(** * Trustless-agent registries: identity, reputation and validation

    A shallow embedding of the three Solidity contracts
    [IdentityRegistry.sol], [ReputationRegistry.sol] and
    [ValidationRegistry.sol] of [packages/protocol/contracts], and the
    properties of their authorization and replay-protection state machine.

    Contract storage is explicit state; a transaction is a computation in a
    state-and-revert monad whose failure outcome still carries the storage
    reached when the [revert] was hit, so that "no write precedes a failing
    check" is a statement about the code and not about the rollback of the
    execution environment. *)

From stdpp Require Import gmap strings pretty list fin_maps.
From Stdlib Require Import NArith Ascii Lia.

Local Open Scope N_scope.

(** ** Solidity value types

    Unsigned integers of every width, addresses and [bytes32] words are
    natural numbers; [bytes] and [string] values are byte strings. *)

Abbreviation address := N (only parsing).
Abbreviation uint256 := N (only parsing).
Abbreviation uint8 := N (only parsing).
Abbreviation bytes32 := N (only parsing).
Abbreviation bytes := string (only parsing).

Definition UINT256_MAX : N := 2 ^ 256 - 1.

(** The custom errors of the three contracts, plus the arithmetic panic of
    checked [uint256] arithmetic (Solidity 0.8). *)
Inductive Error : Type :=
  | InsufficientFee
  | InvalidDomain
  | InvalidAddress
  | DomainAlreadyRegistered
  | AddressAlreadyRegistered
  | InvalidSignature
  | NonceAlreadyUsed
  | AgentNotFound
  | UnauthorizedUpdate
  | UnauthorizedFeedback
  | FeedbackAlreadyAuthorized
  | InvalidDataHash
  | ValidationRequestNotFound
  | RequestExpired
  | ValidationAlreadyResponded
  | InvalidResponse
  | UnauthorizedValidator
  | Panic.

Global Instance Error_eq_dec : EqDecision Error.
Proof. solve_decision. Defined.

(** The error taxonomy of the specification (section 7). *)
Inductive ErrorKind : Type :=
  | NotFound
  | Conflict
  | Unauthorized
  | BadSignature
  | InvalidInput
  | Replay
  | Expired
  | FeeMismatch.

Global Instance ErrorKind_eq_dec : EqDecision ErrorKind.
Proof. solve_decision. Defined.

(** Which kind each custom error is; the arithmetic panic is outside the
    taxonomy. *)
Definition classify (e : Error) : option ErrorKind :=
  match e with
  | InsufficientFee => Some FeeMismatch
  | InvalidDomain | InvalidAddress | InvalidDataHash | InvalidResponse =>
      Some InvalidInput
  | DomainAlreadyRegistered | AddressAlreadyRegistered
  | FeedbackAlreadyAuthorized | ValidationAlreadyResponded => Some Conflict
  | InvalidSignature => Some BadSignature
  | NonceAlreadyUsed => Some Replay
  | AgentNotFound | ValidationRequestNotFound => Some NotFound
  | UnauthorizedUpdate | UnauthorizedFeedback | UnauthorizedValidator =>
      Some Unauthorized
  | RequestExpired => Some Expired
  | Panic => None
  end.

(** What a transaction sees of its execution environment. [evvmID] is the
    value returned by [IEvvm(evvmAddress).getEvvmID()]. *)
Record Env : Type := {
  msg_sender : address;
  msg_value : uint256;
  block_number : uint256;
  block_timestamp : uint256;
  block_difficulty : uint256;
  tx_origin : address;
  evvmID : uint256
}.

(** The result of a [view] call. *)
Inductive Result (A : Type) : Type :=
  | Ok (a : A)
  | Err (e : Error).
Arguments Ok {A} a.
Arguments Err {A} e.

(** ** The state-and-revert monad *)

(** [Done a s log]: the call returned [a], left storage [s] and emitted the
    events [log]. [Revert e s]: the call hit [revert e] when the storage
    was [s]. *)
Inductive Outcome (St E A : Type) : Type :=
  | Done (a : A) (s : St) (log : list E)
  | Revert (e : Error) (s : St).
Arguments Done {St E A} a s log.
Arguments Revert {St E A} e s.

Definition Exec (St E A : Type) : Type := St → Outcome St E A.

Global Instance Exec_ret {St E} : MRet (Exec St E) :=
  λ A a s, Done a s [].

Global Instance Exec_bind {St E} : MBind (Exec St E) :=
  λ A B f m s,
    match m s with
    | Done a s1 log1 =>
        match f a s1 with
        | Done b s2 log2 => Done b s2 (log1 ++ log2)
        | Revert e s2 => Revert e s2
        end
    | Revert e s1 => Revert e s1
    end.

Section Primitives.
Context {St E : Type}.

Definition revert {A} (e : Error) : Exec St E A := λ s, Revert e s.

(** [if (c) revert e;] *)
Definition revert_if (c : bool) (e : Error) : Exec St E unit :=
  if c then revert e else mret tt.

(** A storage read. *)
Definition gets {A} (f : St → A) : Exec St E A := λ s, Done (f s) s [].

(** A storage write. *)
Definition modify (f : St → St) : Exec St E unit := λ s, Done tt (f s) [].

Definition emit (ev : E) : Exec St E unit := λ s, Done tt s [ev].

(** Checked [uint256] addition. *)
Definition checked_add (a b : uint256) : Exec St E uint256 :=
  if bool_decide (a + b ≤ UINT256_MAX) then mret (a + b) else revert Panic.

(** An external [view] call: a revert of the callee bubbles up. *)
Definition call_view {A} (r : Result A) : Exec St E A :=
  match r with
  | Ok a => mret a
  | Err e => revert e
  end.

(** What the execution environment makes of an outcome: the storage of a
    reverted call is rolled back. *)
Definition commit {A} (s : St) (o : Outcome St E A) : St :=
  match o with
  | Done _ s' _ => s'
  | Revert _ _ => s
  end.

(** The storage an outcome carries, before any roll-back. *)
Definition reached {A} (o : Outcome St E A) : St :=
  match o with
  | Done _ s' _ => s'
  | Revert _ s' => s'
  end.

Definition succeeded {A} (o : Outcome St E A) : bool :=
  match o with
  | Done _ _ _ => true
  | Revert _ _ => false
  end.

Definition failure {A} (o : Outcome St E A) : option Error :=
  match o with
  | Done _ _ _ => None
  | Revert e _ => Some e
  end.
End Primitives.

(** ** String encodings of the signed messages *)

(** Modelled from the spec: [Strings.toString] of the OpenZeppelin library,
    which is not among the sources; section 6 fixes the encoding of
    integers as decimal ASCII. *)
Definition toString (n : uint256) : string := pretty n.

Definition HEX_DIGITS : string := "0123456789abcdef".

Definition hex_digit (d : N) : ascii :=
  default "0"%char (String.get (N.to_nat d) HEX_DIGITS).

(** The [k] low-order hexadecimal digits of [v], most significant first. *)
Fixpoint hex_fixed (k : nat) (v : N) (acc : string) : string :=
  match k with
  | O => acc
  | S k' =>
      hex_fixed k' (N.shiftr v 4) (String (hex_digit (N.land v 15)) acc)
  end.

(** Modelled from the spec: [Strings.toHexString(value, length)] of the
    OpenZeppelin library, which is not among the sources; section 6 fixes
    the encoding of addresses and hashes as fixed-width hex ("0x" and two
    digits per byte). The contracts call it on a [uint160] with length 20
    and on a [uint256] with length 32, where the value always fits. *)
Definition toHexString (value : uint256) (length : nat) : string :=
  "0x" +:+ hex_fixed (2 * length) value EmptyString.

(** What a contract hands to [SignatureRecover.signatureVerification]. *)
Record SigQuery : Type := {
  q_evvmID : string;
  q_functionName : string;
  q_message : string;
  q_signature : bytes;
  q_signer : address
}.

(** [SignatureRecover.signatureVerification] of the EVVM library (hashing
    and [ecrecover]) is outside the sources: the contracts are
    parameterised by it. *)
Abbreviation Verifier := (string → string → string → string → N → bool)
  (only parsing).

Definition verify (signatureVerification : Verifier) (q : SigQuery) : bool :=
  signatureVerification (q_evvmID q) (q_functionName q) (q_message q)
    (q_signature q) (q_signer q).

(** [if (c) { body }] *)
Definition when {St E} (c : bool) (body : Exec St E unit) : Exec St E unit :=
  if c then body else mret tt.

(** ** IdentityRegistry *)

(** The struct of the interface [IIdentityRegistry], as the contracts use
    it. *)
Module IIdentityRegistry.
Record AgentInfo : Type := mkAgentInfo {
  agentId : uint256;
  agentDomain : string;
  agentAddress : address
}.

Global Instance AgentInfo_eq_dec : EqDecision AgentInfo.
Proof. solve_decision. Defined.
End IIdentityRegistry.

Module IdentityRegistry.
Import IIdentityRegistry.

(** [0.005 ether], in wei. *)
Definition REGISTRATION_FEE : uint256 := 5000000000000000.

Inductive Event : Type :=
  | AgentRegistered (id : uint256) (domain : string) (addr : address)
  | AgentUpdated (id : uint256) (domain : string) (addr : address).

(** The storage of the contract. The nested mapping [checkAsyncNonce],
    into which only [true] is ever written, is the set of its [true]
    entries; the other mappings are finite maps read with the zero value
    as default. *)
Record Storage : Type := mkStorage {
  _agentIdCounter : uint256;
  checkAsyncNonce : gset (address * uint256);
  _agents : gmap uint256 AgentInfo;
  _domainToAgentId : gmap string uint256;
  _addressToAgentId : gmap address uint256
}.

(** The storage the constructor leaves: ids start at 1. *)
Definition constructor : Storage :=
  mkStorage 1 ∅ ∅ ∅ ∅.

(** *** Reads of the mappings *)

Definition agents (s : Storage) (id : uint256) : AgentInfo :=
  default (mkAgentInfo 0 EmptyString 0) (_agents s !! id).

Definition domainToAgentId (s : Storage) (d : string) : uint256 :=
  default 0 (_domainToAgentId s !! d).

Definition addressToAgentId (s : Storage) (a : address) : uint256 :=
  default 0 (_addressToAgentId s !! a).

Definition nonceUsed (s : Storage) (client : address) (nonce : uint256)
  : bool :=
  bool_decide ((client, nonce) ∈ checkAsyncNonce s).

(** *** Writes *)

Definition set_agentIdCounter (c : uint256) (s : Storage) : Storage :=
  mkStorage c (checkAsyncNonce s) (_agents s) (_domainToAgentId s)
    (_addressToAgentId s).

Definition set_nonce (client : address) (nonce : uint256) (s : Storage)
  : Storage :=
  mkStorage (_agentIdCounter s) ({[ (client, nonce) ]} ∪ checkAsyncNonce s)
    (_agents s) (_domainToAgentId s) (_addressToAgentId s).

Definition set_agent (id : uint256) (a : AgentInfo) (s : Storage)
  : Storage :=
  mkStorage (_agentIdCounter s) (checkAsyncNonce s) (<[id := a]> (_agents s))
    (_domainToAgentId s) (_addressToAgentId s).

(** [_agents[id].agentDomain = d] *)
Definition set_agentDomain (id : uint256) (d : string) (s : Storage)
  : Storage :=
  set_agent id
    (mkAgentInfo (agentId (agents s id)) d (agentAddress (agents s id))) s.

(** [_agents[id].agentAddress = a] *)
Definition set_agentAddress (id : uint256) (a : address) (s : Storage)
  : Storage :=
  set_agent id
    (mkAgentInfo (agentId (agents s id)) (agentDomain (agents s id)) a) s.

Definition set_domainToAgentId (d : string) (id : uint256) (s : Storage)
  : Storage :=
  mkStorage (_agentIdCounter s) (checkAsyncNonce s) (_agents s)
    (<[d := id]> (_domainToAgentId s)) (_addressToAgentId s).

Definition delete_domainToAgentId (d : string) (s : Storage) : Storage :=
  mkStorage (_agentIdCounter s) (checkAsyncNonce s) (_agents s)
    (delete d (_domainToAgentId s)) (_addressToAgentId s).

Definition set_addressToAgentId (a : address) (id : uint256) (s : Storage)
  : Storage :=
  mkStorage (_agentIdCounter s) (checkAsyncNonce s) (_agents s)
    (_domainToAgentId s) (<[a := id]> (_addressToAgentId s)).

Definition delete_addressToAgentId (a : address) (s : Storage) : Storage :=
  mkStorage (_agentIdCounter s) (checkAsyncNonce s) (_agents s)
    (_domainToAgentId s) (delete a (_addressToAgentId s)).

(** *** The signed messages *)

Definition newAgent_query (env : Env) (client : address)
    (domain : string) (addr : address) (nonce : uint256)
    (signature : bytes) : SigQuery :=
  {| q_evvmID := toString (evvmID env);
     q_functionName := "newAgent";
     q_message :=
       domain +:+ "," +:+ toHexString addr 20 +:+ "," +:+ toString nonce;
     q_signature := signature;
     q_signer := client |}.

Definition updateAgent_query (env : Env) (client : address) (id : uint256)
    (newDomain : string) (newAddr : address) (nonce : uint256)
    (signature : bytes) : SigQuery :=
  {| q_evvmID := toString (evvmID env);
     q_functionName := "updateAgent";
     q_message :=
       toString id +:+ "," +:+ newDomain +:+ "," +:+
       toHexString newAddr 20 +:+ "," +:+ toString nonce;
     q_signature := signature;
     q_signer := client |}.

Section Contract.
Context (signatureVerification : Verifier).

(** [agentId = _agentIdCounter++] *)
Definition next_agentId : Exec Storage Event uint256 :=
  c ← gets _agentIdCounter;
  c' ← checked_add c 1;
  modify (set_agentIdCounter c') ;;
  mret c.

Definition newAgent (env : Env) (client : address) (agentDomain : string)
    (agentAddress : address) (nonce : uint256) (signature : bytes)
  : Exec Storage Event uint256 :=
  revert_if (bool_decide (msg_value env ≠ REGISTRATION_FEE))
    InsufficientFee ;;
  revert_if (bool_decide (String.length agentDomain = 0%nat))
    InvalidDomain ;;
  revert_if (bool_decide (agentAddress = 0)) InvalidAddress ;;
  d ← gets (λ s, domainToAgentId s agentDomain);
  revert_if (bool_decide (d ≠ 0)) DomainAlreadyRegistered ;;
  a ← gets (λ s, addressToAgentId s agentAddress);
  revert_if (bool_decide (a ≠ 0)) AddressAlreadyRegistered ;;
  revert_if
    (negb (verify signatureVerification
             (newAgent_query env client agentDomain agentAddress nonce
                signature)))
    InvalidSignature ;;
  used ← gets (λ s, nonceUsed s client nonce);
  revert_if used NonceAlreadyUsed ;;
  agentId ← next_agentId;
  modify (set_agent agentId (mkAgentInfo agentId agentDomain agentAddress)) ;;
  modify (set_domainToAgentId agentDomain agentId) ;;
  modify (set_addressToAgentId agentAddress agentId) ;;
  modify (set_nonce client nonce) ;;
  emit (AgentRegistered agentId agentDomain agentAddress) ;;
  mret agentId.

Definition updateAgent (env : Env) (client : address) (agentId : uint256)
    (newAgentDomain : string) (newAgentAddress : address)
    (nonce : uint256) (signature : bytes)
  : Exec Storage Event bool :=
  id ← gets (λ s, IIdentityRegistry.agentId (agents s agentId));
  revert_if (bool_decide (id = 0)) AgentNotFound ;;
  owner ← gets (λ s, agentAddress (agents s agentId));
  revert_if (bool_decide (msg_sender env ≠ owner)) UnauthorizedUpdate ;;
  revert_if
    (negb (verify signatureVerification
             (updateAgent_query env client agentId newAgentDomain
                newAgentAddress nonce signature)))
    InvalidSignature ;;
  used ← gets (λ s, nonceUsed s client nonce);
  revert_if used NonceAlreadyUsed ;;
  let domainChanged :=
    bool_decide (0 < String.length newAgentDomain)%nat in
  let addressChanged := bool_decide (newAgentAddress ≠ 0) in
  when domainChanged
    (d ← gets (λ s, domainToAgentId s newAgentDomain);
     revert_if (bool_decide (d ≠ 0)) DomainAlreadyRegistered) ;;
  when addressChanged
    (a ← gets (λ s, addressToAgentId s newAgentAddress);
     revert_if (bool_decide (a ≠ 0)) AddressAlreadyRegistered) ;;
  when domainChanged
    (old ← gets (λ s, agentDomain (agents s agentId));
     modify (delete_domainToAgentId old) ;;
     modify (set_agentDomain agentId newAgentDomain) ;;
     modify (set_domainToAgentId newAgentDomain agentId)) ;;
  when addressChanged
    (old ← gets (λ s, agentAddress (agents s agentId));
     modify (delete_addressToAgentId old) ;;
     modify (set_agentAddress agentId newAgentAddress) ;;
     modify (set_addressToAgentId newAgentAddress agentId)) ;;
  modify (set_nonce client nonce) ;;
  d ← gets (λ s, agentDomain (agents s agentId));
  a ← gets (λ s, agentAddress (agents s agentId));
  emit (AgentUpdated agentId d a) ;;
  mret true.
End Contract.

(** *** The storage a successful call leaves *)

Definition registered (client : address) (agentDomain : string)
    (agentAddress : address) (nonce : uint256) (s : Storage) : Storage :=
  let id := _agentIdCounter s in
  mkStorage (id + 1) ({[ (client, nonce) ]} ∪ checkAsyncNonce s)
    (<[id := mkAgentInfo id agentDomain agentAddress]> (_agents s))
    (<[agentDomain := id]> (_domainToAgentId s))
    (<[agentAddress := id]> (_addressToAgentId s)).

Definition moved_domain (id : uint256) (newAgentDomain : string)
    (s : Storage) : Storage :=
  set_domainToAgentId newAgentDomain id
    (set_agentDomain id newAgentDomain
       (delete_domainToAgentId (agentDomain (agents s id)) s)).

Definition moved_address (id : uint256) (newAgentAddress : address)
    (s : Storage) : Storage :=
  set_addressToAgentId newAgentAddress id
    (set_agentAddress id newAgentAddress
       (delete_addressToAgentId (agentAddress (agents s id)) s)).

Definition updated (client : address) (id : uint256)
    (newAgentDomain : string) (newAgentAddress : address) (nonce : uint256)
    (s : Storage) : Storage :=
  let s1 :=
    if bool_decide (0 < String.length newAgentDomain)%nat
    then moved_domain id newAgentDomain s else s in
  let s2 :=
    if bool_decide (newAgentAddress ≠ 0)
    then moved_address id newAgentAddress s1 else s1 in
  set_nonce client nonce s2.

(** *** Read functions *)

Definition getAgent (s : Storage) (agentId : uint256) : Result AgentInfo :=
  let agentInfo := agents s agentId in
  if bool_decide (IIdentityRegistry.agentId agentInfo = 0)
  then Err AgentNotFound else Ok agentInfo.

Definition resolveByDomain (s : Storage) (agentDomain : string)
  : Result AgentInfo :=
  let agentId := domainToAgentId s agentDomain in
  if bool_decide (agentId = 0) then Err AgentNotFound
  else Ok (agents s agentId).

Definition resolveByAddress (s : Storage) (agentAddress : address)
  : Result AgentInfo :=
  let agentId := addressToAgentId s agentAddress in
  if bool_decide (agentId = 0) then Err AgentNotFound
  else Ok (agents s agentId).

(** [_agentIdCounter - 1], checked. *)
Definition getAgentCount (s : Storage) : Result uint256 :=
  if bool_decide (1 ≤ _agentIdCounter s) then Ok (_agentIdCounter s - 1)
  else Err Panic.

Definition agentExists (s : Storage) (agentId : uint256) : bool :=
  bool_decide (IIdentityRegistry.agentId (agents s agentId) ≠ 0).
End IdentityRegistry.

(** ** ReputationRegistry *)

(** [abi.encodePacked] of one unsigned value of [width] bytes: big endian. *)
Definition be_bytes (width : nat) (v : N) : list N :=
  (λ i : nat, (v / 256 ^ N.of_nat i) mod 256) <$> reverse (seq 0 width).

(** [keccak256] is a primitive of the execution environment: the contracts
    are parameterised by it. *)
Abbreviation Hasher := (list N → N) (only parsing).

Module ReputationRegistry.
Import IIdentityRegistry.

Inductive Event : Type :=
  | AuthFeedback (agentClientId agentServerId : uint256)
      (feedbackAuthId : bytes32).

Record Storage : Type := mkStorage {
  checkAsyncNonce : gset (address * uint256);
  _feedbackAuthorizations : gmap bytes32 bool;
  _clientServerToAuthId : gmap (uint256 * uint256) bytes32
}.

Definition constructor : Storage := mkStorage ∅ ∅ ∅.

Definition nonceUsed (s : Storage) (client : address) (nonce : uint256)
  : bool :=
  bool_decide ((client, nonce) ∈ checkAsyncNonce s).

Definition feedbackAuthorizations (s : Storage) (id : bytes32) : bool :=
  default false (_feedbackAuthorizations s !! id).

Definition clientServerToAuthId (s : Storage) (c v : uint256) : bytes32 :=
  default 0 (_clientServerToAuthId s !! (c, v)).

Definition set_nonce (client : address) (nonce : uint256) (s : Storage)
  : Storage :=
  mkStorage ({[ (client, nonce) ]} ∪ checkAsyncNonce s)
    (_feedbackAuthorizations s) (_clientServerToAuthId s).

Definition set_feedbackAuthorization (id : bytes32) (b : bool)
    (s : Storage) : Storage :=
  mkStorage (checkAsyncNonce s) (<[id := b]> (_feedbackAuthorizations s))
    (_clientServerToAuthId s).

Definition set_clientServerToAuthId (c v : uint256) (id : bytes32)
    (s : Storage) : Storage :=
  mkStorage (checkAsyncNonce s) (_feedbackAuthorizations s)
    (<[(c, v) := id]> (_clientServerToAuthId s)).

Definition acceptFeedback_query (env : Env) (client : address)
    (agentClientId agentServerId nonce : uint256) (signature : bytes)
  : SigQuery :=
  {| q_evvmID := toString (evvmID env);
     q_functionName := "updateAgent";
     q_message :=
       toString agentClientId +:+ "," +:+ toString agentServerId +:+ "," +:+
       toString nonce;
     q_signature := signature;
     q_signer := client |}.

Section Contract.
Context (signatureVerification : Verifier) (keccak256 : Hasher).
(** The storage of the contract [identityRegistry] points to, at the
    time of the call. *)
Context (identityRegistry : IdentityRegistry.Storage).

Definition _generateFeedbackAuthId (env : Env)
    (agentClientId agentServerId : uint256) : bytes32 :=
  keccak256
    (be_bytes 32 agentClientId ++ be_bytes 32 agentServerId ++
     be_bytes 32 (block_timestamp env) ++
     be_bytes 32 (block_difficulty env) ++ be_bytes 20 (tx_origin env)).

Definition acceptFeedback (env : Env) (client : address)
    (agentClientId agentServerId nonce : uint256) (signature : bytes)
  : Exec Storage Event unit :=
  revert_if
    (negb (IdentityRegistry.agentExists identityRegistry agentClientId))
    AgentNotFound ;;
  revert_if
    (negb (IdentityRegistry.agentExists identityRegistry agentServerId))
    AgentNotFound ;;
  revert_if
    (negb (verify signatureVerification
             (acceptFeedback_query env client agentClientId agentServerId
                nonce signature)))
    InvalidSignature ;;
  used ← gets (λ s, nonceUsed s client nonce);
  revert_if used NonceAlreadyUsed ;;
  serverAgent ←
    call_view (IdentityRegistry.getAgent identityRegistry agentServerId);
  revert_if (bool_decide (msg_sender env ≠ agentAddress serverAgent))
    UnauthorizedFeedback ;;
  existingAuthId ←
    gets (λ s, clientServerToAuthId s agentClientId agentServerId);
  revert_if (bool_decide (existingAuthId ≠ 0)) FeedbackAlreadyAuthorized ;;
  let feedbackAuthId :=
    _generateFeedbackAuthId env agentClientId agentServerId in
  modify (set_feedbackAuthorization feedbackAuthId true) ;;
  modify (set_clientServerToAuthId agentClientId agentServerId
            feedbackAuthId) ;;
  modify (set_nonce client nonce) ;;
  emit (AuthFeedback agentClientId agentServerId feedbackAuthId).
End Contract.

(** *** The storage a successful call leaves *)

Definition authorized (client : address)
    (agentClientId agentServerId nonce : uint256) (feedbackAuthId : bytes32)
    (s : Storage) : Storage :=
  set_nonce client nonce
    (set_clientServerToAuthId agentClientId agentServerId feedbackAuthId
       (set_feedbackAuthorization feedbackAuthId true s)).

Definition isFeedbackAuthorized (s : Storage)
    (agentClientId agentServerId : uint256) : bool * bytes32 :=
  let feedbackAuthId := clientServerToAuthId s agentClientId agentServerId in
  (bool_decide (feedbackAuthId ≠ 0) && feedbackAuthorizations s feedbackAuthId,
   feedbackAuthId).

Definition getFeedbackAuthId (s : Storage)
    (agentClientId agentServerId : uint256) : bytes32 :=
  clientServerToAuthId s agentClientId agentServerId.
End ReputationRegistry.

(** ** ValidationRegistry *)

(** The struct of the interface [IValidationRegistry], as the contract
    uses it. *)
Module IValidationRegistry.
Record Request : Type := mkRequest {
  agentValidatorId : uint256;
  agentServerId : uint256;
  dataHash : bytes32;
  timestamp : uint256;
  responded : bool
}.

Global Instance Request_eq_dec : EqDecision Request.
Proof. solve_decision. Defined.
End IValidationRegistry.

Module ValidationRegistry.
Import IIdentityRegistry IValidationRegistry.

Definition EXPIRATION_SLOTS : uint256 := 1000.

Inductive Event : Type :=
  | ValidationRequestEvent (agentValidatorId agentServerId : uint256)
      (dataHash : bytes32)
  | ValidationResponseEvent (agentValidatorId agentServerId : uint256)
      (dataHash : bytes32) (response : uint8).

Record Storage : Type := mkStorage {
  checkAsyncNonce : gset (address * uint256);
  _validationRequests : gmap bytes32 Request;
  _validationResponses : gmap bytes32 uint8;
  _hasResponse : gmap bytes32 bool
}.

Definition constructor : Storage := mkStorage ∅ ∅ ∅ ∅.

Definition nonceUsed (s : Storage) (client : address) (nonce : uint256)
  : bool :=
  bool_decide ((client, nonce) ∈ checkAsyncNonce s).

Definition validationRequests (s : Storage) (h : bytes32) : Request :=
  default (mkRequest 0 0 0 0 false) (_validationRequests s !! h).

Definition validationResponses (s : Storage) (h : bytes32) : uint8 :=
  default 0 (_validationResponses s !! h).

Definition hasResponse (s : Storage) (h : bytes32) : bool :=
  default false (_hasResponse s !! h).

Definition set_nonce (client : address) (nonce : uint256) (s : Storage)
  : Storage :=
  mkStorage ({[ (client, nonce) ]} ∪ checkAsyncNonce s)
    (_validationRequests s) (_validationResponses s) (_hasResponse s).

Definition set_validationRequest (h : bytes32) (r : Request) (s : Storage)
  : Storage :=
  mkStorage (checkAsyncNonce s) (<[h := r]> (_validationRequests s))
    (_validationResponses s) (_hasResponse s).

(** [_validationRequests[h].responded = b] *)
Definition set_responded (h : bytes32) (b : bool) (s : Storage) : Storage :=
  let r := validationRequests s h in
  set_validationRequest h
    (mkRequest (agentValidatorId r) (agentServerId r) (dataHash r)
       (timestamp r) b) s.

Definition set_validationResponse (h : bytes32) (v : uint8) (s : Storage)
  : Storage :=
  mkStorage (checkAsyncNonce s) (_validationRequests s)
    (<[h := v]> (_validationResponses s)) (_hasResponse s).

Definition set_hasResponse (h : bytes32) (b : bool) (s : Storage)
  : Storage :=
  mkStorage (checkAsyncNonce s) (_validationRequests s)
    (_validationResponses s) (<[h := b]> (_hasResponse s)).

Definition validationRequest_query (env : Env) (client : address)
    (agentValidatorId agentServerId : uint256) (dataHash : bytes32)
    (nonce : uint256) (signature : bytes) : SigQuery :=
  {| q_evvmID := toString (evvmID env);
     q_functionName := "updateAgent";
     q_message :=
       toString agentValidatorId +:+ "," +:+ toString agentServerId +:+
       "," +:+ toHexString dataHash 32 +:+ "," +:+ toString nonce;
     q_signature := signature;
     q_signer := client |}.

Definition validationResponse_query (env : Env) (client : address)
    (dataHash : bytes32) (response : uint8) (nonce : uint256)
    (signature : bytes) : SigQuery :=
  {| q_evvmID := toString (evvmID env);
     q_functionName := "updateAgent";
     q_message :=
       toHexString dataHash 32 +:+ "," +:+ toString response +:+ "," +:+
       toString nonce;
     q_signature := signature;
     q_signer := client |}.

Section Contract.
Context (signatureVerification : Verifier).
(** The storage of the contract [identityRegistry] points to, at the
    time of the call. *)
Context (identityRegistry : IdentityRegistry.Storage).

Definition validationRequest (env : Env) (client : address)
    (agentValidatorId agentServerId : uint256) (dataHash : bytes32)
    (nonce : uint256) (signature : bytes) : Exec Storage Event unit :=
  revert_if (bool_decide (dataHash = 0)) InvalidDataHash ;;
  revert_if
    (negb (IdentityRegistry.agentExists identityRegistry agentValidatorId))
    AgentNotFound ;;
  revert_if
    (negb (IdentityRegistry.agentExists identityRegistry agentServerId))
    AgentNotFound ;;
  revert_if
    (negb (verify signatureVerification
             (validationRequest_query env client agentValidatorId
                agentServerId dataHash nonce signature)))
    InvalidSignature ;;
  used ← gets (λ s, nonceUsed s client nonce);
  revert_if used NonceAlreadyUsed ;;
  existingRequest ← gets (λ s, validationRequests s dataHash);
  stillValid ←
    (if bool_decide (IValidationRegistry.dataHash existingRequest ≠ 0)
     then
       deadline ← checked_add (timestamp existingRequest) EXPIRATION_SLOTS;
       mret (bool_decide (block_number env ≤ deadline))
     else mret false);
  if stillValid : bool
  then
    (* the early [return] of the source *)
    emit (ValidationRequestEvent agentValidatorId agentServerId dataHash)
  else
    modify (set_validationRequest dataHash
              (mkRequest agentValidatorId agentServerId dataHash
                 (block_number env) false)) ;;
    modify (set_nonce client nonce) ;;
    emit (ValidationRequestEvent agentValidatorId agentServerId dataHash).

Definition validationResponse (env : Env) (client : address)
    (dataHash : bytes32) (response : uint8) (nonce : uint256)
    (signature : bytes) : Exec Storage Event unit :=
  revert_if (bool_decide (100 < response)) InvalidResponse ;;
  stored ← gets (λ s, IValidationRegistry.dataHash
                        (validationRequests s dataHash));
  revert_if (bool_decide (stored = 0)) ValidationRequestNotFound ;;
  created ← gets (λ s, timestamp (validationRequests s dataHash));
  deadline ← checked_add created EXPIRATION_SLOTS;
  revert_if (bool_decide (deadline < block_number env)) RequestExpired ;;
  already ← gets (λ s, responded (validationRequests s dataHash));
  revert_if already ValidationAlreadyResponded ;;
  revert_if
    (negb (verify signatureVerification
             (validationResponse_query env client dataHash response nonce
                signature)))
    InvalidSignature ;;
  used ← gets (λ s, nonceUsed s client nonce);
  revert_if used NonceAlreadyUsed ;;
  validatorId ← gets (λ s, agentValidatorId (validationRequests s dataHash));
  validatorAgent ←
    call_view (IdentityRegistry.getAgent identityRegistry validatorId);
  revert_if (bool_decide (msg_sender env ≠ agentAddress validatorAgent))
    UnauthorizedValidator ;;
  modify (set_responded dataHash true) ;;
  modify (set_validationResponse dataHash response) ;;
  modify (set_hasResponse dataHash true) ;;
  modify (set_nonce client nonce) ;;
  v ← gets (λ s, agentValidatorId (validationRequests s dataHash));
  w ← gets (λ s, IValidationRegistry.agentServerId
                   (validationRequests s dataHash));
  emit (ValidationResponseEvent v w dataHash response).
End Contract.

(** *** The storage a successful call leaves *)

Definition requested (client : address)
    (agentValidatorId agentServerId : uint256) (dataHash : bytes32)
    (nonce : uint256) (height : uint256) (s : Storage) : Storage :=
  set_nonce client nonce
    (set_validationRequest dataHash
       (mkRequest agentValidatorId agentServerId dataHash height false) s).

Definition answered (client : address) (dataHash : bytes32)
    (response : uint8) (nonce : uint256) (s : Storage) : Storage :=
  set_nonce client nonce
    (set_hasResponse dataHash true
       (set_validationResponse dataHash response
          (set_responded dataHash true s))).

(** Whether a request for [dataHash] is stored and its window is still
    open at [height]: the branch of [validationRequest] that returns
    early. *)
Definition stillValid (s : Storage) (dataHash : bytes32) (height : uint256)
  : bool :=
  bool_decide
    (IValidationRegistry.dataHash (validationRequests s dataHash) ≠ 0) &&
  bool_decide
    (height ≤ timestamp (validationRequests s dataHash) + EXPIRATION_SLOTS).

(** The storage holds an answer for [h]: the request record [answer], a
    response flag and the score. *)
Definition holds_answer (h : bytes32) (answer : Request) (score : uint8)
    (s : Storage) : Prop :=
  validationRequests s h = answer ∧
  hasResponse s h = true ∧
  validationResponses s h = score.

Definition getValidationRequest (s : Storage) (dataHash : bytes32)
  : Result Request :=
  let request := validationRequests s dataHash in
  if bool_decide (IValidationRegistry.dataHash request = 0)
  then Err ValidationRequestNotFound else Ok request.

Definition isValidationPending (env : Env) (s : Storage)
    (dataHash : bytes32) : Result (bool * bool) :=
  let request := validationRequests s dataHash in
  if bool_decide (IValidationRegistry.dataHash request ≠ 0) then
    if bool_decide (timestamp request + EXPIRATION_SLOTS ≤ UINT256_MAX) then
      let expired :=
        bool_decide (timestamp request + EXPIRATION_SLOTS < block_number env)
      in
      Ok (true, negb expired && negb (responded request))
    else Err Panic
  else Ok (false, false).

Definition getValidationResponse (s : Storage) (dataHash : bytes32)
  : bool * uint8 :=
  if hasResponse s dataHash then (true, validationResponses s dataHash)
  else (false, 0).

Definition getExpirationSlots : uint256 := EXPIRATION_SLOTS.
End ValidationRegistry.

(** ** The three registries as deployed together

    One [IdentityRegistry], and a [ReputationRegistry] and a
    [ValidationRegistry] constructed with its address. *)

Module Protocol.
Record Registries : Type := mkRegistries {
  identity : IdentityRegistry.Storage;
  reputation : ReputationRegistry.Storage;
  validation : ValidationRegistry.Storage
}.

Definition deployed : Registries :=
  mkRegistries IdentityRegistry.constructor ReputationRegistry.constructor
    ValidationRegistry.constructor.

(** The mutating entry points, with their arguments. *)
Inductive Call : Type :=
  | NewAgent (client : address) (agentDomain : string)
      (agentAddress : address) (nonce : uint256) (signature : bytes)
  | UpdateAgent (client : address) (agentId : uint256)
      (newAgentDomain : string) (newAgentAddress : address)
      (nonce : uint256) (signature : bytes)
  | AcceptFeedback (client : address) (agentClientId agentServerId : uint256)
      (nonce : uint256) (signature : bytes)
  | ValidationRequest (client : address)
      (agentValidatorId agentServerId : uint256) (dataHash : bytes32)
      (nonce : uint256) (signature : bytes)
  | ValidationResponse (client : address) (dataHash : bytes32)
      (response : uint8) (nonce : uint256) (signature : bytes).

Inductive Returned : Type :=
  | RetUint (n : uint256)
  | RetBool (b : bool)
  | RetUnit.

Inductive Event : Type :=
  | IdentityEvent (ev : IdentityRegistry.Event)
  | ReputationEvent (ev : ReputationRegistry.Event)
  | ValidationEvent (ev : ValidationRegistry.Event).

Definition on_identity {A} (ret : A → Returned)
    (m : Exec IdentityRegistry.Storage IdentityRegistry.Event A)
  : Exec Registries Event Returned :=
  λ w,
    match m (identity w) with
    | Done a s log =>
        Done (ret a) (mkRegistries s (reputation w) (validation w))
          (IdentityEvent <$> log)
    | Revert e s => Revert e (mkRegistries s (reputation w) (validation w))
    end.

Definition on_reputation
    (m : IdentityRegistry.Storage →
         Exec ReputationRegistry.Storage ReputationRegistry.Event unit)
  : Exec Registries Event Returned :=
  λ w,
    match m (identity w) (reputation w) with
    | Done _ s log =>
        Done RetUnit (mkRegistries (identity w) s (validation w))
          (ReputationEvent <$> log)
    | Revert e s => Revert e (mkRegistries (identity w) s (validation w))
    end.

Definition on_validation
    (m : IdentityRegistry.Storage →
         Exec ValidationRegistry.Storage ValidationRegistry.Event unit)
  : Exec Registries Event Returned :=
  λ w,
    match m (identity w) (validation w) with
    | Done _ s log =>
        Done RetUnit (mkRegistries (identity w) (reputation w) s)
          (ValidationEvent <$> log)
    | Revert e s => Revert e (mkRegistries (identity w) (reputation w) s)
    end.

Section Calls.
Context (signatureVerification : Verifier) (keccak256 : Hasher).

Definition call (env : Env) (c : Call) : Exec Registries Event Returned :=
  match c with
  | NewAgent client agentDomain agentAddress nonce signature =>
      on_identity RetUint
        (IdentityRegistry.newAgent signatureVerification env client
           agentDomain agentAddress nonce signature)
  | UpdateAgent client agentId newAgentDomain newAgentAddress nonce
      signature =>
      on_identity RetBool
        (IdentityRegistry.updateAgent signatureVerification env client
           agentId newAgentDomain newAgentAddress nonce signature)
  | AcceptFeedback client agentClientId agentServerId nonce signature =>
      on_reputation
        (λ ir, ReputationRegistry.acceptFeedback signatureVerification
                 keccak256 ir env client agentClientId agentServerId nonce
                 signature)
  | ValidationRequest client agentValidatorId agentServerId dataHash nonce
      signature =>
      on_validation
        (λ ir, ValidationRegistry.validationRequest signatureVerification
                 ir env client agentValidatorId agentServerId dataHash
                 nonce signature)
  | ValidationResponse client dataHash response nonce signature =>
      on_validation
        (λ ir, ValidationRegistry.validationResponse signatureVerification
                 ir env client dataHash response nonce signature)
  end.

(** One transaction: the call, then commit or roll back. *)
Definition transact (w : Registries) (tx : Env * Call) : Registries :=
  commit w (call tx.1 tx.2 w).

Definition run (txs : list (Env * Call)) (w : Registries) : Registries :=
  foldl transact w txs.
End Calls.

(** The principal and nonce a call spends. *)
Definition principal_nonce (c : Call) : address * uint256 :=
  match c with
  | NewAgent client _ _ nonce _ => (client, nonce)
  | UpdateAgent client _ _ _ nonce _ => (client, nonce)
  | AcceptFeedback client _ _ nonce _ => (client, nonce)
  | ValidationRequest client _ _ _ nonce _ => (client, nonce)
  | ValidationResponse client _ _ nonce _ => (client, nonce)
  end.

(** Whether the registry a call goes to has the call's nonce marked used
    for its principal. *)
Definition nonce_used (w : Registries) (c : Call) : bool :=
  match c with
  | NewAgent client _ _ nonce _ | UpdateAgent client _ _ _ nonce _ =>
      IdentityRegistry.nonceUsed (identity w) client nonce
  | AcceptFeedback client _ _ nonce _ =>
      ReputationRegistry.nonceUsed (reputation w) client nonce
  | ValidationRequest client _ _ _ nonce _
  | ValidationResponse client _ _ nonce _ =>
      ValidationRegistry.nonceUsed (validation w) client nonce
  end.

(** A call that takes the early [return] of [validationRequest]. *)
Definition retries (env : Env) (w : Registries) (c : Call) : bool :=
  match c with
  | ValidationRequest _ _ _ dataHash _ _ =>
      ValidationRegistry.stillValid (validation w) dataHash (block_number env)
  | _ => false
  end.

(** The name of the entry point a call invokes. *)
Definition operation_name (c : Call) : string :=
  match c with
  | NewAgent _ _ _ _ _ => "newAgent"
  | UpdateAgent _ _ _ _ _ _ => "updateAgent"
  | AcceptFeedback _ _ _ _ _ => "acceptFeedback"
  | ValidationRequest _ _ _ _ _ _ => "validationRequest"
  | ValidationResponse _ _ _ _ _ => "validationResponse"
  end.

(** The query a call hands to the signature verifier. *)
Definition signature_query (env : Env) (c : Call) : SigQuery :=
  match c with
  | NewAgent client agentDomain agentAddress nonce signature =>
      IdentityRegistry.newAgent_query env client agentDomain agentAddress
        nonce signature
  | UpdateAgent client agentId newAgentDomain newAgentAddress nonce
      signature =>
      IdentityRegistry.updateAgent_query env client agentId newAgentDomain
        newAgentAddress nonce signature
  | AcceptFeedback client agentClientId agentServerId nonce signature =>
      ReputationRegistry.acceptFeedback_query env client agentClientId
        agentServerId nonce signature
  | ValidationRequest client agentValidatorId agentServerId dataHash nonce
      signature =>
      ValidationRegistry.validationRequest_query env client agentValidatorId
        agentServerId dataHash nonce signature
  | ValidationResponse client dataHash response nonce signature =>
      ValidationRegistry.validationResponse_query env client dataHash
        response nonce signature
  end.
End Protocol.

(** ** A test bench

    The helper of the test base: a signature over
    [toString(evvmId) ++ functionName ++ message] by a key. Here a
    signature is that text itself followed by the signer, and the verifier
    compares; the hash sums the bytes. Only the examples use them. *)
Module TestBase.
Definition generateSignature (evvmId : uint256)
    (functionName message : string) (signer : address) : bytes :=
  toString evvmId +:+ functionName +:+ message +:+ "@" +:+ toString signer.

Definition signatureVerification : Verifier :=
  λ evvmID functionName message signature signer,
    bool_decide
      (signature =
       evvmID +:+ functionName +:+ message +:+ "@" +:+ toString signer).

Definition keccak256 : Hasher := λ bs, 1 + foldr N.add 0 bs.

Definition EVVM_ID : uint256 := 1.

(** A transaction environment: sender, value and block height. *)
Definition at_block (sender : address) (value height : uint256) : Env :=
  {| msg_sender := sender; msg_value := value; block_number := height;
     block_timestamp := 1700000000 + height; block_difficulty := 0;
     tx_origin := sender; evvmID := EVVM_ID |}.

(** A call with the signature its contract accepts from its client. *)
Definition signed (env : Env) (functionName : string)
    (c : bytes → Protocol.Call) : Protocol.Call :=
  let q := Protocol.signature_query env (c EmptyString) in
  c (generateSignature (evvmID env) functionName (q_message q) (q_signer q)).
End TestBase.

(** ** The specification's reading of [newAgent]'s preconditions *)
Module Spec.
(** The first precondition of a list that does not hold, with the error
    it is reported by. *)
Fixpoint first_violated (checks : list (bool * Error)) : option Error :=
  match checks with
  | [] => None
  | (holds, e) :: rest => if holds : bool then first_violated rest else Some e
  end.

(** The preconditions of [newAgent] in the order section 4.2 lists them:
    fee, domain non-empty, address non-null, domain unclaimed, address
    unclaimed, signature over [domain,hex(address),nonce], nonce unused. *)
Definition newAgent_preconditions (signatureVerification : Verifier)
    (env : Env) (client : address) (domain : string) (addr : address)
    (nonce : uint256) (signature : bytes) (s : IdentityRegistry.Storage)
  : list (bool * Error) :=
  [ (bool_decide (msg_value env = IdentityRegistry.REGISTRATION_FEE),
     InsufficientFee);
    (bool_decide (domain ≠ EmptyString), InvalidDomain);
    (bool_decide (addr ≠ 0), InvalidAddress);
    (bool_decide (IdentityRegistry.domainToAgentId s domain = 0),
     DomainAlreadyRegistered);
    (bool_decide (IdentityRegistry.addressToAgentId s addr = 0),
     AddressAlreadyRegistered);
    (signatureVerification (toString (evvmID env)) "newAgent"
       (domain +:+ "," +:+ toHexString addr 20 +:+ "," +:+ toString nonce)
       signature client,
     InvalidSignature);
    (bool_decide ((client, nonce) ∉ IdentityRegistry.checkAsyncNonce s),
     NonceAlreadyUsed) ].
End Spec.

(** ** The scenario of the test suites

    Two agents registered by one signing client; then requests and
    responses for one data hash. *)
Module Scenario.
Import Protocol TestBase.

Definition client : address := 0xC11E.
Definition agentAddress : address := 0xA1.
Definition agentAddress2 : address := 0xB2.
Definition TEST_DOMAIN : string := "a.example.com".
Definition TEST_DOMAIN_2 : string := "b.example.com".
Definition TEST_DATA_HASH : bytes32 := 0xDA7A.

(** A transaction whose signature is made for [functionName]. *)
Definition tx (env : Env) (functionName : string) (c : bytes → Call)
  : Env * Call :=
  (env, signed env functionName c).

Definition register (height : uint256) (domain : string) (addr : address)
    (nonce : uint256) : Env * Call :=
  tx (at_block client IdentityRegistry.REGISTRATION_FEE height) "newAgent"
    (NewAgent client domain addr nonce).

Definition update (sender : address) (height : uint256) (id : uint256)
    (domain : string) (addr : address) (nonce : uint256) : Env * Call :=
  tx (at_block sender 0 height) "updateAgent"
    (UpdateAgent client id domain addr nonce).

(** The server agent accepts feedback from the client agent; the
    signature is made for [functionName]. *)
Definition accept (functionName : string) (height nonce : uint256)
  : Env * Call :=
  tx (at_block agentAddress2 0 height) functionName
    (AcceptFeedback client 1 2 nonce).

(** A validation request by the client, its signature made for
    [functionName]. *)
Definition request_signed_for (functionName : string)
    (height nonce : uint256) : Env * Call :=
  tx (at_block client 0 height) functionName
    (ValidationRequest client 1 2 TEST_DATA_HASH nonce).

(** A validation response sent by the validator's address, its signature
    made for [functionName]. *)
Definition respond_signed_for (functionName : string) (height : uint256)
    (response : uint8) (nonce : uint256) : Env * Call :=
  tx (at_block agentAddress 0 height) functionName
    (ValidationResponse client TEST_DATA_HASH response nonce).

(** As the test suites sign them. *)
Definition request (height nonce : uint256) : Env * Call :=
  request_signed_for "updateAgent" height nonce.

Definition respond (height : uint256) (response : uint8) (nonce : uint256)
  : Env * Call :=
  respond_signed_for "updateAgent" height response nonce.

Definition exec (txs : list (Env * Call)) (w : Registries) : Registries :=
  run signatureVerification keccak256 txs w.

Definition attempt (t : Env * Call) (w : Registries)
  : Outcome Registries Event Returned :=
  call signatureVerification keccak256 t.1 t.2 w.

(** Agent 1 (the validator) and agent 2 (the server) are registered. *)
Definition two_agents : Registries :=
  exec [register 1 TEST_DOMAIN agentAddress 1;
        register 2 TEST_DOMAIN_2 agentAddress2 2] deployed.

(** A validation request for the hash is pending since block 10. *)
Definition pending : Registries := exec [request 10 3] two_agents.
End Scenario.

(** ** What the identity directory maintains *)
Module Directory.
Import IIdentityRegistry.

(** Agent [i] exists: its record is not the zero record. *)
Definition present (s : IdentityRegistry.Storage) (i : uint256) : Prop :=
  agentId (IdentityRegistry.agents s i) ≠ 0.

(** The domain index maps [d] to [i] exactly when agent [i] exists with
    domain [d] (0 is the absent handle). *)
Definition domain_index_exact (s : IdentityRegistry.Storage) : Prop :=
  ∀ (d : string) (i : uint256), i ≠ 0 →
    IdentityRegistry.domainToAgentId s d = i ↔
    present s i ∧ agentDomain (IdentityRegistry.agents s i) = d.

(** The address index maps [a] to [i] exactly when agent [i] exists with
    address [a]. *)
Definition address_index_exact (s : IdentityRegistry.Storage) : Prop :=
  ∀ (a : address) (i : uint256), i ≠ 0 →
    IdentityRegistry.addressToAgentId s a = i ↔
    present s i ∧ agentAddress (IdentityRegistry.agents s i) = a.

(** The invariant of the directory: ids are allocated below the counter,
    a record carries its own id, a non-empty domain and a non-null
    address, and both indexes are exact. *)
Record invariant (s : IdentityRegistry.Storage) : Prop := mkInvariant {
  counter_positive : 1 ≤ IdentityRegistry._agentIdCounter s;
  ids_allocated :
    ∀ i, present s i → 1 ≤ i ∧ i < IdentityRegistry._agentIdCounter s;
  records_filled :
    ∀ i, present s i →
      agentDomain (IdentityRegistry.agents s i) ≠ EmptyString ∧
      agentAddress (IdentityRegistry.agents s i) ≠ 0;
  domains_exact : domain_index_exact s;
  addresses_exact : address_index_exact s
}.
End Directory.

(** ** How the identity directory numbers its agents *)
Module Numbering.
Import IIdentityRegistry.

(** A record that exists carries the id it is stored under. *)
Definition own_ids (s : IdentityRegistry.Storage) : Prop :=
  ∀ i, Directory.present s i → agentId (IdentityRegistry.agents s i) = i.

(** The agents that exist are those with an id from 1 up to the counter,
    the counter excluded. *)
Definition dense (s : IdentityRegistry.Storage) : Prop :=
  ∀ i, Directory.present s i ↔
       1 ≤ i ∧ i < IdentityRegistry._agentIdCounter s.

(** Whether a transaction is a [newAgent] call that succeeds. *)
Definition registers (signatureVerification : Verifier) (keccak256 : Hasher)
    (w : Protocol.Registries) (tx : Env * Protocol.Call) : bool :=
  match tx.2 with
  | Protocol.NewAgent _ _ _ _ _ =>
      succeeded (Protocol.call signatureVerification keccak256 tx.1 tx.2 w)
  | _ => false
  end.

(** The number of successful [newAgent] calls in a run. *)
Fixpoint registrations (signatureVerification : Verifier)
    (keccak256 : Hasher) (txs : list (Env * Protocol.Call))
    (w : Protocol.Registries) : nat :=
  match txs with
  | [] => 0
  | tx :: rest =>
      (if registers signatureVerification keccak256 w tx then 1 else 0) +
      registrations signatureVerification keccak256 rest
        (Protocol.transact signatureVerification keccak256 w tx)
  end.
End Numbering.

(** ** What the reputation registry maintains *)
Module Feedback.
(** Every pair with a recorded authorization id has that id flagged. *)
Definition flagged (s : ReputationRegistry.Storage) : Prop :=
  ∀ c v,
    ReputationRegistry.clientServerToAuthId s c v ≠ 0 →
    ReputationRegistry.feedbackAuthorizations s
      (ReputationRegistry.clientServerToAuthId s c v) = true.
End Feedback.

(** ** What the validation registry maintains *)
Module Validations.
Import IValidationRegistry.

(** Stored scores are at most 100, and a hash flagged as answered has a
    stored request. *)
Definition scored (s : ValidationRegistry.Storage) : Prop :=
  ∀ h,
    ValidationRegistry.validationResponses s h ≤ 100 ∧
    (ValidationRegistry.hasResponse s h = true →
     dataHash (ValidationRegistry.validationRequests s h) ≠ 0).

(** A stored request is filed under its own hash and names two agents of
    the identity directory. *)
Definition grounded (w : Protocol.Registries) : Prop :=
  ∀ h,
    let r := ValidationRegistry.validationRequests (Protocol.validation w) h in
    dataHash r ≠ 0 →
    dataHash r = h ∧
    Directory.present (Protocol.identity w) (agentValidatorId r) ∧
    Directory.present (Protocol.identity w) (agentServerId r).
End Validations.

(** ** The checks of the other entry points, in the order of the source *)
Module Checks.
Import IIdentityRegistry IValidationRegistry.

Definition updateAgent_preconditions (signatureVerification : Verifier)
    (env : Env) (client : address) (id : uint256) (newDomain : string)
    (newAddr : address) (nonce : uint256) (signature : bytes)
    (s : IdentityRegistry.Storage) : list (bool * Error) :=
  [ (IdentityRegistry.agentExists s id, AgentNotFound);
    (bool_decide
       (msg_sender env = agentAddress (IdentityRegistry.agents s id)),
     UnauthorizedUpdate);
    (signatureVerification (toString (evvmID env)) "updateAgent"
       (toString id +:+ "," +:+ newDomain +:+ "," +:+
        toHexString newAddr 20 +:+ "," +:+ toString nonce)
       signature client,
     InvalidSignature);
    (bool_decide ((client, nonce) ∉ IdentityRegistry.checkAsyncNonce s),
     NonceAlreadyUsed);
    (bool_decide
       (newDomain = EmptyString ∨
        IdentityRegistry.domainToAgentId s newDomain = 0),
     DomainAlreadyRegistered);
    (bool_decide
       (newAddr = 0 ∨ IdentityRegistry.addressToAgentId s newAddr = 0),
     AddressAlreadyRegistered) ].

Definition acceptFeedback_preconditions (signatureVerification : Verifier)
    (identityRegistry : IdentityRegistry.Storage) (env : Env)
    (client : address) (agentClientId agentServerId nonce : uint256)
    (signature : bytes) (s : ReputationRegistry.Storage)
  : list (bool * Error) :=
  [ (IdentityRegistry.agentExists identityRegistry agentClientId,
     AgentNotFound);
    (IdentityRegistry.agentExists identityRegistry agentServerId,
     AgentNotFound);
    (signatureVerification (toString (evvmID env)) "updateAgent"
       (toString agentClientId +:+ "," +:+ toString agentServerId +:+ "," +:+
        toString nonce)
       signature client,
     InvalidSignature);
    (bool_decide ((client, nonce) ∉ ReputationRegistry.checkAsyncNonce s),
     NonceAlreadyUsed);
    (bool_decide
       (msg_sender env =
        agentAddress (IdentityRegistry.agents identityRegistry agentServerId)),
     UnauthorizedFeedback);
    (bool_decide
       (ReputationRegistry.clientServerToAuthId s agentClientId agentServerId
        = 0),
     FeedbackAlreadyAuthorized) ].

Definition validationRequest_preconditions (signatureVerification : Verifier)
    (identityRegistry : IdentityRegistry.Storage) (env : Env)
    (client : address) (agentValidatorId agentServerId : uint256)
    (h : bytes32) (nonce : uint256) (signature : bytes)
    (s : ValidationRegistry.Storage) : list (bool * Error) :=
  [ (bool_decide (h ≠ 0), InvalidDataHash);
    (IdentityRegistry.agentExists identityRegistry agentValidatorId,
     AgentNotFound);
    (IdentityRegistry.agentExists identityRegistry agentServerId,
     AgentNotFound);
    (signatureVerification (toString (evvmID env)) "updateAgent"
       (toString agentValidatorId +:+ "," +:+ toString agentServerId +:+
        "," +:+ toHexString h 32 +:+ "," +:+ toString nonce)
       signature client,
     InvalidSignature);
    (bool_decide ((client, nonce) ∉ ValidationRegistry.checkAsyncNonce s),
     NonceAlreadyUsed);
    (bool_decide
       (dataHash (ValidationRegistry.validationRequests s h) = 0 ∨
        timestamp (ValidationRegistry.validationRequests s h) +
        ValidationRegistry.EXPIRATION_SLOTS ≤ UINT256_MAX),
     Panic) ].

Definition validationResponse_preconditions (signatureVerification : Verifier)
    (identityRegistry : IdentityRegistry.Storage) (env : Env)
    (client : address) (h : bytes32) (response : uint8) (nonce : uint256)
    (signature : bytes) (s : ValidationRegistry.Storage)
  : list (bool * Error) :=
  let request := ValidationRegistry.validationRequests s h in
  [ (bool_decide (response ≤ 100), InvalidResponse);
    (bool_decide (dataHash request ≠ 0), ValidationRequestNotFound);
    (bool_decide
       (timestamp request + ValidationRegistry.EXPIRATION_SLOTS
        ≤ UINT256_MAX),
     Panic);
    (bool_decide
       (block_number env ≤
        timestamp request + ValidationRegistry.EXPIRATION_SLOTS),
     RequestExpired);
    (negb (responded request), ValidationAlreadyResponded);
    (signatureVerification (toString (evvmID env)) "updateAgent"
       (toHexString h 32 +:+ "," +:+ toString response +:+ "," +:+
        toString nonce)
       signature client,
     InvalidSignature);
    (bool_decide ((client, nonce) ∉ ValidationRegistry.checkAsyncNonce s),
     NonceAlreadyUsed);
    (IdentityRegistry.agentExists identityRegistry (agentValidatorId request),
     AgentNotFound);
    (bool_decide
       (msg_sender env =
        agentAddress
          (IdentityRegistry.agents identityRegistry
             (agentValidatorId request))),
     UnauthorizedValidator) ].
End Checks.

(** ** ZKPVerifier

    The contract [ZKPVerifier]: proofs are submitted under an id and
    verified once. Its [require] failures carry a message; a call that
    fails leaves the storage as it was. *)
Module ZKPVerifier.
Record Proof : Type := mkProof {
  proofHash : bytes32;
  verifier : address;
  timestamp : uint256;
  isVerified : bool
}.

Global Instance Proof_eq_dec : EqDecision Proof.
Proof. solve_decision. Defined.

Inductive Event : Type :=
  | ProofSubmitted (proofId : bytes32) (submitter : address)
  | ProofVerified (proofId : bytes32) (verifier : address).

Inductive Failure : Type :=
  | Require (message : string)
  | Overflow.

Record Storage : Type := mkStorage {
  _proofs : gmap bytes32 Proof;
  _verificationCount : gmap address uint256
}.

Definition constructor : Storage := mkStorage ∅ ∅.

(** The getters of the two public mappings. *)
Definition proofs (s : Storage) (proofId : bytes32) : Proof :=
  default (mkProof 0 0 0 false) (_proofs s !! proofId).

Definition verificationCount (s : Storage) (a : address) : uint256 :=
  default 0 (_verificationCount s !! a).

Inductive Return : Type :=
  | Returned (s : Storage) (log : list Event)
  | Reverted (reason : Failure).

Definition submitProof (env : Env) (proofId proofHash : bytes32)
    (s : Storage) : Return :=
  if negb (bool_decide (timestamp (proofs s proofId) = 0))
  then Reverted (Require "Proof already exists")
  else
    Returned
      (mkStorage
         (<[proofId := mkProof proofHash 0 (block_timestamp env) false]>
            (_proofs s))
         (_verificationCount s))
      [ProofSubmitted proofId (msg_sender env)].

Definition verifyProof (env : Env) (proofId : bytes32) (s : Storage)
  : Return :=
  if negb (bool_decide (timestamp (proofs s proofId) ≠ 0))
  then Reverted (Require "Proof does not exist")
  else if negb (negb (isVerified (proofs s proofId)))
  then Reverted (Require "Proof already verified")
  else
    (* proofs[proofId].isVerified = true *)
    let p := proofs s proofId in
    let s1 :=
      mkStorage
        (<[proofId := mkProof (proofHash p) (verifier p) (timestamp p) true]>
           (_proofs s))
        (_verificationCount s) in
    (* proofs[proofId].verifier = msg.sender *)
    let p1 := proofs s1 proofId in
    let s2 :=
      mkStorage
        (<[proofId :=
             mkProof (proofHash p1) (msg_sender env) (timestamp p1)
               (isVerified p1)]> (_proofs s1))
        (_verificationCount s1) in
    (* verificationCount[msg.sender]++, checked *)
    let count := verificationCount s2 (msg_sender env) in
    if bool_decide (count + 1 ≤ UINT256_MAX)
    then
      Returned
        (mkStorage (_proofs s2)
           (<[msg_sender env := count + 1]> (_verificationCount s2)))
        [ProofVerified proofId (msg_sender env)]
    else Reverted Overflow.

Definition getProof (s : Storage) (proofId : bytes32) : Proof :=
  proofs s proofId.

Definition isProofVerified (s : Storage) (proofId : bytes32) : bool :=
  isVerified (proofs s proofId).

(** The external calls, and a transaction: the storage of a failed call is
    rolled back. *)
Inductive Call : Type :=
  | SubmitProof (proofId proofHash : bytes32)
  | VerifyProof (proofId : bytes32).

Definition call (env : Env) (c : Call) (s : Storage) : Return :=
  match c with
  | SubmitProof proofId proofHash => submitProof env proofId proofHash s
  | VerifyProof proofId => verifyProof env proofId s
  end.

Definition transact (s : Storage) (tx : Env * Call) : Storage :=
  match call tx.1 tx.2 s with
  | Returned s' _ => s'
  | Reverted _ => s
  end.

Definition run (txs : list (Env * Call)) (s : Storage) : Storage :=
  foldl transact s txs.

(** The proofs a given address has verified. *)
Definition verified_by (a : address) (entry : bytes32 * Proof) : Prop :=
  isVerified entry.2 = true ∧ verifier entry.2 = a.

Global Instance verified_by_dec a entry : Decision (verified_by a entry).
Proof. unfold verified_by. apply _. Defined.

Definition verified_count (s : Storage) (a : address) : nat :=
  size (filter (verified_by a) (_proofs s)).

(** A verified proof has a non-zero timestamp. *)
Definition stamped (s : Storage) : Prop :=
  ∀ proofId, isVerified (proofs s proofId) = true →
             timestamp (proofs s proofId) ≠ 0.
End ZKPVerifier.

(** ** What happens in a run *)
Module Runs.
(** No transaction of the run satisfies [P] in the state it is run in. *)
Fixpoint never (signatureVerification : Verifier) (keccak256 : Hasher)
    (P : Protocol.Registries → Env * Protocol.Call → bool)
    (txs : list (Env * Protocol.Call)) (w : Protocol.Registries) : bool :=
  match txs with
  | [] => true
  | tx :: rest =>
      negb (P w tx) &&
      never signatureVerification keccak256 P rest
        (Protocol.transact signatureVerification keccak256 w tx)
  end.

(** The transaction is a [validationResponse] for [dataHash] that
    succeeds. *)
Definition answers (signatureVerification : Verifier) (keccak256 : Hasher)
    (dataHash : bytes32) (w : Protocol.Registries) (tx : Env * Protocol.Call)
  : bool :=
  match tx.2 with
  | Protocol.ValidationResponse _ h _ _ _ =>
      bool_decide (h = dataHash) &&
      succeeded (Protocol.call signatureVerification keccak256 tx.1 tx.2 w)
  | _ => false
  end.

(** The transaction is a [validationRequest] for [dataHash] that succeeds
    through the create/overwrite branch. *)
Definition renewed (signatureVerification : Verifier) (keccak256 : Hasher)
    (dataHash : bytes32) (w : Protocol.Registries) (tx : Env * Protocol.Call)
  : bool :=
  match tx.2 with
  | Protocol.ValidationRequest _ _ _ h _ _ =>
      bool_decide (h = dataHash) &&
      succeeded (Protocol.call signatureVerification keccak256 tx.1 tx.2 w) &&
      negb (ValidationRegistry.stillValid (Protocol.validation w) h
              (block_number tx.1))
  | _ => false
  end.

(** The transaction is an [updateAgent] for agent [id] that succeeds. *)
Definition updates (signatureVerification : Verifier) (keccak256 : Hasher)
    (id : uint256) (w : Protocol.Registries) (tx : Env * Protocol.Call)
  : bool :=
  match tx.2 with
  | Protocol.UpdateAgent _ agentId _ _ _ _ =>
      bool_decide (agentId = id) &&
      succeeded (Protocol.call signatureVerification keccak256 tx.1 tx.2 w)
  | _ => false
  end.
End Runs.

(** * Properties *)

Import IIdentityRegistry IValidationRegistry.

(** ** Running the monad *)

Ltac exec_simpl :=
  cbv beta iota delta
    [mbind mret Exec_bind Exec_ret revert_if when gets modify emit revert
     checked_add call_view].

Ltac split_if :=
  match goal with
  | |- context [if ?b then _ else _] => destruct b eqn:?
  end.

Ltac split_ifs :=
  repeat (split_if; simpl in *; try reflexivity; try congruence).

(** ** Each entry point as a cascade of checks

    Every [revert] is reached with the storage the call started from; the
    writes all follow the last check. *)

Lemma newAgent_cascade sv env client d a n sig s :
  IdentityRegistry.newAgent sv env client d a n sig s =
    if bool_decide (msg_value env ≠ IdentityRegistry.REGISTRATION_FEE)
    then Revert InsufficientFee s
    else if bool_decide (String.length d = 0%nat) then Revert InvalidDomain s
    else if bool_decide (a = 0) then Revert InvalidAddress s
    else if bool_decide (IdentityRegistry.domainToAgentId s d ≠ 0)
    then Revert DomainAlreadyRegistered s
    else if bool_decide (IdentityRegistry.addressToAgentId s a ≠ 0)
    then Revert AddressAlreadyRegistered s
    else if negb (verify sv
                    (IdentityRegistry.newAgent_query env client d a n sig))
    then Revert InvalidSignature s
    else if IdentityRegistry.nonceUsed s client n
    then Revert NonceAlreadyUsed s
    else if bool_decide (IdentityRegistry._agentIdCounter s + 1 ≤ UINT256_MAX)
    then
      Done (IdentityRegistry._agentIdCounter s)
        (IdentityRegistry.registered client d a n s)
        [IdentityRegistry.AgentRegistered (IdentityRegistry._agentIdCounter s)
           d a]
    else Revert Panic s.
Proof.
  unfold IdentityRegistry.newAgent, IdentityRegistry.next_agentId,
    IdentityRegistry.registered.
  exec_simpl. split_ifs.
Qed.

Lemma updateAgent_cascade sv env client id d a n sig s :
  IdentityRegistry.updateAgent sv env client id d a n sig s =
    if bool_decide (agentId (IdentityRegistry.agents s id) = 0)
    then Revert AgentNotFound s
    else if bool_decide
              (msg_sender env ≠ agentAddress (IdentityRegistry.agents s id))
    then Revert UnauthorizedUpdate s
    else if negb (verify sv
                    (IdentityRegistry.updateAgent_query env client id d a n
                       sig))
    then Revert InvalidSignature s
    else if IdentityRegistry.nonceUsed s client n
    then Revert NonceAlreadyUsed s
    else if bool_decide (0 < String.length d)%nat &&
            bool_decide (IdentityRegistry.domainToAgentId s d ≠ 0)
    then Revert DomainAlreadyRegistered s
    else if bool_decide (a ≠ 0) &&
            bool_decide (IdentityRegistry.addressToAgentId s a ≠ 0)
    then Revert AddressAlreadyRegistered s
    else
      let s' := IdentityRegistry.updated client id d a n s in
      Done true s'
        [IdentityRegistry.AgentUpdated id
           (agentDomain (IdentityRegistry.agents s' id))
           (agentAddress (IdentityRegistry.agents s' id))].
Proof.
  unfold IdentityRegistry.updateAgent, IdentityRegistry.updated,
    IdentityRegistry.moved_domain, IdentityRegistry.moved_address.
  exec_simpl. split_ifs.
Qed.

Lemma acceptFeedback_cascade sv k ir env client c v n sig s :
  ReputationRegistry.acceptFeedback sv k ir env client c v n sig s =
    if negb (IdentityRegistry.agentExists ir c) then Revert AgentNotFound s
    else if negb (IdentityRegistry.agentExists ir v)
    then Revert AgentNotFound s
    else if negb (verify sv
                    (ReputationRegistry.acceptFeedback_query env client c v n
                       sig))
    then Revert InvalidSignature s
    else if ReputationRegistry.nonceUsed s client n
    then Revert NonceAlreadyUsed s
    else
      match IdentityRegistry.getAgent ir v with
      | Err e => Revert e s
      | Ok serverAgent =>
          if bool_decide (msg_sender env ≠ agentAddress serverAgent)
          then Revert UnauthorizedFeedback s
          else if bool_decide
                    (ReputationRegistry.clientServerToAuthId s c v ≠ 0)
          then Revert FeedbackAlreadyAuthorized s
          else
            let id := ReputationRegistry._generateFeedbackAuthId k env c v in
            Done tt (ReputationRegistry.authorized client c v n id s)
              [ReputationRegistry.AuthFeedback c v id]
      end.
Proof.
  unfold ReputationRegistry.acceptFeedback, ReputationRegistry.authorized.
  exec_simpl. split_ifs.
  all: destruct (IdentityRegistry.getAgent ir v); simpl; try reflexivity.
  all: split_ifs.
Qed.

Lemma validationRequest_cascade sv ir env client v w h n sig s :
  ValidationRegistry.validationRequest sv ir env client v w h n sig s =
    if bool_decide (h = 0) then Revert InvalidDataHash s
    else if negb (IdentityRegistry.agentExists ir v)
    then Revert AgentNotFound s
    else if negb (IdentityRegistry.agentExists ir w)
    then Revert AgentNotFound s
    else if negb (verify sv
                    (ValidationRegistry.validationRequest_query env client v w
                       h n sig))
    then Revert InvalidSignature s
    else if ValidationRegistry.nonceUsed s client n
    then Revert NonceAlreadyUsed s
    else if bool_decide
              (dataHash (ValidationRegistry.validationRequests s h) ≠ 0) &&
            negb (bool_decide
                    (timestamp (ValidationRegistry.validationRequests s h) +
                     ValidationRegistry.EXPIRATION_SLOTS ≤ UINT256_MAX))
    then Revert Panic s
    else if ValidationRegistry.stillValid s h (block_number env)
    then Done tt s [ValidationRegistry.ValidationRequestEvent v w h]
    else
      Done tt
        (ValidationRegistry.requested client v w h n (block_number env) s)
        [ValidationRegistry.ValidationRequestEvent v w h].
Proof.
  unfold ValidationRegistry.validationRequest, ValidationRegistry.requested,
    ValidationRegistry.stillValid.
  exec_simpl. split_ifs.
Qed.

Lemma validationResponse_cascade sv ir env client h r n sig s :
  ValidationRegistry.validationResponse sv ir env client h r n sig s =
    let req := ValidationRegistry.validationRequests s h in
    if bool_decide (100 < r) then Revert InvalidResponse s
    else if bool_decide (dataHash req = 0)
    then Revert ValidationRequestNotFound s
    else if negb (bool_decide
                    (timestamp req + ValidationRegistry.EXPIRATION_SLOTS
                     ≤ UINT256_MAX))
    then Revert Panic s
    else if bool_decide
              (timestamp req + ValidationRegistry.EXPIRATION_SLOTS
               < block_number env)
    then Revert RequestExpired s
    else if responded req then Revert ValidationAlreadyResponded s
    else if negb (verify sv
                    (ValidationRegistry.validationResponse_query env client h
                       r n sig))
    then Revert InvalidSignature s
    else if ValidationRegistry.nonceUsed s client n
    then Revert NonceAlreadyUsed s
    else
      match IdentityRegistry.getAgent ir (agentValidatorId req) with
      | Err e => Revert e s
      | Ok validatorAgent =>
          if bool_decide (msg_sender env ≠ agentAddress validatorAgent)
          then Revert UnauthorizedValidator s
          else
            let s' := ValidationRegistry.answered client h r n s in
            Done tt s'
              [ValidationRegistry.ValidationResponseEvent
                 (agentValidatorId (ValidationRegistry.validationRequests s' h))
                 (agentServerId (ValidationRegistry.validationRequests s' h))
                 h r]
      end.
Proof.
  unfold ValidationRegistry.validationResponse, ValidationRegistry.answered.
  exec_simpl. split_ifs.
  all: destruct (IdentityRegistry.getAgent ir _); simpl; try reflexivity.
  all: split_ifs.
Qed.

(** ** The order of [newAgent]'s checks *)

Lemma length_zero_empty (d : string) : String.length d = 0%nat ↔ d = EmptyString.
Proof. destruct d; simpl; split; congruence. Qed.

Lemma first_violated_cons holds e rest :
  Spec.first_violated ((holds, e) :: rest) =
    if holds then Spec.first_violated rest else Some e.
Proof. reflexivity. Qed.

(** C5: [newAgent] fails with the error of the first precondition that is
    violated, in the order fee (FeeMismatch), domain non-empty
    (InvalidInput), address non-null (InvalidInput), domain unclaimed
    (Conflict), address unclaimed (Conflict), signature (InvalidSignature),
    nonce unused (Replay), and the storage at the failure is the initial
    one; when none is violated the call succeeds, unless the id counter
    has reached the largest [uint256]. *)
Theorem newAgent_reports_first_violated_precondition
    sv env client d a n sig s :
  let checks := Spec.newAgent_preconditions sv env client d a n sig s in
  let o := IdentityRegistry.newAgent sv env client d a n sig s in
  match Spec.first_violated checks with
  | Some e => o = Revert e s
  | None => succeeded o = true ∨ o = Revert Panic s
  end
  ∧ (λ c, classify c.2) <$> checks =
      [Some FeeMismatch; Some InvalidInput; Some InvalidInput; Some Conflict;
       Some Conflict; Some BadSignature; Some Replay].
Proof.
  intros checks o. split; [| reflexivity].
  subst checks o. rewrite newAgent_cascade.
  unfold Spec.newAgent_preconditions, verify, IdentityRegistry.newAgent_query,
    IdentityRegistry.nonceUsed.
  cbn [q_evvmID q_functionName q_message q_signature q_signer].
  rewrite !first_violated_cons.
  rewrite (bool_decide_ext _ _ (length_zero_empty d)).
  repeat (case_bool_decide; try done; try tauto).
  all: destruct (sv _ _ _ _ _); simpl; try done.
  all: repeat (case_bool_decide; simpl; try done; try tauto).
  all: auto.
Qed.

(** ** Failures leave nothing behind *)

(** C4: whenever a mutating call of any of the three registries fails, the
    storage of all three registries at the point of failure (records,
    indexes, authorization, request and response maps, nonce sets) is the
    storage the call started from: every check precedes every write. *)
Theorem failed_call_leaves_storage_untouched sv k env c w :
  succeeded (Protocol.call sv k env c w) = false →
  reached (Protocol.call sv k env c w) = w.
Proof.
  destruct w as [i r v].
  destruct c; simpl;
    unfold Protocol.on_identity, Protocol.on_reputation,
      Protocol.on_validation; simpl.
  - rewrite newAgent_cascade. split_ifs.
  - rewrite updateAgent_cascade. split_ifs.
  - rewrite acceptFeedback_cascade. split_ifs.
    all: destruct (IdentityRegistry.getAgent i _); simpl; try reflexivity.
    all: split_ifs.
  - rewrite validationRequest_cascade. split_ifs.
  - rewrite validationResponse_cascade. split_ifs.
    all: destruct (IdentityRegistry.getAgent i _); simpl; try reflexivity.
    all: split_ifs.
Qed.

Lemma failed_call_leaves_storage_untouched_witness :
  let t := Scenario.update Scenario.agentAddress 5 1 Scenario.TEST_DOMAIN_2 0 9
  in
  succeeded (Scenario.attempt t Scenario.two_agents) = false ∧
  reached (Scenario.attempt t Scenario.two_agents) = Scenario.two_agents.
Proof.
  split.
  - vm_compute. reflexivity.
  - apply (failed_call_leaves_storage_untouched TestBase.signatureVerification
             TestBase.keccak256).
    vm_compute. reflexivity.
Defined.

(** ** An update that changes nothing *)

(** C10: an [updateAgent] call with an empty new domain and a null new
    address that passes the existence, authorization, signature and nonce
    checks returns [true]; the agent records, both indexes and the id
    counter are unchanged, and the nonce set gains the signer's nonce. *)
Theorem updateAgent_without_changes_only_spends_nonce
    sv env client id n sig s :
  agentId (IdentityRegistry.agents s id) ≠ 0 →
  msg_sender env = agentAddress (IdentityRegistry.agents s id) →
  verify sv (IdentityRegistry.updateAgent_query env client id EmptyString 0 n sig)
    = true →
  IdentityRegistry.nonceUsed s client n = false →
  ∃ s' log,
    IdentityRegistry.updateAgent sv env client id EmptyString 0 n sig s
      = Done true s' log ∧
    IdentityRegistry._agents s' = IdentityRegistry._agents s ∧
    IdentityRegistry._domainToAgentId s' = IdentityRegistry._domainToAgentId s ∧
    IdentityRegistry._addressToAgentId s'
      = IdentityRegistry._addressToAgentId s ∧
    IdentityRegistry._agentIdCounter s' = IdentityRegistry._agentIdCounter s ∧
    IdentityRegistry.checkAsyncNonce s'
      = {[ (client, n) ]} ∪ IdentityRegistry.checkAsyncNonce s.
Proof.
  intros Hexists Hsender Hsig Hnonce.
  rewrite updateAgent_cascade, Hsig, Hnonce.
  rewrite !bool_decide_eq_false_2 by (try lia; tauto).
  simpl. eexists _, _. split; [reflexivity |].
  unfold IdentityRegistry.updated. simpl. done.
Qed.

Lemma updateAgent_without_changes_only_spends_nonce_witness :
  let s := Protocol.identity Scenario.two_agents in
  let env := TestBase.at_block Scenario.agentAddress 0 5 in
  let sig :=
    TestBase.generateSignature 1 "updateAgent"
      "1,,0x0000000000000000000000000000000000000000,9" Scenario.client in
  ∃ s' log,
    IdentityRegistry.updateAgent TestBase.signatureVerification env
      Scenario.client 1 EmptyString 0 9 sig s = Done true s' log ∧
    IdentityRegistry._agents s' = IdentityRegistry._agents s ∧
    IdentityRegistry._domainToAgentId s' = IdentityRegistry._domainToAgentId s ∧
    IdentityRegistry._addressToAgentId s'
      = IdentityRegistry._addressToAgentId s ∧
    IdentityRegistry._agentIdCounter s' = IdentityRegistry._agentIdCounter s ∧
    IdentityRegistry.checkAsyncNonce s'
      = {[ (Scenario.client, 9) ]} ∪ IdentityRegistry.checkAsyncNonce s.
Proof.
  intros s env sig.
  apply (updateAgent_without_changes_only_spends_nonce
           TestBase.signatureVerification env Scenario.client 1 9 sig s).
  - vm_compute. discriminate.
  - vm_compute. reflexivity.
  - vm_compute. reflexivity.
  - vm_compute. reflexivity.
Defined.


(** ** The directory invariant *)

Section DirectoryInvariant.
Import Directory.

(** *** Reading the storage a call leaves *)

Lemma agents_registered client d a n s i :
  IdentityRegistry.agents (IdentityRegistry.registered client d a n s) i =
    if decide (IdentityRegistry._agentIdCounter s = i)
    then mkAgentInfo (IdentityRegistry._agentIdCounter s) d a
    else IdentityRegistry.agents s i.
Proof.
  unfold IdentityRegistry.agents, IdentityRegistry.registered. simpl.
  rewrite lookup_insert. by case_decide.
Qed.

Lemma domain_registered client d a n s d' :
  IdentityRegistry.domainToAgentId
    (IdentityRegistry.registered client d a n s) d' =
    if decide (d = d') then IdentityRegistry._agentIdCounter s
    else IdentityRegistry.domainToAgentId s d'.
Proof.
  unfold IdentityRegistry.domainToAgentId, IdentityRegistry.registered. simpl.
  rewrite lookup_insert. by case_decide.
Qed.

Lemma address_registered client d a n s a' :
  IdentityRegistry.addressToAgentId
    (IdentityRegistry.registered client d a n s) a' =
    if decide (a = a') then IdentityRegistry._agentIdCounter s
    else IdentityRegistry.addressToAgentId s a'.
Proof.
  unfold IdentityRegistry.addressToAgentId, IdentityRegistry.registered. simpl.
  rewrite lookup_insert. by case_decide.
Qed.

Lemma agents_moved_domain id d s i :
  IdentityRegistry.agents (IdentityRegistry.moved_domain id d s) i =
    if decide (id = i)
    then mkAgentInfo (agentId (IdentityRegistry.agents s id)) d
           (agentAddress (IdentityRegistry.agents s id))
    else IdentityRegistry.agents s i.
Proof.
  unfold IdentityRegistry.agents, IdentityRegistry.moved_domain. simpl.
  rewrite lookup_insert. by case_decide.
Qed.

Lemma domain_moved_domain id d s d' :
  IdentityRegistry.domainToAgentId (IdentityRegistry.moved_domain id d s) d' =
    if decide (d = d') then id
    else if decide (agentDomain (IdentityRegistry.agents s id) = d') then 0
    else IdentityRegistry.domainToAgentId s d'.
Proof.
  unfold IdentityRegistry.domainToAgentId, IdentityRegistry.moved_domain.
  simpl. rewrite lookup_insert. case_decide; [done |].
  rewrite lookup_delete. by case_decide.
Qed.

Lemma address_moved_domain id d s a :
  IdentityRegistry.addressToAgentId (IdentityRegistry.moved_domain id d s) a =
    IdentityRegistry.addressToAgentId s a.
Proof. reflexivity. Qed.

Lemma agents_moved_address id a s i :
  IdentityRegistry.agents (IdentityRegistry.moved_address id a s) i =
    if decide (id = i)
    then mkAgentInfo (agentId (IdentityRegistry.agents s id))
           (agentDomain (IdentityRegistry.agents s id)) a
    else IdentityRegistry.agents s i.
Proof.
  unfold IdentityRegistry.agents, IdentityRegistry.moved_address. simpl.
  rewrite lookup_insert. by case_decide.
Qed.

Lemma address_moved_address id a s a' :
  IdentityRegistry.addressToAgentId (IdentityRegistry.moved_address id a s) a'
  = if decide (a = a') then id
    else if decide (agentAddress (IdentityRegistry.agents s id) = a') then 0
    else IdentityRegistry.addressToAgentId s a'.
Proof.
  unfold IdentityRegistry.addressToAgentId, IdentityRegistry.moved_address.
  simpl. rewrite lookup_insert. case_decide; [done |].
  rewrite lookup_delete. by case_decide.
Qed.

Lemma domain_moved_address id a s d :
  IdentityRegistry.domainToAgentId (IdentityRegistry.moved_address id a s) d =
    IdentityRegistry.domainToAgentId s d.
Proof. reflexivity. Qed.

(** *** Each write pattern keeps the invariant *)

Lemma invariant_constructor : invariant IdentityRegistry.constructor.
Proof.
  split; unfold present, domain_index_exact, address_index_exact; simpl;
    try done.
  - intros d i Hi. split; [intros <-; done | intros [[] _]; done].
  - intros a i Hi. split; [intros <-; done | intros [[] _]; done].
Qed.

Lemma invariant_registered client d a n s :
  invariant s →
  d ≠ EmptyString → a ≠ 0 →
  IdentityRegistry.domainToAgentId s d = 0 →
  IdentityRegistry.addressToAgentId s a = 0 →
  invariant (IdentityRegistry.registered client d a n s).
Proof.
  intros [Hc Hids Hrec Hdom Haddr] Hd Ha Hdfree Hafree.
  assert (Hfresh : ¬ present s (IdentityRegistry._agentIdCounter s)).
  { intros H%Hids. lia. }
  assert (Hpres : ∀ i,
    present (IdentityRegistry.registered client d a n s) i ↔
    i = IdentityRegistry._agentIdCounter s ∨ present s i).
  { intros i. unfold present. rewrite agents_registered.
    case_decide; simpl; [subst; split; [auto | lia] |].
    split; [auto | intros [-> | H']; done]. }
  split.
  - simpl. lia.
  - intros i [-> | H]%Hpres; simpl; [lia |].
    apply Hids in H. lia.
  - intros i Hi. rewrite agents_registered.
    case_decide; simpl; [done |].
    apply Hpres in Hi as [-> | Hi]; [done | by apply Hrec].
  - intros d' i Hi. rewrite domain_registered, Hpres, agents_registered.
    pose proof (Hdom d' i Hi) as Hd'i.
    destruct (decide (d = d')) as [<- | Hne];
      destruct (decide (IdentityRegistry._agentIdCounter s = i))
        as [<- | Hi']; simpl.
    + tauto.
    + split; [done |]. intros [[-> | Hp] Heq]; [done |].
      assert (IdentityRegistry.domainToAgentId s d = i) by tauto.
      congruence.
    + split; [| intros [_ ?]; done].
      intros Hp. apply Hd'i in Hp as [Hp _]. done.
    + rewrite Hd'i. split; [tauto |]. intros [[-> | Hp] Heq]; done.
  - intros a' i Hi. rewrite address_registered, Hpres, agents_registered.
    pose proof (Haddr a' i Hi) as Ha'i.
    destruct (decide (a = a')) as [<- | Hne];
      destruct (decide (IdentityRegistry._agentIdCounter s = i))
        as [<- | Hi']; simpl.
    + tauto.
    + split; [done |]. intros [[-> | Hp] Heq]; [done |].
      assert (IdentityRegistry.addressToAgentId s a = i) by tauto.
      congruence.
    + split; [| intros [_ ?]; done].
      intros Hp. apply Ha'i in Hp as [Hp _]. done.
    + rewrite Ha'i. split; [tauto |]. intros [[-> | Hp] Heq]; done.
Qed.

Lemma invariant_moved_domain id d s :
  invariant s → present s id → d ≠ EmptyString →
  IdentityRegistry.domainToAgentId s d = 0 →
  invariant (IdentityRegistry.moved_domain id d s).
Proof.
  intros [Hc Hids Hrec Hdom Haddr] Hid Hd Hdfree.
  assert (Hid0 : id ≠ 0) by (apply Hids in Hid; lia).
  assert (Hold : IdentityRegistry.domainToAgentId s
                   (agentDomain (IdentityRegistry.agents s id)) = id).
  { by apply Hdom. }
  assert (Hpres : ∀ i,
    present (IdentityRegistry.moved_domain id d s) i ↔ present s i).
  { intros i. unfold present. rewrite agents_moved_domain.
    case_decide; simpl; by subst. }
  split.
  - done.
  - intros i Hi%Hpres. by apply Hids.
  - intros i Hi%Hpres. rewrite agents_moved_domain.
    case_decide; simpl; [subst; by split; [| apply Hrec] | by apply Hrec].
  - intros d' i Hi.
    rewrite domain_moved_domain, Hpres, agents_moved_domain.
    pose proof (Hdom d' i Hi) as Hd'i.
    destruct (decide (d = d')) as [<- | Hne].
    + destruct (decide (id = i)) as [<- | Hi']; simpl; [tauto |].
      split; [done |]. intros Hp. apply Hd'i in Hp. congruence.
    + destruct (decide (agentDomain (IdentityRegistry.agents s id) = d'))
        as [<- | Hne'].
      * destruct (decide (id = i)) as [<- | Hi']; simpl.
        -- split; [done | intros [_ ?]; done].
        -- split; [done |]. intros Hp. apply Hd'i in Hp. congruence.
      * destruct (decide (id = i)) as [<- | Hi']; simpl; [| done].
        split; [| intros [_ ?]; done].
        intros Hp. apply Hd'i in Hp as [_ ?]. done.
  - intros a' i Hi.
    rewrite address_moved_domain, Hpres, agents_moved_domain.
    pose proof (Haddr a' i Hi) as Ha'i.
    destruct (decide (id = i)) as [<- | Hi']; simpl; done.
Qed.

Lemma invariant_moved_address id a s :
  invariant s → present s id → a ≠ 0 →
  IdentityRegistry.addressToAgentId s a = 0 →
  invariant (IdentityRegistry.moved_address id a s).
Proof.
  intros [Hc Hids Hrec Hdom Haddr] Hid Ha Hafree.
  assert (Hid0 : id ≠ 0) by (apply Hids in Hid; lia).
  assert (Hold : IdentityRegistry.addressToAgentId s
                   (agentAddress (IdentityRegistry.agents s id)) = id).
  { by apply Haddr. }
  assert (Hpres : ∀ i,
    present (IdentityRegistry.moved_address id a s) i ↔ present s i).
  { intros i. unfold present. rewrite agents_moved_address.
    case_decide; simpl; by subst. }
  split.
  - done.
  - intros i Hi%Hpres. by apply Hids.
  - intros i Hi%Hpres. rewrite agents_moved_address.
    case_decide; simpl; [subst; by split; [apply Hrec |] | by apply Hrec].
  - intros d' i Hi.
    rewrite domain_moved_address, Hpres, agents_moved_address.
    pose proof (Hdom d' i Hi) as Hd'i.
    destruct (decide (id = i)) as [<- | Hi']; simpl; done.
  - intros a' i Hi.
    rewrite address_moved_address, Hpres, agents_moved_address.
    pose proof (Haddr a' i Hi) as Ha'i.
    destruct (decide (a = a')) as [<- | Hne].
    + destruct (decide (id = i)) as [<- | Hi']; simpl; [tauto |].
      split; [done |]. intros Hp. apply Ha'i in Hp. congruence.
    + destruct (decide (agentAddress (IdentityRegistry.agents s id) = a'))
        as [<- | Hne'].
      * destruct (decide (id = i)) as [<- | Hi']; simpl.
        -- split; [done | intros [_ ?]; done].
        -- split; [done |]. intros Hp. apply Ha'i in Hp. congruence.
      * destruct (decide (id = i)) as [<- | Hi']; simpl; [| done].
        split; [| intros [_ ?]; done].
        intros Hp. apply Ha'i in Hp as [_ ?]. done.
Qed.

Lemma invariant_set_nonce client n s :
  invariant s → invariant (IdentityRegistry.set_nonce client n s).
Proof. intros [? ? ? ? ?]. by split. Qed.

Lemma present_moved_domain id d s i :
  present (IdentityRegistry.moved_domain id d s) i ↔ present s i.
Proof.
  unfold present. rewrite agents_moved_domain.
  case_decide; simpl; by subst.
Qed.

(** *** What a successful call has checked *)

Lemma newAgent_success sv env client d a n sig s r s' log :
  IdentityRegistry.newAgent sv env client d a n sig s = Done r s' log →
  d ≠ EmptyString ∧ a ≠ 0 ∧
  IdentityRegistry.domainToAgentId s d = 0 ∧
  IdentityRegistry.addressToAgentId s a = 0 ∧
  IdentityRegistry.nonceUsed s client n = false ∧
  r = IdentityRegistry._agentIdCounter s ∧
  s' = IdentityRegistry.registered client d a n s.
Proof.
  rewrite newAgent_cascade.
  repeat (case_bool_decide; try discriminate).
  all: destruct (negb _); [discriminate |].
  all: destruct (IdentityRegistry.nonceUsed s client n); try discriminate.
  intros [= <- <- <-].
  rewrite length_zero_empty in *.
  repeat split; try done; by apply dec_stable.
Qed.

Lemma updateAgent_success sv env client id d a n sig s r s' log :
  IdentityRegistry.updateAgent sv env client id d a n sig s = Done r s' log →
  present s id ∧
  (d ≠ EmptyString → IdentityRegistry.domainToAgentId s d = 0) ∧
  (a ≠ 0 → IdentityRegistry.addressToAgentId s a = 0) ∧
  IdentityRegistry.nonceUsed s client n = false ∧
  s' = IdentityRegistry.updated client id d a n s.
Proof.
  rewrite updateAgent_cascade. unfold present.
  repeat (case_bool_decide; simpl; try discriminate).
  all: destruct (negb _); [discriminate |].
  all: destruct (IdentityRegistry.nonceUsed s client n); [discriminate |].
  all: intros [= <- <- <-].
  all: rewrite <- ?length_zero_empty.
  all: repeat split; try done; intros; try lia; try by apply dec_stable.
Qed.

Lemma invariant_updated client id d a n s :
  invariant s → present s id →
  (d ≠ EmptyString → IdentityRegistry.domainToAgentId s d = 0) →
  (a ≠ 0 → IdentityRegistry.addressToAgentId s a = 0) →
  invariant (IdentityRegistry.updated client id d a n s).
Proof.
  intros Hinv Hid Hd Ha. unfold IdentityRegistry.updated.
  apply invariant_set_nonce.
  assert (Hlen : (0 < String.length d)%nat → d ≠ EmptyString).
  { intros Hl ->. simpl in Hl. lia. }
  destruct (decide (0 < String.length d)%nat) as [Hdc | Hdc];
    [rewrite (bool_decide_eq_true_2 _ Hdc)
    | rewrite (bool_decide_eq_false_2 _ Hdc)];
    (destruct (decide (a ≠ 0)) as [Hac | Hac];
     [rewrite (bool_decide_eq_true_2 _ Hac)
     | rewrite (bool_decide_eq_false_2 _ Hac)]).
  - apply invariant_moved_address; try done.
    + apply invariant_moved_domain; auto.
    + by apply present_moved_domain.
    + rewrite address_moved_domain. auto.
  - apply invariant_moved_domain; auto.
  - apply invariant_moved_address; auto.
  - done.
Qed.

(** *** Every transaction keeps the invariant *)

Lemma invariant_transact sv k w tx :
  invariant (Protocol.identity w) →
  invariant (Protocol.identity (Protocol.transact sv k w tx)).
Proof.
  intros Hinv. destruct tx as [env c]. unfold Protocol.transact.
  destruct c; simpl;
    unfold Protocol.on_identity, Protocol.on_reputation,
      Protocol.on_validation.
  - destruct (IdentityRegistry.newAgent _ _ _ _ _ _ _ _) eqn:E; [| done].
    apply newAgent_success in E as (? & ? & ? & ? & ? & ? & ->). simpl.
    by apply invariant_registered.
  - destruct (IdentityRegistry.updateAgent _ _ _ _ _ _ _ _ _) eqn:E; [| done].
    apply updateAgent_success in E as (? & ? & ? & ? & ->). simpl.
    by apply invariant_updated.
  - by destruct (ReputationRegistry.acceptFeedback _ _ _ _ _ _ _ _ _ _).
  - by destruct (ValidationRegistry.validationRequest _ _ _ _ _ _ _ _ _ _).
  - by destruct (ValidationRegistry.validationResponse _ _ _ _ _ _ _ _ _).
Qed.

Lemma invariant_run sv k txs w :
  invariant (Protocol.identity w) →
  invariant (Protocol.identity (Protocol.run sv k txs w)).
Proof.
  revert w. induction txs as [| tx txs IH]; intros w Hinv; [done |].
  simpl. apply IH. by apply invariant_transact.
Qed.
End DirectoryInvariant.

Lemma invariant_reachable sv k txs :
  Directory.invariant
    (Protocol.identity (Protocol.run sv k txs Protocol.deployed)).
Proof. apply invariant_run, invariant_constructor. Qed.

Lemma agentExists_present s i :
  IdentityRegistry.agentExists s i = true ↔ Directory.present s i.
Proof. unfold IdentityRegistry.agentExists. apply bool_decide_eq_true. Qed.

(** C9: after any sequence of transactions from deployment, the domain
    index maps [d] to a non-zero id [i] exactly when agent [i] exists with
    domain [d], the address index maps [a] to a non-zero id [i] exactly
    when agent [i] exists with address [a], and the absent handle 0 is no
    agent: the indexes have no orphaned and no stale entry. *)
Theorem indexes_consistent_with_records sv k txs :
  let s := Protocol.identity (Protocol.run sv k txs Protocol.deployed) in
  (∀ (d : string) (i : uint256), i ≠ 0 →
     IdentityRegistry.domainToAgentId s d = i ↔
     IdentityRegistry.agentExists s i = true ∧
     agentDomain (IdentityRegistry.agents s i) = d) ∧
  (∀ (a : address) (i : uint256), i ≠ 0 →
     IdentityRegistry.addressToAgentId s a = i ↔
     IdentityRegistry.agentExists s i = true ∧
     agentAddress (IdentityRegistry.agents s i) = a) ∧
  IdentityRegistry.agentExists s 0 = false.
Proof.
  intros s. destruct (invariant_reachable sv k txs) as [Hc Hids _ Hdom Haddr].
  fold s in Hc, Hids, Hdom, Haddr.
  split; [| split].
  - intros d i Hi. rewrite agentExists_present. by apply Hdom.
  - intros a i Hi. rewrite agentExists_present. by apply Haddr.
  - apply not_true_is_false. rewrite agentExists_present.
    intros H%Hids. lia.
Qed.


(** ** Conflicts of [updateAgent] *)

Lemma updateAgent_past_nonce sv env client id d a n sig s :
  agentId (IdentityRegistry.agents s id) ≠ 0 →
  msg_sender env = agentAddress (IdentityRegistry.agents s id) →
  verify sv (IdentityRegistry.updateAgent_query env client id d a n sig)
    = true →
  IdentityRegistry.nonceUsed s client n = false →
  IdentityRegistry.updateAgent sv env client id d a n sig s =
    if bool_decide (0 < String.length d)%nat &&
       bool_decide (IdentityRegistry.domainToAgentId s d ≠ 0)
    then Revert DomainAlreadyRegistered s
    else if bool_decide (a ≠ 0) &&
            bool_decide (IdentityRegistry.addressToAgentId s a ≠ 0)
    then Revert AddressAlreadyRegistered s
    else
      let s' := IdentityRegistry.updated client id d a n s in
      Done true s'
        [IdentityRegistry.AgentUpdated id
           (agentDomain (IdentityRegistry.agents s' id))
           (agentAddress (IdentityRegistry.agents s' id))].
Proof.
  intros Hexists Hsender Hsig Hnonce.
  rewrite updateAgent_cascade, Hsig, Hnonce.
  by rewrite !bool_decide_eq_false_2 by tauto.
Qed.

Lemma length_positive_nonempty (d : string) :
  (0 < String.length d)%nat ↔ d ≠ EmptyString.
Proof. rewrite <- length_zero_empty. lia. Qed.

Lemma cascade_of_two {A} (bP bQ : bool) (P Q : Prop) (x y z : A) :
  (bP = true ↔ P) → (bQ = true ↔ Q) → x ≠ y → z ≠ x → z ≠ y →
  ((if bP then x else if bQ then y else z) = x ↔ P) ∧
  ((if bP then x else if bQ then y else z) = y ↔ ¬ P ∧ Q).
Proof.
  intros HP HQ Hxy Hzx Hzy.
  destruct bP, bQ; simpl; intuition congruence.
Qed.

(** C6, as the code has it: an [updateAgent] call that passes the
    existence, authorization, signature and nonce checks fails Conflict on
    a non-empty new domain exactly when the domain index holds an entry
    for it, and (the domain check passed) on a non-null new address
    exactly when the address index holds an entry for it, whichever agent
    the entry belongs to; in every state reached from deployment a call
    whose new domain is the agent's own current domain, or whose new
    address (with no new domain) is the agent's own current address,
    therefore fails Conflict. *)
Theorem updateAgent_conflict_on_any_claim
    sv k txs env client id d a n sig :
  let s := Protocol.identity (Protocol.run sv k txs Protocol.deployed) in
  let o := IdentityRegistry.updateAgent sv env client id d a n sig s in
  IdentityRegistry.agentExists s id = true →
  msg_sender env = agentAddress (IdentityRegistry.agents s id) →
  verify sv (IdentityRegistry.updateAgent_query env client id d a n sig)
    = true →
  IdentityRegistry.nonceUsed s client n = false →
  (o = Revert DomainAlreadyRegistered s ↔
     d ≠ EmptyString ∧ IdentityRegistry.domainToAgentId s d ≠ 0) ∧
  (o = Revert AddressAlreadyRegistered s ↔
     (d = EmptyString ∨ IdentityRegistry.domainToAgentId s d = 0) ∧
     a ≠ 0 ∧ IdentityRegistry.addressToAgentId s a ≠ 0) ∧
  (d = agentDomain (IdentityRegistry.agents s id) →
     o = Revert DomainAlreadyRegistered s) ∧
  (d = EmptyString → a = agentAddress (IdentityRegistry.agents s id) →
     o = Revert AddressAlreadyRegistered s) ∧
  classify DomainAlreadyRegistered = Some Conflict ∧
  classify AddressAlreadyRegistered = Some Conflict.
Proof.
  intros s o Hexists Hsender Hsig Hnonce.
  apply agentExists_present in Hexists.
  pose proof (invariant_reachable sv k txs) as [Hc Hids Hrec Hdom Haddr].
  fold s in Hc, Hids, Hrec, Hdom, Haddr.
  assert (Hid : id ≠ 0) by (apply Hids in Hexists; lia).
  assert (Hown_d : IdentityRegistry.domainToAgentId s
                     (agentDomain (IdentityRegistry.agents s id)) = id).
  { by apply Hdom. }
  assert (Hown_a : IdentityRegistry.addressToAgentId s
                     (agentAddress (IdentityRegistry.agents s id)) = id).
  { by apply Haddr. }
  destruct (Hrec id Hexists) as [Hd_filled Ha_filled].
  clear Hc Hids Hrec Hdom Haddr.
  assert (Hdc : bool_decide (0 < String.length d)%nat &&
                bool_decide (IdentityRegistry.domainToAgentId s d ≠ 0) = true
                ↔ d ≠ EmptyString ∧ IdentityRegistry.domainToAgentId s d ≠ 0).
  { rewrite andb_true_iff, !bool_decide_eq_true.
    by rewrite length_positive_nonempty. }
  assert (Hac : bool_decide (a ≠ 0) &&
                bool_decide (IdentityRegistry.addressToAgentId s a ≠ 0) = true
                ↔ a ≠ 0 ∧ IdentityRegistry.addressToAgentId s a ≠ 0).
  { by rewrite andb_true_iff, !bool_decide_eq_true. }
  assert (Hdom_dec : ¬ (d ≠ EmptyString ∧
                        IdentityRegistry.domainToAgentId s d ≠ 0)
                     ↔ d = EmptyString ∨
                       IdentityRegistry.domainToAgentId s d = 0).
  { clear. destruct (decide (d = EmptyString));
      destruct (decide (IdentityRegistry.domainToAgentId s d = 0)); tauto. }
  unfold o.
  rewrite (updateAgent_past_nonce sv env client id d a n sig s
             Hexists Hsender Hsig Hnonce).
  destruct (cascade_of_two _ _ _ _
              (Revert DomainAlreadyRegistered s)
              (Revert AddressAlreadyRegistered s)
              (let s' := IdentityRegistry.updated client id d a n s in
               Done true s'
                 [IdentityRegistry.AgentUpdated id
                    (agentDomain (IdentityRegistry.agents s' id))
                    (agentAddress (IdentityRegistry.agents s' id))])
              Hdc Hac) as [HD HA]; try discriminate.
  split; [exact HD |].
  split; [by rewrite HA, Hdom_dec |].
  split; [| split; [| by split]].
  - intros ->. apply HD. split; [done | congruence].
  - intros -> ->. apply HA. split; [| split; [done | congruence]].
    intros [? _]. done.
Qed.

Lemma updateAgent_conflict_on_any_claim_witness :
  let txs :=
    [Scenario.register 1 Scenario.TEST_DOMAIN Scenario.agentAddress 1;
     Scenario.register 2 Scenario.TEST_DOMAIN_2 Scenario.agentAddress2 2] in
  let s :=
    Protocol.identity
      (Protocol.run TestBase.signatureVerification TestBase.keccak256 txs
         Protocol.deployed) in
  let env := TestBase.at_block Scenario.agentAddress 0 5 in
  let sig :=
    TestBase.generateSignature 1 "updateAgent"
      "1,a.example.com,0x0000000000000000000000000000000000000000,9"
      Scenario.client in
  let o :=
    IdentityRegistry.updateAgent TestBase.signatureVerification env
      Scenario.client 1 Scenario.TEST_DOMAIN 0 9 sig s in
  (IdentityRegistry.agentExists s 1 = true ∧
   msg_sender env = agentAddress (IdentityRegistry.agents s 1) ∧
   verify TestBase.signatureVerification
     (IdentityRegistry.updateAgent_query env Scenario.client 1
        Scenario.TEST_DOMAIN 0 9 sig) = true ∧
   IdentityRegistry.nonceUsed s Scenario.client 9 = false) ∧
  (Scenario.TEST_DOMAIN = agentDomain (IdentityRegistry.agents s 1) →
   o = Revert DomainAlreadyRegistered s).
Proof.
  intros txs s env sig o.
  assert (H1 : IdentityRegistry.agentExists s 1 = true)
    by (vm_compute; reflexivity).
  assert (H2 : msg_sender env = agentAddress (IdentityRegistry.agents s 1))
    by (vm_compute; reflexivity).
  assert (H3 : verify TestBase.signatureVerification
                 (IdentityRegistry.updateAgent_query env Scenario.client 1
                    Scenario.TEST_DOMAIN 0 9 sig) = true)
    by (vm_compute; reflexivity).
  assert (H4 : IdentityRegistry.nonceUsed s Scenario.client 9 = false)
    by (vm_compute; reflexivity).
  split; [repeat split; assumption |].
  exact (proj1 (proj2 (proj2
           (updateAgent_conflict_on_any_claim TestBase.signatureVerification
              TestBase.keccak256 txs env Scenario.client 1
              Scenario.TEST_DOMAIN 0 9 sig H1 H2 H3 H4)))).
Defined.

(** Against C6 as stated: agent 1 updates to its own current domain, and to
    its own current address; no other agent claims either, the call is
    otherwise valid (with a fresh domain it succeeds), and it fails
    Conflict. *)
Lemma updateAgent_own_domain_conflicts :
  let w := Scenario.two_agents in
  let s := Protocol.identity w in
  let own_domain :=
    Scenario.update Scenario.agentAddress 5 1 Scenario.TEST_DOMAIN 0 9 in
  let own_address :=
    Scenario.update Scenario.agentAddress 5 1 EmptyString
      Scenario.agentAddress 9 in
  let fresh_domain :=
    Scenario.update Scenario.agentAddress 5 1 "c.example.com" 0 9 in
  agentDomain (IdentityRegistry.agents s 1) = Scenario.TEST_DOMAIN ∧
  agentAddress (IdentityRegistry.agents s 1) = Scenario.agentAddress ∧
  IdentityRegistry.domainToAgentId s Scenario.TEST_DOMAIN = 1 ∧
  IdentityRegistry.addressToAgentId s Scenario.agentAddress = 1 ∧
  succeeded (Scenario.attempt fresh_domain w) = true ∧
  failure (Scenario.attempt own_domain w) = Some DomainAlreadyRegistered ∧
  failure (Scenario.attempt own_address w) = Some AddressAlreadyRegistered ∧
  classify DomainAlreadyRegistered = Some Conflict ∧
  classify AddressAlreadyRegistered = Some Conflict.
Proof. vm_compute. repeat split. Qed.

(** ** Validation requests: retry and renewal *)

Lemma validationRequest_success sv ir env client v w h n sig s r s' log :
  ValidationRegistry.validationRequest sv ir env client v w h n sig s
    = Done r s' log →
  h ≠ 0 ∧
  ValidationRegistry.nonceUsed s client n = false ∧
  s' = (if ValidationRegistry.stillValid s h (block_number env) then s
        else ValidationRegistry.requested client v w h n (block_number env) s).
Proof.
  rewrite validationRequest_cascade.
  case_bool_decide; [discriminate |].
  repeat (destruct (negb _); [discriminate |]).
  destruct (ValidationRegistry.nonceUsed s client n); [discriminate |].
  destruct (_ && _); [discriminate |].
  destruct (ValidationRegistry.stillValid s h (block_number env));
    intros [= <- <- <-]; done.
Qed.

Lemma stillValid_spec s h height :
  ValidationRegistry.stillValid s h height = true ↔
  dataHash (ValidationRegistry.validationRequests s h) ≠ 0 ∧
  height ≤ timestamp (ValidationRegistry.validationRequests s h) +
           ValidationRegistry.EXPIRATION_SLOTS.
Proof.
  unfold ValidationRegistry.stillValid.
  by rewrite andb_true_iff, !bool_decide_eq_true.
Qed.

Lemma requests_requested client v w h n height s h' :
  ValidationRegistry.validationRequests
    (ValidationRegistry.requested client v w h n height s) h' =
    if decide (h = h') then mkRequest v w h height false
    else ValidationRegistry.validationRequests s h'.
Proof.
  unfold ValidationRegistry.validationRequests, ValidationRegistry.requested.
  simpl. rewrite lookup_insert. by case_decide.
Qed.

(** C7: for a data hash with a stored request, a successful
    [validationRequest] issued while
    [block.number <= timestamp + EXPIRATION_SLOTS] leaves the request map,
    hence the stored record and its creation height, unchanged; one issued
    after that window replaces the record with the new validator and
    server ids, the current height and [responded = false], and touches
    no other record. *)
Theorem validationRequest_keeps_or_replaces
    sv ir env client v w h n sig s s' log :
  dataHash (ValidationRegistry.validationRequests s h) ≠ 0 →
  ValidationRegistry.validationRequest sv ir env client v w h n sig s
    = Done tt s' log →
  (block_number env ≤
     timestamp (ValidationRegistry.validationRequests s h) +
     ValidationRegistry.EXPIRATION_SLOTS →
   ValidationRegistry._validationRequests s'
     = ValidationRegistry._validationRequests s) ∧
  (timestamp (ValidationRegistry.validationRequests s h) +
     ValidationRegistry.EXPIRATION_SLOTS < block_number env →
   ValidationRegistry.validationRequests s' h
     = mkRequest v w h (block_number env) false ∧
   ∀ h', h' ≠ h →
     ValidationRegistry.validationRequests s' h'
       = ValidationRegistry.validationRequests s h').
Proof.
  intros Hstored Hrun.
  apply validationRequest_success in Hrun as (_ & _ & ->).
  destruct (ValidationRegistry.stillValid s h (block_number env)) eqn:Hvalid.
  - apply stillValid_spec in Hvalid as [_ Hopen].
    split; [done |]. intros Hexpired. lia.
  - split.
    + intros Hopen. exfalso.
      apply not_true_iff_false in Hvalid. apply Hvalid.
      by apply stillValid_spec.
    + intros _. split.
      * rewrite requests_requested. by rewrite decide_True.
      * intros h' Hne. rewrite requests_requested.
        by rewrite decide_False.
Qed.

Lemma validationRequest_keeps_or_replaces_witness :
  let s := Protocol.validation Scenario.pending in
  let ir := Protocol.identity Scenario.pending in
  let late := Scenario.request 2000 4 in
  let sig :=
    match late.2 with
    | Protocol.ValidationRequest _ _ _ _ _ sig => sig
    | _ => EmptyString
    end in
  let s' :=
    reached
      (ValidationRegistry.validationRequest TestBase.signatureVerification ir
         late.1 Scenario.client 1 2 Scenario.TEST_DATA_HASH 4 sig s) in
  (dataHash (ValidationRegistry.validationRequests s Scenario.TEST_DATA_HASH)
     ≠ 0 ∧
   timestamp (ValidationRegistry.validationRequests s Scenario.TEST_DATA_HASH)
     + ValidationRegistry.EXPIRATION_SLOTS < block_number late.1) ∧
  ValidationRegistry.validationRequests s' Scenario.TEST_DATA_HASH
    = mkRequest 1 2 Scenario.TEST_DATA_HASH 2000 false.
Proof.
  intros s ir late sig s'.
  assert (H1 : dataHash (ValidationRegistry.validationRequests s
                           Scenario.TEST_DATA_HASH) ≠ 0)
    by (vm_compute; discriminate).
  assert (H2 : timestamp (ValidationRegistry.validationRequests s
                            Scenario.TEST_DATA_HASH)
               + ValidationRegistry.EXPIRATION_SLOTS < block_number late.1)
    by (vm_compute; reflexivity).
  assert (H3 : ValidationRegistry.validationRequest
                 TestBase.signatureVerification ir late.1 Scenario.client 1 2
                 Scenario.TEST_DATA_HASH 4 sig s
               = Done tt s'
                   [ValidationRegistry.ValidationRequestEvent 1 2
                      Scenario.TEST_DATA_HASH])
    by (vm_compute; reflexivity).
  split; [by split |].
  exact (proj1 (proj2
           (validationRequest_keeps_or_replaces TestBase.signatureVerification
              ir late.1 Scenario.client 1 2 Scenario.TEST_DATA_HASH 4 sig s s'
              _ H1 H3) H2)).
Defined.

Lemma validationRequest_retry sv ir env client v w h n sig s :
  h ≠ 0 →
  IdentityRegistry.agentExists ir v = true →
  IdentityRegistry.agentExists ir w = true →
  verify sv
    (ValidationRegistry.validationRequest_query env client v w h n sig)
    = true →
  ValidationRegistry.nonceUsed s client n = false →
  timestamp (ValidationRegistry.validationRequests s h) +
    ValidationRegistry.EXPIRATION_SLOTS ≤ UINT256_MAX →
  ValidationRegistry.stillValid s h (block_number env) = true →
  ValidationRegistry.validationRequest sv ir env client v w h n sig s =
    Done tt s [ValidationRegistry.ValidationRequestEvent v w h].
Proof.
  intros Hh Hv Hw Hsig Hnonce Hfit Hvalid.
  rewrite validationRequest_cascade, Hv, Hw, Hsig, Hnonce, Hvalid.
  rewrite (bool_decide_eq_false_2 (h = 0)) by done.
  rewrite (bool_decide_eq_true_2 (_ ≤ UINT256_MAX)) by done.
  simpl. by rewrite andb_false_r.
Qed.

(** C1, where the code departs from it: a [validationRequest] that passes
    the data hash, agent existence, signature and nonce checks and finds an
    unexpired request returns early; the nonce is checked but not marked
    used (the storage is unchanged), whereas the create/overwrite branch of
    the same call marks it used. *)
Theorem validationRequest_retry_leaves_nonce_unspent :
  let w := Scenario.pending in
  let retry := Scenario.attempt (Scenario.request 11 4) w in
  let renewal := Scenario.attempt (Scenario.request 2000 4) w in
  ValidationRegistry.stillValid (Protocol.validation w)
    Scenario.TEST_DATA_HASH 11 = true ∧
  succeeded retry = true ∧
  reached retry = w ∧
  ValidationRegistry.nonceUsed (Protocol.validation (reached retry))
    Scenario.client 4 = false ∧
  succeeded renewal = true ∧
  ValidationRegistry.nonceUsed (Protocol.validation (reached renewal))
    Scenario.client 4 = true.
Proof. vm_compute. repeat split. Qed.

(** ** Replay protection *)

Lemma nonceUsed_set_nonce_identity client n s :
  IdentityRegistry.nonceUsed (IdentityRegistry.set_nonce client n s) client n
    = true.
Proof.
  unfold IdentityRegistry.nonceUsed. simpl.
  apply bool_decide_eq_true. set_solver.
Qed.

Lemma nonceUsed_set_nonce_reputation client n s :
  ReputationRegistry.nonceUsed (ReputationRegistry.set_nonce client n s)
    client n = true.
Proof.
  unfold ReputationRegistry.nonceUsed. simpl.
  apply bool_decide_eq_true. set_solver.
Qed.

Lemma nonceUsed_set_nonce_validation client n s :
  ValidationRegistry.nonceUsed (ValidationRegistry.set_nonce client n s)
    client n = true.
Proof.
  unfold ValidationRegistry.nonceUsed. simpl.
  apply bool_decide_eq_true. set_solver.
Qed.

(** A call whose nonce is already marked used for its principal never
    succeeds, whichever entry point of whichever registry it goes to. *)
Lemma used_nonce_never_succeeds sv k env c w :
  Protocol.nonce_used w c = true →
  succeeded (Protocol.call sv k env c w) = false.
Proof.
  destruct w as [i r v].
  destruct c; simpl;
    unfold Protocol.on_identity, Protocol.on_reputation,
      Protocol.on_validation; simpl; intros Hused.
  - rewrite newAgent_cascade, Hused. split_ifs.
  - rewrite updateAgent_cascade, Hused. split_ifs.
  - rewrite acceptFeedback_cascade, Hused. split_ifs.
  - rewrite validationRequest_cascade, Hused. split_ifs.
  - rewrite validationResponse_cascade, Hused. split_ifs.
Qed.

(** A used nonce fails an otherwise valid call of the identity registry
    with [NonceAlreadyUsed], at the storage the call started from. *)
Lemma newAgent_replayed sv env client d a n sig s :
  IdentityRegistry.nonceUsed s client n = true →
  msg_value env = IdentityRegistry.REGISTRATION_FEE →
  d ≠ EmptyString → a ≠ 0 →
  IdentityRegistry.domainToAgentId s d = 0 →
  IdentityRegistry.addressToAgentId s a = 0 →
  verify sv (IdentityRegistry.newAgent_query env client d a n sig) = true →
  IdentityRegistry.newAgent sv env client d a n sig s
    = Revert NonceAlreadyUsed s.
Proof.
  intros Hused Hfee Hd Ha Hdfree Hafree Hsig.
  rewrite newAgent_cascade, Hused, Hsig.
  rewrite (bool_decide_ext _ _ (length_zero_empty d)).
  by rewrite !bool_decide_eq_false_2 by tauto.
Qed.

Lemma updateAgent_replayed sv env client id d a n sig s :
  IdentityRegistry.nonceUsed s client n = true →
  agentId (IdentityRegistry.agents s id) ≠ 0 →
  msg_sender env = agentAddress (IdentityRegistry.agents s id) →
  verify sv (IdentityRegistry.updateAgent_query env client id d a n sig)
    = true →
  IdentityRegistry.updateAgent sv env client id d a n sig s
    = Revert NonceAlreadyUsed s.
Proof.
  intros Hused Hexists Hsender Hsig.
  rewrite updateAgent_cascade, Hused, Hsig.
  by rewrite !bool_decide_eq_false_2 by tauto.
Qed.

Ltac crack :=
  repeat (first
    [ split_if
    | match goal with
      | |- context [match ?x with Ok _ => _ | Err _ => _ end] =>
          destruct x eqn:?
      end ];
    try discriminate).

(** Every successful call marks its nonce used for its principal, except a
    [validationRequest] that takes the early return. *)
Lemma success_spends_nonce sv k env c w r w' log :
  Protocol.call sv k env c w = Done r w' log →
  Protocol.retries env w c = false →
  Protocol.nonce_used w' c = true.
Proof.
  destruct w as [i p v].
  destruct c; simpl;
    unfold Protocol.on_identity, Protocol.on_reputation,
      Protocol.on_validation; simpl.
  - rewrite newAgent_cascade. crack.
    intros H _; simpl in H; simplify_eq; simpl.
    apply bool_decide_eq_true. simpl. set_solver.
  - rewrite updateAgent_cascade. crack.
    intros H _; simpl in H; simplify_eq; simpl.
    apply nonceUsed_set_nonce_identity.
  - rewrite acceptFeedback_cascade. crack.
    intros H _; simpl in H; simplify_eq; simpl.
    apply nonceUsed_set_nonce_reputation.
  - rewrite validationRequest_cascade. crack.
    intros H _; simpl in H; simplify_eq; simpl.
    apply nonceUsed_set_nonce_validation.
  - rewrite validationResponse_cascade. cbv zeta. crack.
    intros H _; simpl in H; simplify_eq; simpl.
    apply nonceUsed_set_nonce_validation.
Qed.

(** A transaction whose call fails leaves all three registries as they
    were. *)
Lemma failed_transaction_changes_nothing sv k w tx :
  succeeded (Protocol.call sv k tx.1 tx.2 w) = false →
  Protocol.transact sv k w tx = w.
Proof.
  unfold Protocol.transact.
  by destruct (Protocol.call sv k tx.1 tx.2 w).
Qed.

(** C8, where the code departs from it: the same signed
    [validationRequest], with the same principal and nonce, is sent twice
    while the stored request is unexpired; the first call succeeds and so
    does the second, which is not rejected as a replay. For every other
    successful call the nonce is marked used and no later call with it
    succeeds. *)
Theorem replayed_validationRequest_succeeds :
  let first := Scenario.request 11 4 in
  let second := Scenario.request 12 4 in
  let w1 := Scenario.exec [first] Scenario.pending in
  Protocol.principal_nonce first.2 = Protocol.principal_nonce second.2 ∧
  succeeded (Scenario.attempt first Scenario.pending) = true ∧
  succeeded (Scenario.attempt second w1) = true ∧
  failure (Scenario.attempt second w1) ≠ Some NonceAlreadyUsed ∧
  Protocol.nonce_used w1 first.2 = false.
Proof. vm_compute. repeat split; discriminate. Qed.

(** ** What the signature binds *)

(** The verifier bears on a call only through its verdict on the query
    [Protocol.signature_query] builds. *)
Lemma call_verifier_only_through_query sv1 sv2 k env c w :
  verify sv1 (Protocol.signature_query env c)
    = verify sv2 (Protocol.signature_query env c) →
  Protocol.call sv1 k env c w = Protocol.call sv2 k env c w.
Proof.
  intros Hsame. destruct c; simpl in *;
    unfold Protocol.on_identity, Protocol.on_reputation,
      Protocol.on_validation.
  - by rewrite !newAgent_cascade, Hsame.
  - by rewrite !updateAgent_cascade, Hsame.
  - by rewrite !acceptFeedback_cascade, Hsame.
  - by rewrite !validationRequest_cascade, Hsame.
  - by rewrite !validationResponse_cascade, Hsame.
Qed.

(** C2, where the code departs from it: the function name handed to the
    signature verifier is the name of the invoked operation for [newAgent]
    and [updateAgent] only; [acceptFeedback], [validationRequest] and
    [validationResponse] all hand it [updateAgent]. With a verifier that
    binds the function name, a signature made for the operation's own name
    is rejected by each of the three, and one made for [updateAgent] is
    accepted. *)
Theorem signed_function_name_is_updateAgent :
  (∀ env c,
     q_functionName (Protocol.signature_query env c) =
       match c with
       | Protocol.NewAgent _ _ _ _ _ => "newAgent"
       | _ => "updateAgent"
       end) ∧
  (∀ env c,
     q_functionName (Protocol.signature_query env c)
       = Protocol.operation_name c ↔
     match c with
     | Protocol.NewAgent _ _ _ _ _ | Protocol.UpdateAgent _ _ _ _ _ _ => True
     | _ => False
     end) ∧
  failure (Scenario.attempt (Scenario.accept "acceptFeedback" 5 9)
             Scenario.two_agents) = Some InvalidSignature ∧
  succeeded (Scenario.attempt (Scenario.accept "updateAgent" 5 9)
               Scenario.two_agents) = true ∧
  failure (Scenario.attempt
             (Scenario.request_signed_for "validationRequest" 10 3)
             Scenario.two_agents) = Some InvalidSignature ∧
  succeeded (Scenario.attempt (Scenario.request_signed_for "updateAgent" 10 3)
               Scenario.two_agents) = true ∧
  failure (Scenario.attempt
             (Scenario.respond_signed_for "validationResponse" 11 85 4)
             Scenario.pending) = Some InvalidSignature ∧
  succeeded (Scenario.attempt
               (Scenario.respond_signed_for "updateAgent" 11 85 4)
               Scenario.pending) = true.
Proof.
  split; [by intros env [] |].
  split; [intros env []; simpl; split; try done; discriminate |].
  vm_compute. repeat split.
Qed.

(** ** The life of a validation response *)

Lemma validationResponse_success sv ir env client h r n sig s u s' log :
  ValidationRegistry.validationResponse sv ir env client h r n sig s
    = Done u s' log →
  r ≤ 100 ∧
  dataHash (ValidationRegistry.validationRequests s h) ≠ 0 ∧
  timestamp (ValidationRegistry.validationRequests s h) +
    ValidationRegistry.EXPIRATION_SLOTS ≤ UINT256_MAX ∧
  block_number env ≤
    timestamp (ValidationRegistry.validationRequests s h) +
    ValidationRegistry.EXPIRATION_SLOTS ∧
  responded (ValidationRegistry.validationRequests s h) = false ∧
  s' = ValidationRegistry.answered client h r n s.
Proof.
  rewrite validationResponse_cascade. cbv zeta.
  repeat (case_bool_decide; simpl; try discriminate).
  destruct (responded _) eqn:Hresp; [discriminate |].
  destruct (negb _); [discriminate |].
  destruct (ValidationRegistry.nonceUsed s client n); [discriminate |].
  destruct (IdentityRegistry.getAgent ir _); [| discriminate].
  case_bool_decide; [discriminate |].
  intros [= <- <- <-].
  repeat split; try done; lia.
Qed.

Lemma requests_answered client h r n s h' :
  ValidationRegistry.validationRequests
    (ValidationRegistry.answered client h r n s) h' =
    if decide (h = h')
    then
      let req := ValidationRegistry.validationRequests s h in
      mkRequest (agentValidatorId req) (agentServerId req) (dataHash req)
        (timestamp req) true
    else ValidationRegistry.validationRequests s h'.
Proof.
  unfold ValidationRegistry.validationRequests, ValidationRegistry.answered.
  simpl. rewrite lookup_insert. by case_decide.
Qed.

Lemma responses_answered client h r n s h' :
  ValidationRegistry.validationResponses
    (ValidationRegistry.answered client h r n s) h' =
    if decide (h = h') then r else ValidationRegistry.validationResponses s h'.
Proof.
  unfold ValidationRegistry.validationResponses, ValidationRegistry.answered.
  simpl. rewrite lookup_insert. by case_decide.
Qed.

Lemma hasResponse_answered client h r n s h' :
  ValidationRegistry.hasResponse
    (ValidationRegistry.answered client h r n s) h' =
    if decide (h = h') then true else ValidationRegistry.hasResponse s h'.
Proof.
  unfold ValidationRegistry.hasResponse, ValidationRegistry.answered.
  simpl. rewrite lookup_insert. by case_decide.
Qed.

(** A second response to an answered request fails: [RequestExpired] once
    the window has passed, [ValidationAlreadyResponded] before. *)
Lemma answered_again sv ir env client h r n sig s :
  r ≤ 100 →
  dataHash (ValidationRegistry.validationRequests s h) ≠ 0 →
  responded (ValidationRegistry.validationRequests s h) = true →
  timestamp (ValidationRegistry.validationRequests s h) +
    ValidationRegistry.EXPIRATION_SLOTS ≤ UINT256_MAX →
  ValidationRegistry.validationResponse sv ir env client h r n sig s =
    Revert
      (if bool_decide
            (timestamp (ValidationRegistry.validationRequests s h) +
             ValidationRegistry.EXPIRATION_SLOTS < block_number env)
       then RequestExpired else ValidationAlreadyResponded) s.
Proof.
  intros Hr Hstored Hresp Hfit.
  rewrite validationResponse_cascade. cbv zeta.
  rewrite Hresp.
  rewrite (bool_decide_eq_false_2 (100 < r)) by lia.
  rewrite (bool_decide_eq_false_2 (_ = 0)) by done.
  rewrite (bool_decide_eq_true_2 (_ ≤ UINT256_MAX)) by done.
  simpl. by case_bool_decide.
Qed.

Section ScoreOverwrittenOnlyByResponse.
Context (sv : Verifier) (k : Hasher).
Context (h : bytes32) (answer : Request) (score : uint8).
Hypothesis answer_stored : dataHash answer ≠ 0.
Hypothesis answer_given : responded answer = true.

(** The score of [h] is only written by a response for [h] that
    succeeds. *)
Lemma score_kept_transact w tx :
  ValidationRegistry.hasResponse (Protocol.validation w) h = true →
  ValidationRegistry.validationResponses (Protocol.validation w) h = score →
  Runs.answers sv k h w tx = false →
  ValidationRegistry.hasResponse
    (Protocol.validation (Protocol.transact sv k w tx)) h = true ∧
  ValidationRegistry.validationResponses
    (Protocol.validation (Protocol.transact sv k w tx)) h = score.
Proof.
  intros Hhas Hscore Hquiet.
  destruct tx as [env c]. unfold Protocol.transact, Runs.answers in *.
  destruct c; simpl in *;
    unfold Protocol.on_identity, Protocol.on_reputation,
      Protocol.on_validation in *.
  - by destruct (IdentityRegistry.newAgent _ _ _ _ _ _ _ _).
  - by destruct (IdentityRegistry.updateAgent _ _ _ _ _ _ _ _ _).
  - by destruct (ReputationRegistry.acceptFeedback _ _ _ _ _ _ _ _ _ _).
  - destruct (ValidationRegistry.validationRequest _ _ _ _ _ _ _ _ _ _)
      eqn:E; [| done].
    apply validationRequest_success in E as (_ & _ & ->). simpl.
    by destruct (ValidationRegistry.stillValid _ _ _).
  - destruct (ValidationRegistry.validationResponse _ _ _ _ _ _ _ _ _)
      eqn:E; [| done].
    simpl in Hquiet. rewrite andb_true_r in Hquiet.
    apply bool_decide_eq_false in Hquiet.
    apply validationResponse_success in E as (_ & _ & _ & _ & _ & ->).
    simpl. rewrite hasResponse_answered, responses_answered.
    by rewrite !decide_False.
Qed.

Lemma score_kept_run txs w :
  ValidationRegistry.hasResponse (Protocol.validation w) h = true →
  ValidationRegistry.validationResponses (Protocol.validation w) h = score →
  Runs.never sv k (Runs.answers sv k h) txs w = true →
  ValidationRegistry.hasResponse
    (Protocol.validation (Protocol.run sv k txs w)) h = true ∧
  ValidationRegistry.validationResponses
    (Protocol.validation (Protocol.run sv k txs w)) h = score.
Proof.
  revert w. induction txs as [| tx txs IH]; intros w Hhas Hscore Hquiet;
    [done |].
  simpl in *. apply andb_true_iff in Hquiet as [Htx Hrest].
  apply negb_true_iff in Htx.
  destruct (score_kept_transact w tx Hhas Hscore Htx).
  by apply IH.
Qed.

(** The answered record of [h] stays in place until a request for [h]
    succeeds through the create/overwrite branch, and until then no
    response for [h] succeeds. *)
Lemma answered_kept_transact w tx :
  ValidationRegistry.holds_answer h answer score (Protocol.validation w) →
  Runs.renewed sv k h w tx = false →
  ValidationRegistry.holds_answer h answer score
    (Protocol.validation (Protocol.transact sv k w tx)) ∧
  Runs.answers sv k h w tx = false.
Proof.
  intros (Hreq & Hhas & Hscore) Hquiet.
  destruct tx as [env c].
  unfold Protocol.transact, Runs.renewed, Runs.answers in *.
  destruct c; simpl in *;
    unfold Protocol.on_identity, Protocol.on_reputation,
      Protocol.on_validation in *.
  - by destruct (IdentityRegistry.newAgent _ _ _ _ _ _ _ _).
  - by destruct (IdentityRegistry.updateAgent _ _ _ _ _ _ _ _ _).
  - by destruct (ReputationRegistry.acceptFeedback _ _ _ _ _ _ _ _ _ _).
  - split; [| done].
    destruct (ValidationRegistry.validationRequest _ _ _ _ _ _ _ _ _ _)
      eqn:E; [| done].
    apply validationRequest_success in E as (_ & _ & ->). simpl in *.
    destruct (ValidationRegistry.stillValid _ _ _) eqn:Hvalid; [done |].
    simpl in Hquiet. rewrite !andb_true_r in Hquiet.
    apply bool_decide_eq_false in Hquiet.
    unfold ValidationRegistry.holds_answer. rewrite requests_requested.
    by rewrite decide_False.
  - destruct (ValidationRegistry.validationResponse _ _ _ _ _ _ _ _ _)
      eqn:E; [| by rewrite andb_false_r].
    apply validationResponse_success in E as (_ & _ & _ & _ & Hopen & ->).
    simpl.
    assert (Hne : dataHash0 ≠ h).
    { intros ->. rewrite Hreq in Hopen. congruence. }
    split; [| by rewrite bool_decide_eq_false_2].
    unfold ValidationRegistry.holds_answer.
    rewrite requests_answered, responses_answered, hasResponse_answered.
    by rewrite !decide_False.
Qed.

Lemma answered_kept_run txs w :
  ValidationRegistry.holds_answer h answer score (Protocol.validation w) →
  Runs.never sv k (Runs.renewed sv k h) txs w = true →
  ValidationRegistry.holds_answer h answer score
    (Protocol.validation (Protocol.run sv k txs w)) ∧
  Runs.never sv k (Runs.answers sv k h) txs w = true.
Proof.
  revert w. induction txs as [| tx txs IH]; intros w Hw Hquiet; [done |].
  simpl in *. apply andb_true_iff in Hquiet as [Htx Hrest].
  apply negb_true_iff in Htx.
  destruct (answered_kept_transact w tx Hw Htx) as [Hw' Hno].
  destruct (IH _ Hw' Hrest) as [Hend Hnever].
  split; [done |]. by rewrite Hno, Hnever.
Qed.

(** A request that renews the answered record is issued after its
    window. *)
Lemma renewal_is_late w tx :
  ValidationRegistry.holds_answer h answer score (Protocol.validation w) →
  Runs.renewed sv k h w tx = true →
  timestamp answer + ValidationRegistry.EXPIRATION_SLOTS < block_number tx.1.
Proof.
  intros (Hreq & _ & _). destruct tx as [env c]. unfold Runs.renewed.
  destruct c; simpl; try done.
  intros [[Hh _]%andb_true_iff Hvalid%negb_true_iff]%andb_true_iff.
  apply bool_decide_eq_true in Hh as ->.
  apply N.lt_nge. intros Hopen.
  apply not_true_iff_false in Hvalid. apply Hvalid.
  apply stillValid_spec. by rewrite Hreq.
Qed.
End ScoreOverwrittenOnlyByResponse.

(** C3, as the code has it: after a successful [validationResponse] for a
    data hash, the stored score is unchanged by every sequence of
    transactions in which no further [validationResponse] for that hash
    succeeds; and none can succeed, every attempt with a score in range
    failing with Conflict while the window is open and with Expired once
    it has passed, until a [validationRequest] for the hash has succeeded
    through the create/overwrite branch, which it only does after the
    answered request's expiration window
    ([block.number > timestamp + EXPIRATION_SLOTS]). *)
Theorem responded_score_kept_until_renewal
    sv k w0 env0 client0 h score nonce0 sig0 txs :
  let answer := Protocol.ValidationResponse client0 h score nonce0 sig0 in
  let deadline :=
    timestamp
      (ValidationRegistry.validationRequests (Protocol.validation w0) h) +
    ValidationRegistry.EXPIRATION_SLOTS in
  let w1 := Protocol.transact sv k w0 (env0, answer) in
  let w := Protocol.run sv k txs w1 in
  succeeded (Protocol.call sv k env0 answer w0) = true →
  (Runs.never sv k (Runs.answers sv k h) txs w1 = true →
   ValidationRegistry.getValidationResponse (Protocol.validation w) h
     = (true, score)) ∧
  (Runs.never sv k (Runs.renewed sv k h) txs w1 = true →
   Runs.never sv k (Runs.answers sv k h) txs w1 = true ∧
   (∀ env client r n sig, r ≤ 100 →
      Protocol.call sv k env (Protocol.ValidationResponse client h r n sig) w
        = Revert
            (if bool_decide (deadline < block_number env)
             then RequestExpired else ValidationAlreadyResponded) w) ∧
   (∀ tx, Runs.renewed sv k h w tx = true → deadline < block_number tx.1)) ∧
  classify ValidationAlreadyResponded = Some Conflict ∧
  classify RequestExpired = Some Expired.
Proof.
  intros answer deadline w1 w Hanswered.
  set (s0 := Protocol.validation w0) in *.
  set (req := ValidationRegistry.validationRequests s0 h) in *.
  set (kept := mkRequest (agentValidatorId req) (agentServerId req)
                 (dataHash req) (timestamp req) true).
  assert (Hfirst : dataHash req ≠ 0 ∧
                   timestamp req + ValidationRegistry.EXPIRATION_SLOTS
                     ≤ UINT256_MAX ∧
                   ValidationRegistry.holds_answer h kept score
                     (Protocol.validation w1)).
  { unfold w1, Protocol.transact. simpl in *.
    unfold Protocol.on_validation in *. fold s0 in Hanswered |- *.
    destruct (ValidationRegistry.validationResponse _ _ _ _ _ _ _ _ _)
      eqn:E; [| discriminate].
    apply validationResponse_success in E as (_ & Hstored & Hfit & _ & _ & ->).
    fold req in Hstored, Hfit. split; [done |]. split; [done |].
    simpl. unfold ValidationRegistry.holds_answer.
    rewrite requests_answered, responses_answered, hasResponse_answered.
    by rewrite !decide_True. }
  destruct Hfirst as (Hstored & Hfit & Hheld).
  split; [| split; [| done]].
  - intros Hquiet.
    destruct Hheld as (_ & Hhas & Hscore).
    destruct (score_kept_run sv k h score txs w1 Hhas Hscore Hquiet)
      as [Hhas' Hscore'].
    unfold ValidationRegistry.getValidationResponse, w.
    by rewrite Hhas', Hscore'.
  - intros Hquiet.
    destruct (answered_kept_run sv k h kept score eq_refl txs w1
                Hheld Hquiet) as [Hlast Hnever].
    fold w in Hlast.
    split; [done |]. split.
    + destruct Hlast as (Hreq & _ & _).
      intros env client r n sig Hr. simpl.
      unfold Protocol.on_validation.
      rewrite answered_again; try done; rewrite Hreq; try done.
      simpl. by destruct w.
    + intros tx Hrenew.
      apply (renewal_is_late sv k h kept score Hstored w tx Hlast Hrenew).
Qed.

Lemma responded_score_kept_until_renewal_witness :
  let answer := Scenario.respond 11 85 4 in
  let sig0 :=
    match answer.2 with
    | Protocol.ValidationResponse _ _ _ _ sig => sig
    | _ => EmptyString
    end in
  let txs :=
    [Scenario.request 12 5; Scenario.request 2000 6;
     Scenario.respond_signed_for "validationResponse" 2001 90 7] in
  let w1 :=
    Protocol.transact TestBase.signatureVerification TestBase.keccak256
      Scenario.pending
      (answer.1,
       Protocol.ValidationResponse Scenario.client Scenario.TEST_DATA_HASH
         85 4 sig0) in
  let w :=
    Protocol.run TestBase.signatureVerification TestBase.keccak256 txs w1 in
  (succeeded (Scenario.attempt answer Scenario.pending) = true ∧
   Runs.never TestBase.signatureVerification TestBase.keccak256
     (Runs.answers TestBase.signatureVerification TestBase.keccak256
        Scenario.TEST_DATA_HASH) txs w1 = true ∧
   Runs.never TestBase.signatureVerification TestBase.keccak256
     (Runs.renewed TestBase.signatureVerification TestBase.keccak256
        Scenario.TEST_DATA_HASH) txs w1 = false) ∧
  ValidationRegistry.getValidationResponse (Protocol.validation w)
    Scenario.TEST_DATA_HASH = (true, 85).
Proof.
  intros answer sig0 txs w1 w.
  assert (H1 : succeeded (Scenario.attempt answer Scenario.pending) = true)
    by (vm_compute; reflexivity).
  assert (H2 : Runs.never TestBase.signatureVerification TestBase.keccak256
                 (Runs.answers TestBase.signatureVerification
                    TestBase.keccak256 Scenario.TEST_DATA_HASH) txs w1
               = true)
    by (vm_compute; reflexivity).
  split; [split; [exact H1 | split; [exact H2 | vm_compute; reflexivity]] |].
  exact (proj1
           (responded_score_kept_until_renewal TestBase.signatureVerification
              TestBase.keccak256 Scenario.pending answer.1 Scenario.client
              Scenario.TEST_DATA_HASH 85 4 sig0 txs H1) H2).
Defined.

(** Against C3 as stated: the request for the hash is answered with 85 at
    block 11; after the window a fresh request for the same hash resets
    [responded], and a second response succeeds and overwrites the score
    with 90. *)
Lemma responded_score_overwritten :
  let w1 := Scenario.exec [Scenario.respond 11 85 4] Scenario.pending in
  let w2 := Scenario.exec [Scenario.request 2000 5] w1 in
  let w3 := Scenario.exec [Scenario.respond 2001 90 6] w2 in
  succeeded (Scenario.attempt (Scenario.respond 11 85 4) Scenario.pending)
    = true ∧
  ValidationRegistry.getValidationResponse (Protocol.validation w1)
    Scenario.TEST_DATA_HASH = (true, 85) ∧
  succeeded (Scenario.attempt (Scenario.request 2000 5) w1) = true ∧
  responded
    (ValidationRegistry.validationRequests (Protocol.validation w2)
       Scenario.TEST_DATA_HASH) = false ∧
  succeeded (Scenario.attempt (Scenario.respond 2001 90 6) w2) = true ∧
  ValidationRegistry.getValidationResponse (Protocol.validation w3)
    Scenario.TEST_DATA_HASH = (true, 90).
Proof. vm_compute. repeat split. Qed.

(** ** Nonces are never released *)

Ltac finish_nonce Hused :=
  match goal with
  | c : Protocol.Call |- _ =>
      destruct c; simpl in *; try assumption;
      unfold IdentityRegistry.nonceUsed, ReputationRegistry.nonceUsed,
        ValidationRegistry.nonceUsed in *;
      simpl; repeat split_if; simpl;
      apply bool_decide_eq_true in Hused; apply bool_decide_eq_true;
      set_solver
  end.

(** A nonce marked used for a principal in a registry stays marked across
    every transaction. *)
Lemma nonce_used_transact sv k w tx c :
  Protocol.nonce_used w c = true →
  Protocol.nonce_used (Protocol.transact sv k w tx) c = true.
Proof.
  intros Hused. destruct w as [i p v], tx as [env c'].
  unfold Protocol.transact.
  destruct c'; simpl;
    unfold Protocol.on_identity, Protocol.on_reputation,
      Protocol.on_validation; simpl.
  - rewrite newAgent_cascade. crack; simpl; try assumption. finish_nonce Hused.
  - rewrite updateAgent_cascade. crack; simpl; try assumption. finish_nonce Hused.
  - rewrite acceptFeedback_cascade. crack; simpl; try assumption.
    finish_nonce Hused.
  - rewrite validationRequest_cascade. crack; simpl; try assumption.
    finish_nonce Hused.
  - rewrite validationResponse_cascade. cbv zeta.
    crack; simpl; try assumption. finish_nonce Hused.
Qed.

Lemma nonce_used_run sv k txs w c :
  Protocol.nonce_used w c = true →
  Protocol.nonce_used (Protocol.run sv k txs w) c = true.
Proof.
  revert w. induction txs as [| tx txs IH]; intros w Hused; [done |].
  simpl. by apply IH, nonce_used_transact.
Qed.

(** Once a call has succeeded outside the early return of
    [validationRequest], no call to the same registry with the same
    principal and nonce succeeds again, whatever happens in between. *)
Lemma spent_nonce_is_spent_for_good sv k env c w r w' log txs env' c' :
  Protocol.call sv k env c w = Done r w' log →
  Protocol.retries env w c = false →
  (∀ w'', Protocol.nonce_used w'' c' = Protocol.nonce_used w'' c) →
  succeeded
    (Protocol.call sv k env' c' (Protocol.run sv k txs w')) = false.
Proof.
  intros Hdone Hretry Hsame.
  apply used_nonce_never_succeeds. rewrite Hsame.
  apply nonce_used_run. by eapply success_spends_nonce.
Qed.

(** ** The scenarios of the specification, section 8 *)

Example toHexString_address :
  toHexString 43981 20 = "0x000000000000000000000000000000000000abcd".
Proof. reflexivity. Qed.

Example registration_scenario :
  let first := Scenario.register 1 Scenario.TEST_DOMAIN Scenario.agentAddress 1
  in
  let w := Scenario.exec [first] Protocol.deployed in
  let again :=
    Scenario.register 2 Scenario.TEST_DOMAIN Scenario.agentAddress2 2 in
  IdentityRegistry.resolveByDomain (Protocol.identity w) Scenario.TEST_DOMAIN
    = Ok (mkAgentInfo 1 Scenario.TEST_DOMAIN Scenario.agentAddress) ∧
  failure (Scenario.attempt again w) = Some DomainAlreadyRegistered ∧
  IdentityRegistry.getAgentCount
    (Protocol.identity (Scenario.exec [again] w)) = Ok 1.
Proof. vm_compute. repeat split. Qed.

Example response_boundaries :
  failure (Scenario.attempt (Scenario.respond 11 101 4) Scenario.pending)
    = Some InvalidResponse ∧
  succeeded (Scenario.attempt (Scenario.respond 11 0 4) Scenario.pending)
    = true ∧
  succeeded (Scenario.attempt (Scenario.respond 11 100 4) Scenario.pending)
    = true ∧
  succeeded (Scenario.attempt (Scenario.respond 1010 100 4) Scenario.pending)
    = true ∧
  failure (Scenario.attempt (Scenario.respond 1011 100 4) Scenario.pending)
    = Some RequestExpired.
Proof. vm_compute. repeat split. Qed.

Example feedback_only_by_server :
  let by_client :=
    Scenario.tx (TestBase.at_block Scenario.agentAddress 0 5) "updateAgent"
      (Protocol.AcceptFeedback Scenario.client 1 2 9) in
  let w := Scenario.exec [Scenario.accept "updateAgent" 5 9]
             Scenario.two_agents in
  failure (Scenario.attempt by_client Scenario.two_agents)
    = Some UnauthorizedFeedback ∧
  (ReputationRegistry.isFeedbackAuthorized (Protocol.reputation w) 1 2).1
    = true ∧
  failure (Scenario.attempt (Scenario.accept "updateAgent" 6 10) w)
    = Some FeedbackAlreadyAuthorized.
Proof. vm_compute. repeat split. Qed.

(** * Further properties of the registries *)

(** ** Numbering of agents *)

Lemma agents_updated client id d a n s i :
  IdentityRegistry.agents (IdentityRegistry.updated client id d a n s) i =
    if decide (id = i)
    then
      mkAgentInfo (agentId (IdentityRegistry.agents s id))
        (if bool_decide (0 < String.length d)%nat then d
         else agentDomain (IdentityRegistry.agents s id))
        (if bool_decide (a ≠ 0) then a
         else agentAddress (IdentityRegistry.agents s id))
    else IdentityRegistry.agents s i.
Proof.
  unfold IdentityRegistry.updated.
  change (IdentityRegistry.agents (IdentityRegistry.set_nonce client n ?x) i)
    with (IdentityRegistry.agents x i).
  destruct (bool_decide (0 < String.length d)%nat);
    destruct (bool_decide (a ≠ 0));
    rewrite ?agents_moved_address, ?agents_moved_domain;
    destruct (decide (id = i)) as [<- | Hne]; simpl;
    rewrite ?agents_moved_domain, ?decide_True by done; try done.
  by destruct (IdentityRegistry.agents s id).
Qed.

Lemma counter_updated client id d a n s :
  IdentityRegistry._agentIdCounter (IdentityRegistry.updated client id d a n s)
    = IdentityRegistry._agentIdCounter s.
Proof.
  unfold IdentityRegistry.updated.
  by destruct (bool_decide (0 < String.length d)%nat);
    destruct (bool_decide (a ≠ 0)).
Qed.

Lemma present_updated client id d a n s i :
  Directory.present (IdentityRegistry.updated client id d a n s) i ↔
  Directory.present s i.
Proof.
  unfold Directory.present. rewrite agents_updated.
  by destruct (decide (id = i)) as [<- | ?].
Qed.

Lemma present_registered client d a n s i :
  1 ≤ IdentityRegistry._agentIdCounter s →
  Directory.present (IdentityRegistry.registered client d a n s) i ↔
  i = IdentityRegistry._agentIdCounter s ∨ Directory.present s i.
Proof.
  intros Hc. unfold Directory.present. rewrite agents_registered.
  destruct (decide (IdentityRegistry._agentIdCounter s = i)) as [<- | Hne];
    simpl.
  - split; [auto | intros _; lia].
  - split; [auto | intros [-> | H]; done].
Qed.

Lemma numbering_transact sv k w tx :
  Directory.invariant (Protocol.identity w) →
  Numbering.own_ids (Protocol.identity w) →
  Numbering.dense (Protocol.identity w) →
  Numbering.own_ids (Protocol.identity (Protocol.transact sv k w tx)) ∧
  Numbering.dense (Protocol.identity (Protocol.transact sv k w tx)).
Proof.
  intros Hinv Hown Hdense. destruct tx as [env c]. unfold Protocol.transact.
  pose proof (Directory.counter_positive _ Hinv) as Hc.
  destruct c; simpl;
    unfold Protocol.on_identity, Protocol.on_reputation,
      Protocol.on_validation.
  - destruct (IdentityRegistry.newAgent _ _ _ _ _ _ _ _) eqn:E; [| done].
    apply newAgent_success in E as (_ & _ & _ & _ & _ & _ & ->). simpl.
    split.
    + intros i Hi. rewrite agents_registered.
      destruct (decide (_ = i)) as [<- | ?]; [done |].
      apply present_registered in Hi as [-> | Hi]; [done | | done].
      by apply Hown.
    + intros i. rewrite present_registered by done. rewrite (Hdense i).
      simpl. lia.
  - destruct (IdentityRegistry.updateAgent _ _ _ _ _ _ _ _ _) eqn:E; [| done].
    apply updateAgent_success in E as (Hid & _ & _ & _ & ->). simpl.
    split.
    + intros i Hi%present_updated. rewrite agents_updated.
      destruct (decide (agentId0 = i)) as [<- | ?]; simpl; by apply Hown.
    + intros i. rewrite present_updated, counter_updated. apply Hdense.
  - by destruct (ReputationRegistry.acceptFeedback _ _ _ _ _ _ _ _ _ _).
  - by destruct (ValidationRegistry.validationRequest _ _ _ _ _ _ _ _ _ _).
  - by destruct (ValidationRegistry.validationResponse _ _ _ _ _ _ _ _ _).
Qed.

Lemma numbering_run sv k txs w :
  Directory.invariant (Protocol.identity w) →
  Numbering.own_ids (Protocol.identity w) →
  Numbering.dense (Protocol.identity w) →
  Numbering.own_ids (Protocol.identity (Protocol.run sv k txs w)) ∧
  Numbering.dense (Protocol.identity (Protocol.run sv k txs w)).
Proof.
  revert w. induction txs as [| tx txs IH]; intros w Hinv Hown Hdense;
    [done |].
  simpl. destruct (numbering_transact sv k w tx Hinv Hown Hdense).
  apply IH; [by apply invariant_transact | done | done].
Qed.

Lemma numbering_reachable sv k txs :
  Numbering.own_ids
    (Protocol.identity (Protocol.run sv k txs Protocol.deployed)) ∧
  Numbering.dense
    (Protocol.identity (Protocol.run sv k txs Protocol.deployed)).
Proof.
  apply numbering_run; [apply invariant_constructor | |].
  - intros i Hi. by destruct Hi.
  - intros i. unfold Directory.present. simpl. split; [done | lia].
Qed.

(** X1: in every state reached from deployment the agents that exist are
    exactly those with ids 1 to [getAgentCount()]: ids are handed out in
    sequence, without gaps, and none is ever given up. *)
Theorem agent_ids_are_sequential sv k txs :
  let s := Protocol.identity (Protocol.run sv k txs Protocol.deployed) in
  ∃ count,
    IdentityRegistry.getAgentCount s = Ok count ∧
    ∀ i, IdentityRegistry.agentExists s i = true ↔ 1 ≤ i ∧ i ≤ count.
Proof.
  intros s.
  pose proof (Directory.counter_positive _ (invariant_reachable sv k txs))
    as Hc.
  destruct (numbering_reachable sv k txs) as [_ Hdense].
  fold s in Hc, Hdense.
  exists (IdentityRegistry._agentIdCounter s - 1). split.
  - unfold IdentityRegistry.getAgentCount. by rewrite bool_decide_eq_true_2.
  - intros i. rewrite agentExists_present, (Hdense i). lia.
Qed.

Lemma counter_transact sv k w tx :
  IdentityRegistry._agentIdCounter
    (Protocol.identity (Protocol.transact sv k w tx)) =
  IdentityRegistry._agentIdCounter (Protocol.identity w) +
  (if Numbering.registers sv k w tx then 1 else 0).
Proof.
  destruct tx as [env c]. unfold Protocol.transact, Numbering.registers.
  destruct c; simpl;
    unfold Protocol.on_identity, Protocol.on_reputation,
      Protocol.on_validation.
  - destruct (IdentityRegistry.newAgent _ _ _ _ _ _ _ _) eqn:E; simpl;
      [| lia].
    by apply newAgent_success in E as (_ & _ & _ & _ & _ & _ & ->).
  - destruct (IdentityRegistry.updateAgent _ _ _ _ _ _ _ _ _) eqn:E; simpl;
      [| lia].
    apply updateAgent_success in E as (_ & _ & _ & _ & ->).
    rewrite counter_updated. lia.
  - destruct (ReputationRegistry.acceptFeedback _ _ _ _ _ _ _ _ _ _);
      simpl; lia.
  - destruct (ValidationRegistry.validationRequest _ _ _ _ _ _ _ _ _ _);
      simpl; lia.
  - destruct (ValidationRegistry.validationResponse _ _ _ _ _ _ _ _ _);
      simpl; lia.
Qed.

Lemma counter_run sv k txs w :
  IdentityRegistry._agentIdCounter
    (Protocol.identity (Protocol.run sv k txs w)) =
  IdentityRegistry._agentIdCounter (Protocol.identity w) +
  N.of_nat (Numbering.registrations sv k txs w).
Proof.
  revert w. induction txs as [| tx txs IH]; intros w; simpl; [lia |].
  rewrite IH, counter_transact.
  destruct (Numbering.registers sv k w tx); lia.
Qed.

(** X2: after any sequence of transactions from deployment,
    [getAgentCount()] is the number of [newAgent] calls that succeeded:
    each success adds exactly one, and no failed call and no other entry
    point changes it. *)
Theorem getAgentCount_counts_registrations sv k txs :
  IdentityRegistry.getAgentCount
    (Protocol.identity (Protocol.run sv k txs Protocol.deployed))
  = Ok (N.of_nat (Numbering.registrations sv k txs Protocol.deployed)).
Proof.
  unfold IdentityRegistry.getAgentCount. rewrite counter_run. simpl.
  rewrite bool_decide_eq_true_2 by lia. f_equal. lia.
Qed.

(** X3: a successful [newAgent] in a state reached from deployment returns
    the next id, one more than the agent count before the call, and
    afterwards [getAgent] of that id, [resolveByDomain] of the domain and
    [resolveByAddress] of the address all return the record just stored. *)
Theorem newAgent_then_resolve sv k txs env client d a n sig id s' log :
  let s := Protocol.identity (Protocol.run sv k txs Protocol.deployed) in
  IdentityRegistry.newAgent sv env client d a n sig s = Done id s' log →
  IdentityRegistry.getAgentCount s = Ok (id - 1) ∧
  IdentityRegistry.getAgentCount s' = Ok id ∧
  IdentityRegistry.getAgent s' id = Ok (mkAgentInfo id d a) ∧
  IdentityRegistry.resolveByDomain s' d = Ok (mkAgentInfo id d a) ∧
  IdentityRegistry.resolveByAddress s' a = Ok (mkAgentInfo id d a).
Proof.
  intros s Hrun.
  pose proof (Directory.counter_positive _ (invariant_reachable sv k txs))
    as Hc.
  fold s in Hc.
  apply newAgent_success in Hrun as (_ & _ & _ & _ & _ & -> & ->).
  unfold IdentityRegistry.getAgentCount, IdentityRegistry.getAgent,
    IdentityRegistry.resolveByDomain, IdentityRegistry.resolveByAddress.
  rewrite domain_registered, address_registered, agents_registered.
  rewrite !decide_True by done. simpl.
  repeat case_bool_decide; try lia.
  rewrite !agents_registered, !decide_True by done.
  repeat split; f_equal; lia.
Qed.

Lemma newAgent_then_resolve_witness :
  let first :=
    Scenario.register 1 Scenario.TEST_DOMAIN Scenario.agentAddress 1 in
  let second :=
    Scenario.register 2 Scenario.TEST_DOMAIN_2 Scenario.agentAddress2 2 in
  let sig :=
    match second.2 with
    | Protocol.NewAgent _ _ _ _ sig => sig
    | _ => EmptyString
    end in
  let s :=
    Protocol.identity
      (Protocol.run TestBase.signatureVerification TestBase.keccak256 [first]
         Protocol.deployed) in
  let s' :=
    reached
      (IdentityRegistry.newAgent TestBase.signatureVerification second.1
         Scenario.client Scenario.TEST_DOMAIN_2 Scenario.agentAddress2 2 sig
         s) in
  succeeded
    (IdentityRegistry.newAgent TestBase.signatureVerification second.1
       Scenario.client Scenario.TEST_DOMAIN_2 Scenario.agentAddress2 2 sig s)
    = true ∧
  IdentityRegistry.resolveByDomain s' Scenario.TEST_DOMAIN_2
    = Ok (mkAgentInfo 2 Scenario.TEST_DOMAIN_2 Scenario.agentAddress2).
Proof.
  intros first second sig s s'.
  assert (H : IdentityRegistry.newAgent TestBase.signatureVerification
                second.1 Scenario.client Scenario.TEST_DOMAIN_2
                Scenario.agentAddress2 2 sig s
              = Done 2 s'
                  [IdentityRegistry.AgentRegistered 2 Scenario.TEST_DOMAIN_2
                     Scenario.agentAddress2])
    by (vm_compute; reflexivity).
  split; [vm_compute; reflexivity |].
  exact (proj1 (proj2 (proj2 (proj2
           (newAgent_then_resolve TestBase.signatureVerification
              TestBase.keccak256 [first] second.1 Scenario.client
              Scenario.TEST_DOMAIN_2 Scenario.agentAddress2 2 sig 2 s' _
              H))))).
Defined.

(** X4: in every state reached from deployment the three lookups agree: a
    record returned by [getAgent(i)] has id [i] and is the record both
    [resolveByDomain] of its domain and [resolveByAddress] of its address
    return; a record returned by [resolveByDomain(d)] has domain [d], one
    returned by [resolveByAddress(x)] has address [x], and [getAgent] of
    its id returns it. *)
Theorem lookups_agree sv k txs :
  let s := Protocol.identity (Protocol.run sv k txs Protocol.deployed) in
  (∀ i r, IdentityRegistry.getAgent s i = Ok r →
     agentId r = i ∧
     IdentityRegistry.resolveByDomain s (agentDomain r) = Ok r ∧
     IdentityRegistry.resolveByAddress s (agentAddress r) = Ok r) ∧
  (∀ d r, IdentityRegistry.resolveByDomain s d = Ok r →
     agentDomain r = d ∧ IdentityRegistry.getAgent s (agentId r) = Ok r) ∧
  (∀ x r, IdentityRegistry.resolveByAddress s x = Ok r →
     agentAddress r = x ∧ IdentityRegistry.getAgent s (agentId r) = Ok r).
Proof.
  intros s.
  destruct (invariant_reachable sv k txs) as [Hc Hids _ Hdom Haddr].
  destruct (numbering_reachable sv k txs) as [Hown _].
  fold s in Hc, Hids, Hdom, Haddr, Hown.
  unfold IdentityRegistry.getAgent, IdentityRegistry.resolveByDomain,
    IdentityRegistry.resolveByAddress.
  split; [| split].
  - intros i r. case_bool_decide as Hi; [done |]. intros [= <-].
    assert (Hi0 : i ≠ 0) by (apply Hids in Hi; lia).
    rewrite (proj2 (Hdom _ i Hi0)) by done.
    rewrite (proj2 (Haddr _ i Hi0)) by done.
    rewrite !bool_decide_eq_false_2 by done.
    split; [by apply Hown | done].
  - intros d r. case_bool_decide as Hd; [done |]. intros [= <-].
    destruct (proj1 (Hdom d _ Hd) eq_refl) as [Hp Hdd].
    split; [done |]. rewrite (Hown _ Hp).
    by rewrite bool_decide_eq_false_2 by (by rewrite (Hown _ Hp)).
  - intros x r. case_bool_decide as Hx; [done |]. intros [= <-].
    destruct (proj1 (Haddr x _ Hx) eq_refl) as [Hp Hxx].
    split; [done |]. rewrite (Hown _ Hp).
    by rewrite bool_decide_eq_false_2 by (by rewrite (Hown _ Hp)).
Qed.

Lemma present_transact sv k w tx i :
  Directory.invariant (Protocol.identity w) →
  Directory.present (Protocol.identity w) i →
  Directory.present (Protocol.identity (Protocol.transact sv k w tx)) i.
Proof.
  intros Hinv Hi. destruct tx as [env c]. unfold Protocol.transact.
  pose proof (Directory.counter_positive _ Hinv) as Hc.
  destruct c; simpl;
    unfold Protocol.on_identity, Protocol.on_reputation,
      Protocol.on_validation.
  - destruct (IdentityRegistry.newAgent _ _ _ _ _ _ _ _) eqn:E; [| done].
    apply newAgent_success in E as (_ & _ & _ & _ & _ & _ & ->). simpl.
    apply present_registered; auto.
  - destruct (IdentityRegistry.updateAgent _ _ _ _ _ _ _ _ _) eqn:E; [| done].
    apply updateAgent_success in E as (_ & _ & _ & _ & ->). simpl.
    by apply present_updated.
  - by destruct (ReputationRegistry.acceptFeedback _ _ _ _ _ _ _ _ _ _).
  - by destruct (ValidationRegistry.validationRequest _ _ _ _ _ _ _ _ _ _).
  - by destruct (ValidationRegistry.validationResponse _ _ _ _ _ _ _ _ _).
Qed.

Lemma present_run sv k txs w i :
  Directory.invariant (Protocol.identity w) →
  Directory.present (Protocol.identity w) i →
  Directory.present (Protocol.identity (Protocol.run sv k txs w)) i.
Proof.
  revert w. induction txs as [| tx txs IH]; intros w Hinv Hi; [done |].
  simpl. apply IH; [by apply invariant_transact | by apply present_transact].
Qed.

(** X5: agents are never deleted: an agent that exists after a sequence of
    transactions from deployment still exists after any further
    transactions. *)
Theorem agents_are_never_deleted sv k txs later i :
  let w := Protocol.run sv k txs Protocol.deployed in
  IdentityRegistry.agentExists (Protocol.identity w) i = true →
  IdentityRegistry.agentExists
    (Protocol.identity (Protocol.run sv k later w)) i = true.
Proof.
  intros w. rewrite !agentExists_present.
  apply present_run, invariant_reachable.
Qed.

Lemma agents_are_never_deleted_witness :
  let w := Scenario.two_agents in
  let later :=
    [Scenario.update Scenario.agentAddress 5 1 "c.example.com" 0xC3 9;
     Scenario.request 10 3] in
  IdentityRegistry.agentExists (Protocol.identity w) 1 = true ∧
  IdentityRegistry.agentExists
    (Protocol.identity
       (Protocol.run TestBase.signatureVerification TestBase.keccak256 later
          w)) 1 = true.
Proof.
  intros w later. split; [vm_compute; reflexivity |].
  apply (agents_are_never_deleted TestBase.signatureVerification
           TestBase.keccak256
           [Scenario.register 1 Scenario.TEST_DOMAIN Scenario.agentAddress 1;
            Scenario.register 2 Scenario.TEST_DOMAIN_2
              Scenario.agentAddress2 2] later 1).
  vm_compute. reflexivity.
Defined.

(** ** Updates of an agent *)

Lemma updateAgent_authorized sv env client id d a n sig s r s' log :
  IdentityRegistry.updateAgent sv env client id d a n sig s = Done r s' log →
  msg_sender env = agentAddress (IdentityRegistry.agents s id) ∧ r = true.
Proof.
  rewrite updateAgent_cascade.
  case_bool_decide; [discriminate |].
  case_bool_decide as Hs; [discriminate |].
  repeat (split_if; try discriminate).
  by intros [= <- _ _].
Qed.

(** X6: a successful [updateAgent] in a state reached from deployment
    stores the new values under the same id; a new domain resolves to the
    updated record and the old domain no longer resolves, a new address
    resolves to the updated record and the old address no longer
    resolves, and a field left out keeps resolving to the updated
    record. *)
Theorem updateAgent_moves_index_entries
    sv k txs env client id d a n sig s' log :
  let s := Protocol.identity (Protocol.run sv k txs Protocol.deployed) in
  let old := IdentityRegistry.agents s id in
  let new :=
    mkAgentInfo id
      (if bool_decide (d ≠ EmptyString) then d else agentDomain old)
      (if bool_decide (a ≠ 0) then a else agentAddress old) in
  IdentityRegistry.updateAgent sv env client id d a n sig s
    = Done true s' log →
  IdentityRegistry.getAgent s' id = Ok new ∧
  IdentityRegistry.resolveByDomain s' (agentDomain new) = Ok new ∧
  IdentityRegistry.resolveByAddress s' (agentAddress new) = Ok new ∧
  (d ≠ EmptyString →
   IdentityRegistry.resolveByDomain s' (agentDomain old)
     = Err AgentNotFound) ∧
  (a ≠ 0 →
   IdentityRegistry.resolveByAddress s' (agentAddress old)
     = Err AgentNotFound).
Proof.
  intros s old new Hrun.
  pose proof (invariant_reachable sv k txs) as Hinv.
  destruct (numbering_reachable sv k txs) as [Hown _].
  fold s in Hinv, Hown.
  apply updateAgent_success in Hrun as (Hid & Hd & Ha & _ & ->).
  pose proof (invariant_updated client id d a n s Hinv Hid Hd Ha) as Hinv'.
  destruct Hinv as [Hc Hids Hrec Hdom Haddr].
  destruct Hinv' as [_ _ _ Hdom' Haddr'].
  assert (Hid0 : id ≠ 0) by (apply Hids in Hid; lia).
  assert (Hnew : IdentityRegistry.agents
                   (IdentityRegistry.updated client id d a n s) id = new).
  { rewrite agents_updated, decide_True by done. unfold new, old.
    rewrite (Hown _ Hid).
    by rewrite (bool_decide_ext _ _ (length_positive_nonempty d)). }
  assert (Hpres : Directory.present
                    (IdentityRegistry.updated client id d a n s) id).
  { by apply present_updated. }
  assert (Hold_d : IdentityRegistry.domainToAgentId s (agentDomain old) = id).
  { by apply Hdom. }
  assert (Hold_a : IdentityRegistry.addressToAgentId s (agentAddress old)
                   = id).
  { by apply Haddr. }
  unfold IdentityRegistry.getAgent, IdentityRegistry.resolveByDomain,
    IdentityRegistry.resolveByAddress.
  rewrite (proj2 (Hdom' (agentDomain new) id Hid0))
    by (by rewrite Hnew).
  rewrite (proj2 (Haddr' (agentAddress new) id Hid0))
    by (by rewrite Hnew).
  rewrite Hnew. simpl.
  rewrite !bool_decide_eq_false_2 by done.
  split; [done |]. split; [done |]. split; [done |]. split.
  - intros Hne.
    destruct (decide (IdentityRegistry.domainToAgentId
                        (IdentityRegistry.updated client id d a n s)
                        (agentDomain old) = 0)) as [-> | Hj]; [done |].
    exfalso.
    destruct (proj1 (Hdom' _ _ Hj) eq_refl) as [Hpj Hdj].
    revert Hj Hpj Hdj.
    generalize (IdentityRegistry.domainToAgentId
                  (IdentityRegistry.updated client id d a n s)
                  (agentDomain old)).
    intros j Hj. rewrite present_updated, agents_updated.
    destruct (decide (id = j)) as [<- | Hneq]; simpl.
    + rewrite (bool_decide_eq_true_2 _ (proj2 (length_positive_nonempty d)
                                          Hne)).
      intros _ Heq. specialize (Hd Hne). rewrite Heq in Hd.
      fold old in Hold_d. congruence.
    + intros Hpj Hdj.
      assert (IdentityRegistry.domainToAgentId s (agentDomain old) = j)
        by (by apply Hdom).
      congruence.
  - intros Hne.
    destruct (decide (IdentityRegistry.addressToAgentId
                        (IdentityRegistry.updated client id d a n s)
                        (agentAddress old) = 0)) as [-> | Hj]; [done |].
    exfalso.
    destruct (proj1 (Haddr' _ _ Hj) eq_refl) as [Hpj Haj].
    revert Hj Hpj Haj.
    generalize (IdentityRegistry.addressToAgentId
                  (IdentityRegistry.updated client id d a n s)
                  (agentAddress old)).
    intros j Hj. rewrite present_updated, agents_updated.
    destruct (decide (id = j)) as [<- | Hneq]; simpl.
    + rewrite (bool_decide_eq_true_2 _ Hne).
      intros _ Heq. specialize (Ha Hne). rewrite Heq in Ha.
      fold old in Hold_a. congruence.
    + intros Hpj Haj.
      assert (IdentityRegistry.addressToAgentId s (agentAddress old) = j)
        by (by apply Haddr).
      congruence.
Qed.

Lemma updateAgent_moves_index_entries_witness :
  let t := Scenario.update Scenario.agentAddress 5 1 "c.example.com" 0 9 in
  let sig :=
    match t.2 with
    | Protocol.UpdateAgent _ _ _ _ _ sig => sig
    | _ => EmptyString
    end in
  let txs :=
    [Scenario.register 1 Scenario.TEST_DOMAIN Scenario.agentAddress 1;
     Scenario.register 2 Scenario.TEST_DOMAIN_2 Scenario.agentAddress2 2] in
  let s :=
    Protocol.identity
      (Protocol.run TestBase.signatureVerification TestBase.keccak256 txs
         Protocol.deployed) in
  let o :=
    IdentityRegistry.updateAgent TestBase.signatureVerification t.1
      Scenario.client 1 "c.example.com" 0 9 sig s in
  succeeded o = true ∧
  IdentityRegistry.resolveByDomain (reached o) "c.example.com"
    = Ok (mkAgentInfo 1 "c.example.com" Scenario.agentAddress) ∧
  IdentityRegistry.resolveByDomain (reached o) Scenario.TEST_DOMAIN
    = Err AgentNotFound.
Proof.
  intros t sig txs s o.
  assert (H : o = Done true (reached o)
                    [IdentityRegistry.AgentUpdated 1 "c.example.com"
                       Scenario.agentAddress])
    by (vm_compute; reflexivity).
  split; [vm_compute; reflexivity |].
  pose proof (updateAgent_moves_index_entries TestBase.signatureVerification
                TestBase.keccak256 txs t.1 Scenario.client 1 "c.example.com"
                0 9 sig (reached o) _ H) as (_ & Hd & _ & Hold & _).
  split; [exact Hd | exact (Hold ltac:(discriminate))].
Defined.

(** A record is only rewritten by an [updateAgent] for its agent that
    succeeds. *)
Lemma agent_kept_transact sv k w tx id :
  Directory.invariant (Protocol.identity w) →
  Directory.present (Protocol.identity w) id →
  Runs.updates sv k id w tx = false →
  IdentityRegistry.agents (Protocol.identity (Protocol.transact sv k w tx)) id
    = IdentityRegistry.agents (Protocol.identity w) id.
Proof.
  intros Hinv Hid Hquiet. destruct tx as [env c].
  unfold Protocol.transact, Runs.updates in *.
  destruct c; simpl in *;
    unfold Protocol.on_identity, Protocol.on_reputation,
      Protocol.on_validation in *.
  - destruct (IdentityRegistry.newAgent _ _ _ _ _ _ _ _) eqn:E; [| done].
    apply newAgent_success in E as (_ & _ & _ & _ & _ & _ & ->). simpl.
    rewrite agents_registered, decide_False; [done |].
    apply (Directory.ids_allocated _ Hinv) in Hid. lia.
  - destruct (IdentityRegistry.updateAgent _ _ _ _ _ _ _ _ _) eqn:E;
      [| done].
    simpl in Hquiet. rewrite andb_true_r in Hquiet.
    apply bool_decide_eq_false in Hquiet.
    apply updateAgent_success in E as (_ & _ & _ & _ & ->). simpl.
    by rewrite agents_updated, decide_False.
  - by destruct (ReputationRegistry.acceptFeedback _ _ _ _ _ _ _ _ _ _).
  - by destruct (ValidationRegistry.validationRequest _ _ _ _ _ _ _ _ _ _).
  - by destruct (ValidationRegistry.validationResponse _ _ _ _ _ _ _ _ _).
Qed.

Lemma agent_kept_run sv k txs w id :
  Directory.invariant (Protocol.identity w) →
  Directory.present (Protocol.identity w) id →
  Runs.never sv k (Runs.updates sv k id) txs w = true →
  IdentityRegistry.agents (Protocol.identity (Protocol.run sv k txs w)) id
    = IdentityRegistry.agents (Protocol.identity w) id.
Proof.
  revert w. induction txs as [| tx txs IH]; intros w Hinv Hid Hquiet;
    [done |].
  simpl in *. apply andb_true_iff in Hquiet as [Htx Hrest].
  apply negb_true_iff in Htx.
  rewrite IH; [by apply agent_kept_transact | | | done].
  - by apply invariant_transact.
  - by apply present_transact.
Qed.

(** X7: [updateAgent] succeeds only when sent by the agent's recorded
    address, and control follows the address: after a successful update to
    a new address in a state reached from deployment, and for as long as no
    further [updateAgent] for the agent has succeeded, the record keeps the
    new address and every [updateAgent] for the agent sent by the previous
    address fails [UnauthorizedUpdate]. *)
Theorem updateAgent_hands_over_control
    sv k txs env client id d a n sig later :
  let update := Protocol.UpdateAgent client id d a n sig in
  let w := Protocol.run sv k txs Protocol.deployed in
  let w' := Protocol.transact sv k w (env, update) in
  let w'' := Protocol.run sv k later w' in
  succeeded (Protocol.call sv k env update w) = true →
  msg_sender env =
    agentAddress (IdentityRegistry.agents (Protocol.identity w) id) ∧
  (a ≠ 0 →
   Runs.never sv k (Runs.updates sv k id) later w' = true →
   agentAddress (IdentityRegistry.agents (Protocol.identity w'') id) = a ∧
   ∀ env' client' d' a' n' sig',
     msg_sender env' = msg_sender env →
     Protocol.call sv k env'
       (Protocol.UpdateAgent client' id d' a' n' sig') w''
       = Revert UnauthorizedUpdate w'').
Proof.
  intros update w w' w'' Hdone.
  pose proof (invariant_reachable sv k txs) as Hinv. fold w in Hinv.
  pose proof (invariant_transact sv k w (env, update) Hinv) as Hinv'.
  fold w' in Hinv'.
  unfold w', Protocol.transact in *. simpl in *.
  unfold Protocol.on_identity in *.
  destruct (IdentityRegistry.updateAgent _ _ _ _ _ _ _ _ _) eqn:Hrun;
    [| discriminate].
  destruct (updateAgent_authorized _ _ _ _ _ _ _ _ _ _ _ _ Hrun)
    as [Hsender _].
  split; [done |]. intros Hne Hquiet.
  apply updateAgent_success in Hrun as (Hid & _ & Ha & _ & ->).
  simpl in *.
  set (s := Protocol.identity w) in *.
  set (s' := IdentityRegistry.updated client id d a n s) in *.
  assert (Hid0 : id ≠ 0)
    by (apply (Directory.ids_allocated _ Hinv) in Hid; lia).
  assert (Hold : IdentityRegistry.addressToAgentId s
                   (agentAddress (IdentityRegistry.agents s id)) = id).
  { by apply (Directory.addresses_exact _ Hinv). }
  assert (Hid' : Directory.present s' id) by (by apply present_updated).
  assert (Hnew : agentAddress (IdentityRegistry.agents s' id) = a).
  { unfold s'. rewrite agents_updated, decide_True by done. simpl.
    by rewrite bool_decide_eq_true_2. }
  assert (Hkept : IdentityRegistry.agents (Protocol.identity w'') id
                  = IdentityRegistry.agents s' id).
  { by apply (agent_kept_run sv k later w' id). }
  assert (Hlast : Directory.present (Protocol.identity w'') id).
  { by apply (present_run sv k later w' id). }
  split; [by rewrite Hkept |].
  intros env' client' d' a' n' sig' Hsame.
  unfold Protocol.on_identity.
  rewrite updateAgent_cascade.
  rewrite bool_decide_eq_false_2 by done.
  rewrite bool_decide_eq_true_2.
  { simpl. by destruct w''. }
  rewrite Hkept, Hnew, Hsame, Hsender. intros Heq.
  specialize (Ha Hne). rewrite <- Heq in Ha. congruence.
Qed.

Lemma updateAgent_hands_over_control_witness :
  let t := Scenario.update Scenario.agentAddress 5 1 EmptyString 0xC3 9 in
  let sig :=
    match t.2 with
    | Protocol.UpdateAgent _ _ _ _ _ sig => sig
    | _ => EmptyString
    end in
  let txs :=
    [Scenario.register 1 Scenario.TEST_DOMAIN Scenario.agentAddress 1;
     Scenario.register 2 Scenario.TEST_DOMAIN_2 Scenario.agentAddress2 2] in
  let later :=
    [Scenario.update Scenario.agentAddress 6 1 "c.example.com" 0 10;
     Scenario.update Scenario.agentAddress2 7 2 "d.example.com" 0 11;
     Scenario.register 8 "e.example.com" 0xE5 12] in
  let w :=
    Protocol.run TestBase.signatureVerification TestBase.keccak256 txs
      Protocol.deployed in
  let w' :=
    Protocol.transact TestBase.signatureVerification TestBase.keccak256 w
      (t.1, Protocol.UpdateAgent Scenario.client 1 EmptyString 0xC3 9 sig) in
  let w'' :=
    Protocol.run TestBase.signatureVerification TestBase.keccak256 later w' in
  (succeeded (Scenario.attempt t w) = true ∧
   Runs.never TestBase.signatureVerification TestBase.keccak256
     (Runs.updates TestBase.signatureVerification TestBase.keccak256 1)
     later w' = true ∧
   IdentityRegistry.getAgentCount (Protocol.identity w'') = Ok 3) ∧
  agentAddress (IdentityRegistry.agents (Protocol.identity w'') 1) = 0xC3.
Proof.
  intros t sig txs later w w' w''.
  assert (H1 : succeeded (Scenario.attempt t w) = true)
    by (vm_compute; reflexivity).
  assert (H2 : Runs.never TestBase.signatureVerification TestBase.keccak256
                 (Runs.updates TestBase.signatureVerification
                    TestBase.keccak256 1) later w' = true)
    by (vm_compute; reflexivity).
  split; [split; [exact H1 | split; [exact H2 | vm_compute; reflexivity]] |].
  pose proof (updateAgent_hands_over_control TestBase.signatureVerification
                TestBase.keccak256 txs t.1 Scenario.client 1 EmptyString 0xC3
                9 sig later H1) as (_ & Hnew).
  exact (proj1 (Hnew ltac:(discriminate) H2)).
Defined.

(** ** Feedback authorizations *)

Lemma acceptFeedback_success sv k ir env client c v n sig s u s' log :
  ReputationRegistry.acceptFeedback sv k ir env client c v n sig s
    = Done u s' log →
  IdentityRegistry.agentExists ir c = true ∧
  IdentityRegistry.agentExists ir v = true ∧
  ReputationRegistry.nonceUsed s client n = false ∧
  msg_sender env = agentAddress (IdentityRegistry.agents ir v) ∧
  ReputationRegistry.clientServerToAuthId s c v = 0 ∧
  s' = ReputationRegistry.authorized client c v n
         (ReputationRegistry._generateFeedbackAuthId k env c v) s.
Proof.
  rewrite acceptFeedback_cascade.
  destruct (IdentityRegistry.agentExists ir c); [| discriminate].
  destruct (IdentityRegistry.agentExists ir v) eqn:Hv; [| discriminate].
  simpl.
  destruct (negb _); [discriminate |].
  destruct (ReputationRegistry.nonceUsed s client n); [discriminate |].
  unfold IdentityRegistry.getAgent.
  unfold IdentityRegistry.agentExists in Hv.
  apply bool_decide_eq_true in Hv.
  rewrite bool_decide_eq_false_2 by done.
  case_bool_decide as Hs; [discriminate |].
  case_bool_decide as Hfree; [discriminate |].
  intros [= <-]. repeat split; try done.
Qed.

Lemma authId_authorized client c v n id s c' v' :
  ReputationRegistry.clientServerToAuthId
    (ReputationRegistry.authorized client c v n id s) c' v' =
    if decide ((c, v) = (c', v')) then id
    else ReputationRegistry.clientServerToAuthId s c' v'.
Proof.
  unfold ReputationRegistry.clientServerToAuthId,
    ReputationRegistry.authorized. simpl.
  rewrite lookup_insert. by case_decide.
Qed.

Lemma flag_authorized client c v n id s id' :
  ReputationRegistry.feedbackAuthorizations
    (ReputationRegistry.authorized client c v n id s) id' =
    if decide (id = id') then true
    else ReputationRegistry.feedbackAuthorizations s id'.
Proof.
  unfold ReputationRegistry.feedbackAuthorizations,
    ReputationRegistry.authorized. simpl.
  rewrite lookup_insert. by case_decide.
Qed.

(** X8: [acceptFeedback] succeeds only for two existing agents, only when
    sent by the server agent's recorded address, and only for a pair with
    no authorization id yet; afterwards [getFeedbackAuthId] of the pair is
    the derived id, and when that id is not zero [isFeedbackAuthorized]
    returns [true] with it. *)
Theorem acceptFeedback_only_by_server
    sv k ir env client c v n sig s u s' log :
  let id := ReputationRegistry._generateFeedbackAuthId k env c v in
  ReputationRegistry.acceptFeedback sv k ir env client c v n sig s
    = Done u s' log →
  IdentityRegistry.agentExists ir c = true ∧
  IdentityRegistry.agentExists ir v = true ∧
  msg_sender env = agentAddress (IdentityRegistry.agents ir v) ∧
  ReputationRegistry.getFeedbackAuthId s c v = 0 ∧
  ReputationRegistry.getFeedbackAuthId s' c v = id ∧
  (id ≠ 0 → ReputationRegistry.isFeedbackAuthorized s' c v = (true, id)).
Proof.
  intros id Hrun.
  apply acceptFeedback_success in Hrun as (Hc & Hv & _ & Hs & Hfree & ->).
  unfold ReputationRegistry.getFeedbackAuthId,
    ReputationRegistry.isFeedbackAuthorized.
  rewrite authId_authorized, decide_True by done.
  repeat split; try done.
  intros Hid. fold id. rewrite flag_authorized, decide_True by done.
  by rewrite bool_decide_eq_true_2.
Qed.

Lemma acceptFeedback_only_by_server_witness :
  let t := Scenario.accept "updateAgent" 5 9 in
  let sig :=
    match t.2 with
    | Protocol.AcceptFeedback _ _ _ _ sig => sig
    | _ => EmptyString
    end in
  let ir := Protocol.identity Scenario.two_agents in
  let s := Protocol.reputation Scenario.two_agents in
  let o :=
    ReputationRegistry.acceptFeedback TestBase.signatureVerification
      TestBase.keccak256 ir t.1 Scenario.client 1 2 9 sig s in
  succeeded o = true ∧
  msg_sender t.1 = agentAddress (IdentityRegistry.agents ir 2).
Proof.
  intros t sig ir s o.
  assert (H : o = Done tt (reached o)
                    [ReputationRegistry.AuthFeedback 1 2
                       (ReputationRegistry._generateFeedbackAuthId
                          TestBase.keccak256 t.1 1 2)])
    by (vm_compute; reflexivity).
  split; [vm_compute; reflexivity |].
  exact (proj1 (proj2 (proj2
           (acceptFeedback_only_by_server TestBase.signatureVerification
              TestBase.keccak256 ir t.1 Scenario.client 1 2 9 sig s tt
              (reached o) _ H)))).
Defined.

(** X9: when the derived id is zero, a successful [acceptFeedback] leaves
    the pair unauthorized: [isFeedbackAuthorized] returns [false] with id
    zero, as if the call had not been made (apart from the nonce). *)
Theorem acceptFeedback_zero_id_is_no_authorization
    sv k ir env client c v n sig s u s' log :
  ReputationRegistry._generateFeedbackAuthId k env c v = 0 →
  ReputationRegistry.acceptFeedback sv k ir env client c v n sig s
    = Done u s' log →
  ReputationRegistry.isFeedbackAuthorized s' c v = (false, 0) ∧
  ReputationRegistry._clientServerToAuthId s' =
    <[(c, v) := 0]> (ReputationRegistry._clientServerToAuthId s).
Proof.
  intros Hzero Hrun.
  apply acceptFeedback_success in Hrun as (_ & _ & _ & _ & _ & ->).
  unfold ReputationRegistry.isFeedbackAuthorized.
  rewrite authId_authorized, decide_True by done.
  rewrite Hzero. split; [| done].
  by rewrite bool_decide_eq_false_2 by (intros H; by apply H).
Qed.

Lemma acceptFeedback_zero_id_is_no_authorization_witness :
  let t := Scenario.accept "updateAgent" 5 9 in
  let sig :=
    match t.2 with
    | Protocol.AcceptFeedback _ _ _ _ sig => sig
    | _ => EmptyString
    end in
  let ir := Protocol.identity Scenario.two_agents in
  let s := Protocol.reputation Scenario.two_agents in
  let o :=
    ReputationRegistry.acceptFeedback TestBase.signatureVerification
      (λ _, 0) ir t.1 Scenario.client 1 2 9 sig s in
  succeeded o = true ∧
  ReputationRegistry.isFeedbackAuthorized (reached o) 1 2 = (false, 0).
Proof.
  intros t sig ir s o.
  assert (H : o = Done tt (reached o) [ReputationRegistry.AuthFeedback 1 2 0])
    by (vm_compute; reflexivity).
  split; [vm_compute; reflexivity |].
  exact (proj1
           (acceptFeedback_zero_id_is_no_authorization
              TestBase.signatureVerification (λ _, 0) ir t.1 Scenario.client
              1 2 9 sig s tt (reached o) _ eq_refl H)).
Defined.

Lemma authId_transact sv k w tx c v id :
  ReputationRegistry.clientServerToAuthId (Protocol.reputation w) c v = id →
  id ≠ 0 →
  ReputationRegistry.clientServerToAuthId
    (Protocol.reputation (Protocol.transact sv k w tx)) c v = id.
Proof.
  intros Hid Hne. destruct tx as [env call]. unfold Protocol.transact.
  destruct call; simpl;
    unfold Protocol.on_identity, Protocol.on_reputation,
      Protocol.on_validation.
  - by destruct (IdentityRegistry.newAgent _ _ _ _ _ _ _ _).
  - by destruct (IdentityRegistry.updateAgent _ _ _ _ _ _ _ _ _).
  - destruct (ReputationRegistry.acceptFeedback _ _ _ _ _ _ _ _ _ _) eqn:E;
      [| done].
    apply acceptFeedback_success in E as (_ & _ & _ & _ & Hfree & ->).
    simpl. rewrite authId_authorized.
    destruct (decide (_ = (c, v))) as [[= -> ->] | ?]; [congruence | done].
  - by destruct (ValidationRegistry.validationRequest _ _ _ _ _ _ _ _ _ _).
  - by destruct (ValidationRegistry.validationResponse _ _ _ _ _ _ _ _ _).
Qed.

Lemma authId_run sv k txs w c v id :
  ReputationRegistry.clientServerToAuthId (Protocol.reputation w) c v = id →
  id ≠ 0 →
  ReputationRegistry.clientServerToAuthId
    (Protocol.reputation (Protocol.run sv k txs w)) c v = id.
Proof.
  revert w. induction txs as [| tx txs IH]; intros w Hid Hne; [done |].
  simpl. apply IH; [by apply authId_transact | done].
Qed.

(** X10: a feedback authorization is written once: when
    [getFeedbackAuthId] of a pair is a non-zero id, it is the same id
    after any further transactions, and every later [acceptFeedback] for
    the pair fails, whatever its nonce, signature and sender. *)
Theorem feedback_authorization_is_permanent
    sv k w txs c v id env client n sig :
  ReputationRegistry.getFeedbackAuthId (Protocol.reputation w) c v = id →
  id ≠ 0 →
  let w' := Protocol.run sv k txs w in
  ReputationRegistry.getFeedbackAuthId (Protocol.reputation w') c v = id ∧
  succeeded (Protocol.call sv k env (Protocol.AcceptFeedback client c v n sig)
               w') = false.
Proof.
  intros Hid Hne w'.
  pose proof (authId_run sv k txs w c v id Hid Hne) as Hkept.
  fold w' in Hkept. split; [done |].
  simpl. unfold Protocol.on_reputation.
  destruct (ReputationRegistry.acceptFeedback _ _ _ _ _ _ _ _ _ _) eqn:E;
    [| done].
  apply acceptFeedback_success in E as (_ & _ & _ & _ & Hfree & _).
  congruence.
Qed.

Lemma feedback_authorization_is_permanent_witness :
  let w := Scenario.exec [Scenario.accept "updateAgent" 5 9]
             Scenario.two_agents in
  let id := ReputationRegistry.getFeedbackAuthId (Protocol.reputation w) 1 2 in
  let again := Scenario.accept "updateAgent" 7 11 in
  id ≠ 0 ∧
  succeeded
    (Protocol.call TestBase.signatureVerification TestBase.keccak256 again.1
       (Protocol.AcceptFeedback Scenario.client 1 2 11 "forged")
       (Protocol.run TestBase.signatureVerification TestBase.keccak256
          [Scenario.request 6 10] w)) = false.
Proof.
  intros w id again.
  assert (Hne : id ≠ 0) by (vm_compute; discriminate).
  split; [done |].
  exact (proj2
           (feedback_authorization_is_permanent
              TestBase.signatureVerification TestBase.keccak256 w
              [Scenario.request 6 10] 1 2 id again.1 Scenario.client 11
              "forged" eq_refl Hne)).
Defined.

Lemma flagged_transact sv k w tx :
  Feedback.flagged (Protocol.reputation w) →
  Feedback.flagged (Protocol.reputation (Protocol.transact sv k w tx)).
Proof.
  intros Hflag. destruct tx as [env call]. unfold Protocol.transact.
  destruct call; simpl;
    unfold Protocol.on_identity, Protocol.on_reputation,
      Protocol.on_validation.
  - by destruct (IdentityRegistry.newAgent _ _ _ _ _ _ _ _).
  - by destruct (IdentityRegistry.updateAgent _ _ _ _ _ _ _ _ _).
  - destruct (ReputationRegistry.acceptFeedback _ _ _ _ _ _ _ _ _ _) eqn:E;
      [| done].
    apply acceptFeedback_success in E as (_ & _ & _ & _ & _ & ->).
    simpl. intros c v. rewrite authId_authorized, flag_authorized.
    destruct (decide (_ = (c, v))) as [? | ?].
    + by rewrite decide_True.
    + intros Hne. destruct (decide (_ = _)); [done | by apply Hflag].
  - by destruct (ValidationRegistry.validationRequest _ _ _ _ _ _ _ _ _ _).
  - by destruct (ValidationRegistry.validationResponse _ _ _ _ _ _ _ _ _).
Qed.

Lemma flagged_run sv k txs w :
  Feedback.flagged (Protocol.reputation w) →
  Feedback.flagged (Protocol.reputation (Protocol.run sv k txs w)).
Proof.
  revert w. induction txs as [| tx txs IH]; intros w Hflag; [done |].
  simpl. by apply IH, flagged_transact.
Qed.

(** X11: in every state reached from deployment the two reads of the
    reputation registry agree: [isFeedbackAuthorized] of a pair returns the
    id [getFeedbackAuthId] returns, and [true] exactly when that id is not
    zero. *)
Theorem isFeedbackAuthorized_follows_auth_id sv k txs c v :
  let s := Protocol.reputation (Protocol.run sv k txs Protocol.deployed) in
  ReputationRegistry.isFeedbackAuthorized s c v =
    (bool_decide (ReputationRegistry.getFeedbackAuthId s c v ≠ 0),
     ReputationRegistry.getFeedbackAuthId s c v).
Proof.
  intros s.
  assert (Hflag : Feedback.flagged s).
  { apply flagged_run. intros c' v' H. by destruct H. }
  unfold ReputationRegistry.isFeedbackAuthorized,
    ReputationRegistry.getFeedbackAuthId.
  case_bool_decide as Hid; simpl; [| done].
  by rewrite (Hflag c v Hid).
Qed.

(** ** Validation requests and responses *)

Lemma validationResponse_authorized sv ir env client h r n sig s u s' log :
  ValidationRegistry.validationResponse sv ir env client h r n sig s
    = Done u s' log →
  IdentityRegistry.agentExists ir
    (agentValidatorId (ValidationRegistry.validationRequests s h)) = true ∧
  msg_sender env =
    agentAddress
      (IdentityRegistry.agents ir
         (agentValidatorId (ValidationRegistry.validationRequests s h))).
Proof.
  rewrite validationResponse_cascade. cbv zeta.
  destruct (bool_decide (100 < r)); [discriminate |].
  destruct (bool_decide (dataHash _ = 0)); [discriminate |].
  destruct (negb (bool_decide _)); [discriminate |].
  destruct (bool_decide (_ < block_number env)); [discriminate |].
  destruct (responded _); [discriminate |].
  destruct (negb (verify _ _)); [discriminate |].
  destruct (ValidationRegistry.nonceUsed s client n); [discriminate |].
  unfold IdentityRegistry.getAgent, IdentityRegistry.agentExists.
  case_bool_decide as Hex; [discriminate |].
  case_bool_decide as Hs; [discriminate |].
  intros _. split; [by apply bool_decide_eq_true | done].
Qed.

Lemma validationRequest_checked sv ir env client v w h n sig s u s' log :
  ValidationRegistry.validationRequest sv ir env client v w h n sig s
    = Done u s' log →
  IdentityRegistry.agentExists ir v = true ∧
  IdentityRegistry.agentExists ir w = true.
Proof.
  rewrite validationRequest_cascade.
  destruct (bool_decide (h = 0)); [discriminate |].
  destruct (IdentityRegistry.agentExists ir v); [| discriminate].
  by destruct (IdentityRegistry.agentExists ir w).
Qed.

(** X12: a [validationRequest] that succeeds where no unexpired request
    for the hash is stored files the request: [getValidationRequest]
    returns the new validator and server ids, the hash, the current block
    number and [responded = false], and [isValidationPending] returns
    (true, true); a response stored for the hash in an earlier round is
    still what [getValidationResponse] returns. *)
Theorem validationRequest_then_pending
    sv ir env client v w h n sig s s' log :
  ValidationRegistry.stillValid s h (block_number env) = false →
  block_number env + ValidationRegistry.EXPIRATION_SLOTS ≤ UINT256_MAX →
  ValidationRegistry.validationRequest sv ir env client v w h n sig s
    = Done tt s' log →
  ValidationRegistry.getValidationRequest s' h
    = Ok (mkRequest v w h (block_number env) false) ∧
  ValidationRegistry.isValidationPending env s' h = Ok (true, true) ∧
  ValidationRegistry.getValidationResponse s' h
    = ValidationRegistry.getValidationResponse s h.
Proof.
  intros Hfresh Hfit Hrun.
  apply validationRequest_success in Hrun as (Hh & _ & ->).
  rewrite Hfresh.
  unfold ValidationRegistry.getValidationRequest,
    ValidationRegistry.isValidationPending.
  rewrite requests_requested, decide_True by done. simpl.
  rewrite (bool_decide_eq_false_2 (h = 0)) by done.
  rewrite (bool_decide_eq_true_2 (h ≠ 0)) by done.
  rewrite bool_decide_eq_true_2 by done.
  rewrite bool_decide_eq_false_2 by (unfold ValidationRegistry.EXPIRATION_SLOTS; lia).
  done.
Qed.

Lemma validationRequest_then_pending_witness :
  let t := Scenario.request 10 3 in
  let sig :=
    match t.2 with
    | Protocol.ValidationRequest _ _ _ _ _ sig => sig
    | _ => EmptyString
    end in
  let ir := Protocol.identity Scenario.two_agents in
  let s := Protocol.validation Scenario.two_agents in
  let o :=
    ValidationRegistry.validationRequest TestBase.signatureVerification ir
      t.1 Scenario.client 1 2 Scenario.TEST_DATA_HASH 3 sig s in
  (ValidationRegistry.stillValid s Scenario.TEST_DATA_HASH 10 = false ∧
   succeeded o = true) ∧
  ValidationRegistry.isValidationPending t.1 (reached o)
    Scenario.TEST_DATA_HASH = Ok (true, true).
Proof.
  intros t sig ir s o.
  assert (H1 : ValidationRegistry.stillValid s Scenario.TEST_DATA_HASH
                 (block_number t.1) = false) by (vm_compute; reflexivity).
  assert (H2 : block_number t.1 + ValidationRegistry.EXPIRATION_SLOTS
               ≤ UINT256_MAX) by (vm_compute; discriminate).
  assert (H3 : o = Done tt (reached o)
                     [ValidationRegistry.ValidationRequestEvent 1 2
                        Scenario.TEST_DATA_HASH])
    by (vm_compute; reflexivity).
  split; [split; [exact H1 | vm_compute; reflexivity] |].
  exact (proj1 (proj2
           (validationRequest_then_pending TestBase.signatureVerification ir
              t.1 Scenario.client 1 2 Scenario.TEST_DATA_HASH 3 sig s
              (reached o) _ H1 H2 H3))).
Defined.

(** X13: [isValidationPending] tells whether a response would be taken:
    for a score in range, a valid signature, an unused nonce and a call
    sent by the recorded validator's current address,
    [validationResponse] succeeds exactly when [isValidationPending]
    returns (true, true). *)
Theorem pending_iff_response_accepted sv ir env client h r n sig s :
  r ≤ 100 →
  verify sv
    (ValidationRegistry.validationResponse_query env client h r n sig)
    = true →
  ValidationRegistry.nonceUsed s client n = false →
  IdentityRegistry.agentExists ir
    (agentValidatorId (ValidationRegistry.validationRequests s h)) = true →
  msg_sender env =
    agentAddress
      (IdentityRegistry.agents ir
         (agentValidatorId (ValidationRegistry.validationRequests s h))) →
  succeeded
    (ValidationRegistry.validationResponse sv ir env client h r n sig s)
    = true ↔
  ValidationRegistry.isValidationPending env s h = Ok (true, true).
Proof.
  intros Hr Hsig Hnonce Hex Hsender.
  rewrite validationResponse_cascade. cbv zeta.
  unfold ValidationRegistry.isValidationPending, IdentityRegistry.getAgent.
  unfold IdentityRegistry.agentExists in Hex.
  apply bool_decide_eq_true in Hex.
  rewrite Hsig, Hnonce.
  rewrite (bool_decide_eq_false_2 (100 < r)) by lia.
  rewrite (bool_decide_eq_false_2 (agentId _ = 0)) by done.
  rewrite (bool_decide_eq_false_2 (msg_sender env ≠ _)) by tauto.
  simpl.
  destruct (decide (dataHash (ValidationRegistry.validationRequests s h) = 0))
    as [Hz | Hz].
  - rewrite (bool_decide_eq_true_2 _ Hz).
    by rewrite bool_decide_eq_false_2 by tauto.
  - rewrite (bool_decide_eq_false_2 _ Hz), (bool_decide_eq_true_2 _ Hz).
    destruct (bool_decide (_ ≤ UINT256_MAX)); simpl; [| done].
    destruct (bool_decide (_ < block_number env)); simpl; [done |].
    by destruct (responded _).
Qed.

Lemma pending_iff_response_accepted_witness :
  let t := Scenario.respond 11 85 4 in
  let sig :=
    match t.2 with
    | Protocol.ValidationResponse _ _ _ _ sig => sig
    | _ => EmptyString
    end in
  let ir := Protocol.identity Scenario.pending in
  let s := Protocol.validation Scenario.pending in
  ValidationRegistry.isValidationPending t.1 s Scenario.TEST_DATA_HASH
    = Ok (true, true) ∧
  succeeded
    (ValidationRegistry.validationResponse TestBase.signatureVerification ir
       t.1 Scenario.client Scenario.TEST_DATA_HASH 85 4 sig s) = true.
Proof.
  intros t sig ir s.
  assert (Hp : ValidationRegistry.isValidationPending t.1 s
                 Scenario.TEST_DATA_HASH = Ok (true, true))
    by (vm_compute; reflexivity).
  split; [exact Hp |].
  apply (pending_iff_response_accepted TestBase.signatureVerification ir t.1
           Scenario.client Scenario.TEST_DATA_HASH 85 4 sig s);
    try (vm_compute; reflexivity); try exact Hp.
  vm_compute. discriminate.
Defined.

(** X14: a [validationResponse] succeeds only with a score of at most 100,
    for a request that is pending, and when sent by the address the
    identity registry currently records for the request's validator;
    afterwards [getValidationResponse] returns (true, score),
    [getValidationRequest] returns the same request marked responded, and
    [isValidationPending] returns (true, false). *)
Theorem validationResponse_then_answered
    sv ir env client h r n sig s s' log :
  ValidationRegistry.validationResponse sv ir env client h r n sig s
    = Done tt s' log →
  let req := ValidationRegistry.validationRequests s h in
  r ≤ 100 ∧
  ValidationRegistry.isValidationPending env s h = Ok (true, true) ∧
  msg_sender env =
    agentAddress (IdentityRegistry.agents ir (agentValidatorId req)) ∧
  ValidationRegistry.getValidationResponse s' h = (true, r) ∧
  ValidationRegistry.getValidationRequest s' h
    = Ok (mkRequest (agentValidatorId req) (agentServerId req) (dataHash req)
            (timestamp req) true) ∧
  ValidationRegistry.isValidationPending env s' h = Ok (true, false).
Proof.
  intros Hrun req.
  destruct (validationResponse_authorized _ _ _ _ _ _ _ _ _ _ _ _ Hrun)
    as [_ Hsender].
  apply validationResponse_success in Hrun
    as (Hr & Hstored & Hfit & Hopen & Hresp & ->).
  fold req in Hsender, Hstored, Hfit, Hopen, Hresp.
  unfold ValidationRegistry.getValidationResponse,
    ValidationRegistry.getValidationRequest,
    ValidationRegistry.isValidationPending.
  rewrite hasResponse_answered, responses_answered, requests_answered.
  rewrite !decide_True by done. fold req. cbv zeta. simpl.
  rewrite Hresp.
  rewrite !(bool_decide_eq_false_2 (dataHash req = 0)) by done.
  rewrite !(bool_decide_eq_true_2 (dataHash req ≠ 0)) by done.
  rewrite !(bool_decide_eq_true_2 (_ ≤ UINT256_MAX)) by done.
  rewrite !(bool_decide_eq_false_2 (_ < block_number env)) by lia.
  done.
Qed.

Lemma validationResponse_then_answered_witness :
  let t := Scenario.respond 11 85 4 in
  let sig :=
    match t.2 with
    | Protocol.ValidationResponse _ _ _ _ sig => sig
    | _ => EmptyString
    end in
  let ir := Protocol.identity Scenario.pending in
  let s := Protocol.validation Scenario.pending in
  let o :=
    ValidationRegistry.validationResponse TestBase.signatureVerification ir
      t.1 Scenario.client Scenario.TEST_DATA_HASH 85 4 sig s in
  succeeded o = true ∧
  ValidationRegistry.getValidationResponse (reached o)
    Scenario.TEST_DATA_HASH = (true, 85).
Proof.
  intros t sig ir s o.
  assert (H : o = Done tt (reached o)
                    [ValidationRegistry.ValidationResponseEvent 1 2
                       Scenario.TEST_DATA_HASH 85])
    by (vm_compute; reflexivity).
  split; [vm_compute; reflexivity |].
  exact (proj1 (proj2 (proj2 (proj2
           (validationResponse_then_answered TestBase.signatureVerification
              ir t.1 Scenario.client Scenario.TEST_DATA_HASH 85 4 sig s
              (reached o) _ H))))).
Defined.

(** X15: whether a response to a stored request is refused as expired
    depends on the height alone: for a score in range and a stored
    request, [validationResponse] fails [RequestExpired] exactly when
    [block.number > timestamp + EXPIRATION_SLOTS], whoever sends it and
    whether or not the request was answered. *)
Theorem response_expires_after_window sv ir env client h r n sig s :
  r ≤ 100 →
  dataHash (ValidationRegistry.validationRequests s h) ≠ 0 →
  timestamp (ValidationRegistry.validationRequests s h) +
    ValidationRegistry.EXPIRATION_SLOTS ≤ UINT256_MAX →
  ValidationRegistry.validationResponse sv ir env client h r n sig s
    = Revert RequestExpired s ↔
  timestamp (ValidationRegistry.validationRequests s h) +
    ValidationRegistry.EXPIRATION_SLOTS < block_number env.
Proof.
  intros Hr Hstored Hfit.
  rewrite validationResponse_cascade. cbv zeta.
  rewrite (bool_decide_eq_false_2 (100 < r)) by lia.
  rewrite (bool_decide_eq_false_2 (_ = 0)) by done.
  rewrite (bool_decide_eq_true_2 (_ ≤ UINT256_MAX)) by done.
  simpl. case_bool_decide as Hlate; [done |].
  split; [| done]. intros Hrev. exfalso. revert Hrev.
  unfold IdentityRegistry.getAgent.
  repeat (split_if; try discriminate).
Qed.

Lemma response_expires_after_window_witness :
  let t := Scenario.respond 1011 85 4 in
  let sig :=
    match t.2 with
    | Protocol.ValidationResponse _ _ _ _ sig => sig
    | _ => EmptyString
    end in
  let ir := Protocol.identity Scenario.pending in
  let s := Protocol.validation Scenario.pending in
  timestamp (ValidationRegistry.validationRequests s Scenario.TEST_DATA_HASH)
    + ValidationRegistry.EXPIRATION_SLOTS < block_number t.1 ∧
  ValidationRegistry.validationResponse TestBase.signatureVerification ir
    t.1 Scenario.client Scenario.TEST_DATA_HASH 85 4 sig s
    = Revert RequestExpired s.
Proof.
  intros t sig ir s.
  assert (Hlate : timestamp (ValidationRegistry.validationRequests s
                               Scenario.TEST_DATA_HASH)
                  + ValidationRegistry.EXPIRATION_SLOTS < block_number t.1)
    by (vm_compute; reflexivity).
  split; [exact Hlate |].
  apply (response_expires_after_window TestBase.signatureVerification ir t.1
           Scenario.client Scenario.TEST_DATA_HASH 85 4 sig s);
    try exact Hlate; vm_compute; discriminate.
Defined.

Lemma scored_transact sv k w tx :
  Validations.scored (Protocol.validation w) →
  Validations.scored (Protocol.validation (Protocol.transact sv k w tx)).
Proof.
  intros Hsc. destruct tx as [env c]. unfold Protocol.transact.
  destruct c; simpl;
    unfold Protocol.on_identity, Protocol.on_reputation,
      Protocol.on_validation.
  - by destruct (IdentityRegistry.newAgent _ _ _ _ _ _ _ _).
  - by destruct (IdentityRegistry.updateAgent _ _ _ _ _ _ _ _ _).
  - by destruct (ReputationRegistry.acceptFeedback _ _ _ _ _ _ _ _ _ _).
  - destruct (ValidationRegistry.validationRequest _ _ _ _ _ _ _ _ _ _)
      eqn:E; [| done].
    apply validationRequest_success in E as (Hh & _ & ->). simpl.
    destruct (ValidationRegistry.stillValid _ _ _); [done |].
    intros h. destruct (Hsc h) as [Hle Hhas]. split; [done |].
    change (ValidationRegistry.hasResponse
              (ValidationRegistry.requested client agentValidatorId0
                 agentServerId0 dataHash0 nonce (block_number env)
                 (Protocol.validation w)) h)
      with (ValidationRegistry.hasResponse (Protocol.validation w) h).
    intros Hflag. rewrite requests_requested.
    destruct (decide (dataHash0 = h)); [done | by apply Hhas].
  - destruct (ValidationRegistry.validationResponse _ _ _ _ _ _ _ _ _)
      eqn:E; [| done].
    apply validationResponse_success in E as (Hr & Hstored & _ & _ & _ & ->).
    simpl. intros h.
    rewrite responses_answered, hasResponse_answered, requests_answered.
    destruct (Hsc h) as [Hle Hhas].
    destruct (decide (dataHash0 = h)) as [<- | ?]; simpl; [done |].
    by split.
Qed.

Lemma scored_run sv k txs w :
  Validations.scored (Protocol.validation w) →
  Validations.scored (Protocol.validation (Protocol.run sv k txs w)).
Proof.
  revert w. induction txs as [| tx txs IH]; intros w Hsc; [done |].
  simpl. by apply IH, scored_transact.
Qed.

(** X16: in every state reached from deployment [getValidationResponse]
    returns a score of at most 100, and when it reports a response the
    hash has a stored request. *)
Theorem stored_scores_are_in_range sv k txs h :
  let s := Protocol.validation (Protocol.run sv k txs Protocol.deployed) in
  (ValidationRegistry.getValidationResponse s h).2 ≤ 100 ∧
  ((ValidationRegistry.getValidationResponse s h).1 = true →
   ∃ r, ValidationRegistry.getValidationRequest s h = Ok r).
Proof.
  intros s.
  assert (Hsc : Validations.scored s).
  { apply scored_run. intros h'. split; [done |]. by intros H. }
  destruct (Hsc h) as [Hle Hhas].
  unfold ValidationRegistry.getValidationResponse,
    ValidationRegistry.getValidationRequest.
  destruct (ValidationRegistry.hasResponse s h); simpl.
  - split; [done |]. intros _.
    rewrite bool_decide_eq_false_2 by auto. eauto.
  - split; [lia | done].
Qed.

Lemma grounded_transact sv k w tx :
  Directory.invariant (Protocol.identity w) →
  Validations.grounded w →
  Validations.grounded (Protocol.transact sv k w tx).
Proof.
  intros Hinv Hg.
  assert (Hstep : ∀ i,
    Directory.present (Protocol.identity w) i →
    Directory.present (Protocol.identity (Protocol.transact sv k w tx)) i).
  { intros i. by apply present_transact. }
  destruct tx as [env c]. unfold Protocol.transact in *.
  destruct c; simpl in *;
    unfold Protocol.on_identity, Protocol.on_reputation,
      Protocol.on_validation in *.
  - destruct (IdentityRegistry.newAgent _ _ _ _ _ _ _ _) eqn:E; [| done].
    simpl in *. intros h. cbv zeta. simpl. intros Hh.
    destruct (Hg h Hh) as (? & ? & ?). auto.
  - destruct (IdentityRegistry.updateAgent _ _ _ _ _ _ _ _ _) eqn:E; [| done].
    simpl in *. intros h. cbv zeta. simpl. intros Hh.
    destruct (Hg h Hh) as (? & ? & ?). auto.
  - by destruct (ReputationRegistry.acceptFeedback _ _ _ _ _ _ _ _ _ _).
  - destruct (ValidationRegistry.validationRequest _ _ _ _ _ _ _ _ _ _)
      eqn:E; [| done].
    destruct (validationRequest_checked _ _ _ _ _ _ _ _ _ _ _ _ _ E)
      as [Hv Hs].
    apply validationRequest_success in E as (Hh & _ & ->). simpl.
    destruct (ValidationRegistry.stillValid _ _ _); [done |].
    intros h. cbv zeta. simpl. rewrite requests_requested.
    destruct (decide (dataHash0 = h)) as [<- | ?]; simpl; [| apply Hg].
    intros _. by rewrite <- !agentExists_present.
  - destruct (ValidationRegistry.validationResponse _ _ _ _ _ _ _ _ _)
      eqn:E; [| done].
    apply validationResponse_success in E as (_ & Hstored & _ & _ & _ & ->).
    simpl. intros h. cbv zeta. simpl. rewrite requests_answered.
    destruct (decide (dataHash0 = h)) as [<- | ?]; simpl; [| apply Hg].
    intros _. by apply Hg.
Qed.

Lemma grounded_run sv k txs w :
  Directory.invariant (Protocol.identity w) →
  Validations.grounded w →
  Validations.grounded (Protocol.run sv k txs w).
Proof.
  revert w. induction txs as [| tx txs IH]; intros w Hinv Hg; [done |].
  simpl. apply IH; [by apply invariant_transact | by apply grounded_transact].
Qed.

(** X17: in every state reached from deployment a request returned by
    [getValidationRequest(h)] has data hash [h] and names a validator and
    a server that exist in the identity registry; so [validationResponse]
    never fails [AgentNotFound] when it re-resolves the validator. *)
Theorem stored_requests_name_existing_agents sv k txs :
  let w := Protocol.run sv k txs Protocol.deployed in
  (∀ h r,
     ValidationRegistry.getValidationRequest (Protocol.validation w) h = Ok r →
     dataHash r = h ∧
     IdentityRegistry.agentExists (Protocol.identity w) (agentValidatorId r)
       = true ∧
     IdentityRegistry.agentExists (Protocol.identity w) (agentServerId r)
       = true) ∧
  (∀ env client h r n sig,
     failure
       (Protocol.call sv k env (Protocol.ValidationResponse client h r n sig)
          w) ≠ Some AgentNotFound).
Proof.
  intros w.
  assert (Hg : Validations.grounded w).
  { apply grounded_run; [apply invariant_constructor |].
    intros h r Hh. by destruct Hh. }
  split.
  - intros h r. unfold ValidationRegistry.getValidationRequest.
    case_bool_decide as Hh; [done |]. intros [= <-].
    destruct (Hg h Hh) as (? & ? & ?).
    by rewrite !agentExists_present.
  - intros env client h r n sig. simpl. unfold Protocol.on_validation.
    rewrite validationResponse_cascade. cbv zeta.
    unfold IdentityRegistry.getAgent.
    case_bool_decide; [done |].
    case_bool_decide as Hh; [done |].
    destruct (Hg h Hh) as (_ & Hv & _).
    rewrite (bool_decide_eq_false_2 (agentId _ = 0)) by done.
    repeat (split_if; try done).
Qed.

(** ** The order of the checks of the other entry points *)

Ltac settle_check :=
  repeat first
    [ progress simpl
    | case_bool_decide
    | match goal with
      | |- context [negb ?b] => destruct b eqn:?
      | |- context [if ?b then _ else _] => destruct b eqn:?
      end ];
  try done; try tauto; try lia.

(** X18: [updateAgent] fails with the error of the first violated check in
    the order of the source (agent exists, sender is its address,
    signature, nonce unused, new domain unclaimed, new address
    unclaimed), at the storage it started from, and succeeds when none is
    violated; unlike in [newAgent], the signature and the nonce are
    checked before the conflicts. *)
Theorem updateAgent_reports_first_violated_check
    sv env client id d a n sig s :
  let o := IdentityRegistry.updateAgent sv env client id d a n sig s in
  match Spec.first_violated
          (Checks.updateAgent_preconditions sv env client id d a n sig s) with
  | Some e => o = Revert e s
  | None => succeeded o = true
  end.
Proof.
  intros o. subst o. rewrite updateAgent_cascade.
  unfold Checks.updateAgent_preconditions, IdentityRegistry.agentExists,
    verify, IdentityRegistry.updateAgent_query, IdentityRegistry.nonceUsed.
  cbn [q_evvmID q_functionName q_message q_signature q_signer].
  rewrite !first_violated_cons.
  rewrite (bool_decide_ext _ _ (length_positive_nonempty d)).
  destruct (sv _ _ _ _ _); settle_check.
Qed.

(** X19: [acceptFeedback] fails with the error of the first violated check
    in the order of the source (client agent exists, server agent exists,
    signature, nonce unused, sender is the server's address, pair not yet
    authorized), at the storage it started from, and succeeds when none is
    violated; a replayed nonce is reported before a wrong sender. *)
Theorem acceptFeedback_reports_first_violated_check
    sv k ir env client c v n sig s :
  let o := ReputationRegistry.acceptFeedback sv k ir env client c v n sig s in
  match Spec.first_violated
          (Checks.acceptFeedback_preconditions sv ir env client c v n sig s)
  with
  | Some e => o = Revert e s
  | None => succeeded o = true
  end.
Proof.
  intros o. subst o. rewrite acceptFeedback_cascade.
  unfold Checks.acceptFeedback_preconditions, verify,
    ReputationRegistry.acceptFeedback_query, ReputationRegistry.nonceUsed,
    IdentityRegistry.getAgent.
  cbn [q_evvmID q_functionName q_message q_signature q_signer].
  rewrite !first_violated_cons.
  destruct (IdentityRegistry.agentExists ir c); simpl; [| done].
  destruct (IdentityRegistry.agentExists ir v) eqn:Hv; simpl; [| done].
  unfold IdentityRegistry.agentExists in Hv.
  apply bool_decide_eq_true in Hv.
  rewrite (bool_decide_eq_false_2 (agentId _ = 0)) by done.
  destruct (sv _ _ _ _ _); settle_check.
Qed.

(** X20: [validationRequest] fails with the error of the first violated
    check in the order of the source (hash not zero, validator exists,
    server exists, signature, nonce unused, and no overflow in the deadline
    of a stored request), at the storage it started from, and succeeds
    when none is violated. *)
Theorem validationRequest_reports_first_violated_check
    sv ir env client v w h n sig s :
  let o := ValidationRegistry.validationRequest sv ir env client v w h n sig s
  in
  match Spec.first_violated
          (Checks.validationRequest_preconditions sv ir env client v w h n sig
             s) with
  | Some e => o = Revert e s
  | None => succeeded o = true
  end.
Proof.
  intros o. subst o. rewrite validationRequest_cascade.
  unfold Checks.validationRequest_preconditions, verify,
    ValidationRegistry.validationRequest_query, ValidationRegistry.nonceUsed.
  cbn [q_evvmID q_functionName q_message q_signature q_signer].
  rewrite !first_violated_cons.
  destruct (IdentityRegistry.agentExists ir v);
    destruct (IdentityRegistry.agentExists ir w);
    destruct (sv _ _ _ _ _);
    destruct (ValidationRegistry.stillValid s h (block_number env));
    settle_check.
Qed.

(** X21: [validationResponse] fails with the error of the first violated
    check in the order of the source (score at most 100, request stored,
    no overflow in its deadline, not expired, not answered, signature,
    nonce unused, validator still registered, sender is the validator's
    address), at the storage it started from, and succeeds when none is
    violated: an expired request is reported as expired even when it was
    answered, and a wrong sender is reported last. *)
Theorem validationResponse_reports_first_violated_check
    sv ir env client h r n sig s :
  let o := ValidationRegistry.validationResponse sv ir env client h r n sig s
  in
  match Spec.first_violated
          (Checks.validationResponse_preconditions sv ir env client h r n sig
             s) with
  | Some e => o = Revert e s
  | None => succeeded o = true
  end.
Proof.
  intros o. subst o. rewrite validationResponse_cascade. cbv zeta.
  unfold Checks.validationResponse_preconditions, verify,
    ValidationRegistry.validationResponse_query,
    ValidationRegistry.nonceUsed, IdentityRegistry.getAgent,
    IdentityRegistry.agentExists.
  cbn [q_evvmID q_functionName q_message q_signature q_signer].
  rewrite !first_violated_cons.
  destruct (sv _ _ _ _ _);
    destruct (responded (ValidationRegistry.validationRequests s h));
    settle_check.
Qed.

(** ** Events *)

(** X22: every successful call of a mutating entry point emits exactly one
    event, and it is the event of that entry point. *)
Theorem successful_call_emits_one_event sv k env c w r w' log :
  Protocol.call sv k env c w = Done r w' log →
  ∃ ev, log = [ev] ∧
    match c, ev with
    | Protocol.NewAgent _ d a _ _,
      Protocol.IdentityEvent (IdentityRegistry.AgentRegistered id d' a') =>
        r = Protocol.RetUint id ∧ d' = d ∧ a' = a
    | Protocol.UpdateAgent _ id _ _ _ _,
      Protocol.IdentityEvent (IdentityRegistry.AgentUpdated id' d' a') =>
        id' = id ∧
        d' = agentDomain (IdentityRegistry.agents (Protocol.identity w') id) ∧
        a' = agentAddress (IdentityRegistry.agents (Protocol.identity w') id)
    | Protocol.AcceptFeedback _ c0 v0 _ _,
      Protocol.ReputationEvent (ReputationRegistry.AuthFeedback c' v' id) =>
        c' = c0 ∧ v' = v0 ∧
        id = ReputationRegistry.getFeedbackAuthId (Protocol.reputation w')
               c0 v0
    | Protocol.ValidationRequest _ v0 s0 h _ _,
      Protocol.ValidationEvent
        (ValidationRegistry.ValidationRequestEvent v' s' h') =>
        v' = v0 ∧ s' = s0 ∧ h' = h
    | Protocol.ValidationResponse _ h score _ _,
      Protocol.ValidationEvent
        (ValidationRegistry.ValidationResponseEvent v' s' h' score') =>
        h' = h ∧ score' = score ∧
        v' = agentValidatorId
               (ValidationRegistry.validationRequests
                  (Protocol.validation w') h) ∧
        s' = agentServerId
               (ValidationRegistry.validationRequests
                  (Protocol.validation w') h)
    | _, _ => False
    end.
Proof.
  destruct w as [i p v].
  destruct c; simpl;
    unfold Protocol.on_identity, Protocol.on_reputation,
      Protocol.on_validation; simpl.
  - rewrite newAgent_cascade. crack.
    intros H; simpl in H; simplify_eq. by eexists.
  - rewrite updateAgent_cascade. crack.
    intros H; simpl in H; simplify_eq. by eexists.
  - rewrite acceptFeedback_cascade. crack.
    intros H; simpl in H; simplify_eq. eexists. split; [done |].
    simpl. unfold ReputationRegistry.getFeedbackAuthId.
    by rewrite authId_authorized, decide_True.
  - rewrite validationRequest_cascade. crack.
    + intros H; simpl in H; simplify_eq. by eexists.
    + intros H; simpl in H; simplify_eq. by eexists.
  - rewrite validationResponse_cascade. cbv zeta. crack.
    intros H; simpl in H; simplify_eq. by eexists.
Qed.

(** ** ZKPVerifier *)

Section ZKP.
Import ZKPVerifier.

Lemma proofs_insert m c id p id' :
  proofs (mkStorage (<[id := p]> m) c) id' =
    if decide (id = id') then p else proofs (mkStorage m c) id'.
Proof.
  unfold proofs. simpl. rewrite lookup_insert. by case_decide.
Qed.

(** X23: [submitProof] succeeds exactly when no proof with a non-zero
    timestamp is stored under the id; it then stores the hash with the
    block timestamp, no verifier and [isVerified = false], touches no
    other proof and no verification count, and when the block timestamp
    is not zero every later [submitProof] for the id fails with "Proof
    already exists". *)
Theorem submitProof_stores_once env proofId proofHash s :
  match submitProof env proofId proofHash s with
  | Returned s' log =>
      timestamp (proofs s proofId) = 0 ∧
      getProof s' proofId = mkProof proofHash 0 (block_timestamp env) false ∧
      isProofVerified s' proofId = false ∧
      (∀ other, other ≠ proofId → getProof s' other = getProof s other) ∧
      (∀ a, verificationCount s' a = verificationCount s a) ∧
      log = [ProofSubmitted proofId (msg_sender env)] ∧
      (block_timestamp env ≠ 0 →
       ∀ env' proofHash',
         submitProof env' proofId proofHash' s'
           = Reverted (Require "Proof already exists"))
  | Reverted reason =>
      timestamp (proofs s proofId) ≠ 0 ∧
      reason = Require "Proof already exists"
  end.
Proof.
  unfold submitProof, getProof, isProofVerified.
  destruct (decide (timestamp (proofs s proofId) = 0)) as [Hts | Hts].
  - rewrite (bool_decide_eq_true_2 _ Hts). cbn [negb].
    rewrite proofs_insert, decide_True by done.
    repeat split; try done.
    + intros other Hne.
      rewrite proofs_insert, decide_False by congruence.
      by destruct s.
    + intros Hnow env' proofHash'. cbn [timestamp].
      by rewrite bool_decide_eq_false_2.
  - by rewrite (bool_decide_eq_false_2 _ Hts).
Qed.

(** X24: [verifyProof] succeeds exactly for a stored, not yet verified
    proof (and a count below the largest uint256); it then marks the
    proof verified, records the sender as verifier, keeps hash and
    timestamp, adds one to the sender's verification count and to no
    other, and every later [verifyProof] for the id fails with "Proof
    already verified". *)
Theorem verifyProof_verifies_once env proofId s :
  let p := proofs s proofId in
  match verifyProof env proofId s with
  | Returned s' log =>
      timestamp p ≠ 0 ∧ isVerified p = false ∧
      getProof s' proofId
        = mkProof (proofHash p) (msg_sender env) (timestamp p) true ∧
      (∀ other, other ≠ proofId → getProof s' other = getProof s other) ∧
      verificationCount s' (msg_sender env)
        = verificationCount s (msg_sender env) + 1 ∧
      (∀ a, a ≠ msg_sender env →
            verificationCount s' a = verificationCount s a) ∧
      log = [ProofVerified proofId (msg_sender env)] ∧
      (∀ env', verifyProof env' proofId s'
               = Reverted (Require "Proof already verified"))
  | Reverted reason =>
      reason =
        (if bool_decide (timestamp p = 0) then Require "Proof does not exist"
         else if isVerified p then Require "Proof already verified"
         else Overflow) ∧
      (reason = Overflow →
       UINT256_MAX ≤ verificationCount s (msg_sender env))
  end.
Proof.
  intros p. unfold verifyProof, getProof. fold p.
  destruct (decide (timestamp p = 0)) as [Hts | Hts].
  { rewrite (bool_decide_eq_false_2 (timestamp p ≠ 0)) by tauto.
    cbn [negb]. by rewrite bool_decide_eq_true_2. }
  rewrite (bool_decide_eq_true_2 (timestamp p ≠ 0)) by done.
  rewrite (bool_decide_eq_false_2 (timestamp p = 0)) by done.
  cbn [negb]. destruct (isVerified p) eqn:Hv; cbn [negb]; [done |].
  cbv zeta.
  rewrite !proofs_insert, !decide_True by done.
  cbn [proofHash timestamp isVerified verifier _proofs _verificationCount].
  change (verificationCount (mkStorage ?m (_verificationCount s)) ?a)
    with (verificationCount s a).
  case_bool_decide as Hfit.
  - repeat split; try done.
    + by rewrite proofs_insert, decide_True.
    + intros other Hne.
      rewrite !proofs_insert, !decide_False by congruence.
      by destruct s.
    + unfold verificationCount at 1. simpl. by rewrite lookup_insert_eq.
    + intros a Hne. unfold verificationCount at 1. simpl.
      by rewrite lookup_insert_ne.
    + intros env'. rewrite !proofs_insert, !decide_True by done.
      cbn [timestamp isVerified negb].
      by rewrite bool_decide_eq_true_2.
  - split; [done |]. intros _. lia.
Qed.

Lemma proofs_lookup s id :
  timestamp (proofs s id) ≠ 0 ∨ isVerified (proofs s id) = true →
  _proofs s !! id = Some (proofs s id).
Proof.
  unfold proofs. destruct (_proofs s !! id); simpl; [done |].
  intros [? | ?]; done.
Qed.

Lemma submitProof_success env id h s s' log :
  submitProof env id h s = Returned s' log →
  timestamp (proofs s id) = 0 ∧
  s' = mkStorage (<[id := mkProof h 0 (block_timestamp env) false]> (_proofs s))
         (_verificationCount s).
Proof.
  unfold submitProof. case_bool_decide; simpl; [| done].
  by intros [= <- _].
Qed.

Lemma verifyProof_success env id s s' log :
  verifyProof env id s = Returned s' log →
  timestamp (proofs s id) ≠ 0 ∧ isVerified (proofs s id) = false ∧
  s' = mkStorage
         (<[id := mkProof (proofHash (proofs s id)) (msg_sender env)
                    (timestamp (proofs s id)) true]> (_proofs s))
         (<[msg_sender env := verificationCount s (msg_sender env) + 1]>
            (_verificationCount s)).
Proof.
  unfold verifyProof. case_bool_decide as Hts; simpl; [| done].
  destruct (isVerified (proofs s id)) eqn:Hv; simpl; [done |].
  rewrite !proofs_insert, !decide_True by done. simpl.
  case_bool_decide; [| done]. intros [= <- _].
  by rewrite insert_insert_eq.
Qed.

Lemma stamped_transact s tx : stamped s → stamped (transact s tx).
Proof.
  intros Hst. destruct tx as [env c]. unfold transact. simpl.
  destruct (call env c s) as [s' log |] eqn:E; [| done].
  destruct c as [id h | id]; simpl in E.
  - apply submitProof_success in E as (_ & ->).
    intros id'. rewrite proofs_insert.
    destruct (decide (id = id')); [done |]. destruct s. apply Hst.
  - apply verifyProof_success in E as (Hts & _ & ->).
    intros id'. rewrite proofs_insert.
    destruct (decide (id = id')); [done |]. destruct s. apply Hst.
Qed.

Lemma stamped_run txs s : stamped s → stamped (run txs s).
Proof.
  revert s. induction txs as [| tx txs IH]; intros s Hst; [done |].
  simpl. by apply IH, stamped_transact.
Qed.

Lemma verified_kept_transact s tx id :
  stamped s → isVerified (proofs s id) = true →
  proofs (transact s tx) id = proofs s id.
Proof.
  intros Hst Hv. destruct tx as [env c]. unfold transact. simpl.
  destruct (call env c s) as [s' log |] eqn:E; [| done].
  destruct c as [id' h | id']; simpl in E.
  - apply submitProof_success in E as (Hts & ->).
    rewrite proofs_insert.
    destruct (decide (id' = id)) as [-> | ?]; [| by destruct s].
    by apply Hst in Hv.
  - apply verifyProof_success in E as (_ & Hnot & ->).
    rewrite proofs_insert.
    destruct (decide (id' = id)) as [-> | ?]; [congruence | by destruct s].
Qed.

(** X25: verification is final: once [isProofVerified] of an id is true
    in a state reached from deployment, [getProof] of that id returns the
    same proof, with the same hash, verifier and timestamp, after any
    further transactions. *)
Theorem verified_proof_is_final txs later id :
  let s := run txs constructor in
  isProofVerified s id = true →
  getProof (run later s) id = getProof s id ∧
  isProofVerified (run later s) id = true.
Proof.
  intros s Hv. unfold isProofVerified, getProof in *.
  assert (Hst : stamped s).
  { apply stamped_run. intros id'. unfold proofs. simpl.
    by rewrite lookup_empty. }
  clearbody s.
  assert (Hkept : proofs (run later s) id = proofs s id).
  { revert s Hv Hst. induction later as [| tx later IH]; intros s Hv Hst;
      [done |].
    simpl. rewrite IH.
    - by apply verified_kept_transact.
    - by rewrite verified_kept_transact.
    - by apply stamped_transact. }
  by rewrite Hkept.
Qed.

Lemma verified_proof_is_final_witness :
  let env := TestBase.at_block 0xA1 0 5 in
  let txs := [(env, SubmitProof 7 0xBEEF); (env, VerifyProof 7)] in
  let later := [(env, SubmitProof 7 0xDEAD); (env, VerifyProof 7)] in
  isProofVerified (run txs constructor) 7 = true ∧
  getProof (run later (run txs constructor)) 7
    = getProof (run txs constructor) 7.
Proof.
  intros env txs later.
  assert (H : isProofVerified (run txs constructor) 7 = true)
    by (vm_compute; reflexivity).
  split; [exact H |].
  exact (proj1 (verified_proof_is_final txs later 7 H)).
Defined.

Lemma verified_count_transact s tx a :
  stamped s →
  verificationCount s a = N.of_nat (verified_count s a) →
  verificationCount (transact s tx) a
    = N.of_nat (verified_count (transact s tx) a).
Proof.
  intros Hst Hcount. destruct tx as [env c]. unfold transact. simpl.
  destruct (call env c s) as [s' log |] eqn:E; [| done].
  unfold verified_count in *.
  destruct c as [id h | id]; simpl in E.
  - apply submitProof_success in E as (Hts & ->). simpl.
    change (verificationCount (mkStorage ?m (_verificationCount s)) a)
      with (verificationCount s a).
    rewrite map_filter_insert_False by (by intros [? _]).
    rewrite map_filter_delete_not; [done |].
    intros y Hy [Hv _]. simpl in Hv.
    assert (Hp : proofs s id = y) by (unfold proofs; by rewrite Hy).
    rewrite <- Hp in Hv. by apply Hst in Hv.
  - apply verifyProof_success in E as (Hts & Hnot & ->). simpl.
    assert (Hy : _proofs s !! id = Some (proofs s id))
      by (apply proofs_lookup; auto).
    unfold verificationCount at 1. simpl.
    destruct (decide (msg_sender env = a)) as [<- | Hne].
    + rewrite lookup_insert_eq. simpl.
      rewrite map_filter_insert_True by done.
      rewrite map_size_insert_None.
      * rewrite Hcount. lia.
      * apply map_lookup_filter_None. right. intros y Hy' [Hv _].
        simpl in Hv. congruence.
    + rewrite lookup_insert_ne by done.
      rewrite map_filter_insert_False by (intros [_ ?]; done).
      rewrite map_filter_delete_not; [done |].
      intros y Hy' [Hv _]. simpl in Hv. congruence.
Qed.

(** X26: in every state reached from deployment [verificationCount] of an
    address is the number of stored proofs that are verified with that
    address as verifier. *)
Theorem verificationCount_counts_verified_proofs txs a :
  verificationCount (run txs constructor) a
    = N.of_nat (verified_count (run txs constructor) a).
Proof.
  assert (Hgen : ∀ s,
    stamped s → verificationCount s a = N.of_nat (verified_count s a) →
    verificationCount (run txs s) a = N.of_nat (verified_count (run txs s) a)).
  { induction txs as [| tx txs IH]; intros s Hst Hc; [done |].
    simpl. apply IH; [by apply stamped_transact |].
    by apply verified_count_transact. }
  apply Hgen; [| done].
  intros id. unfold proofs. simpl. by rewrite lookup_empty.
Qed.
End ZKP.

Lemma successful_call_emits_one_event_witness :
  let t := Scenario.register 1 Scenario.TEST_DOMAIN Scenario.agentAddress 1 in
  ∃ r w' log,
    Scenario.attempt t Protocol.deployed = Done r w' log ∧ ∃ ev, log = [ev].
Proof.
  intros t.
  assert (H : Scenario.attempt t Protocol.deployed
              = Done (Protocol.RetUint 1)
                  (reached (Scenario.attempt t Protocol.deployed))
                  [Protocol.IdentityEvent
                     (IdentityRegistry.AgentRegistered 1 Scenario.TEST_DOMAIN
                        Scenario.agentAddress)])
    by (vm_compute; reflexivity).
  eexists _, _, _. split; [exact H |].
  destruct (successful_call_emits_one_event _ _ _ _ _ _ _ _ H)
    as (ev & Hev & _).
  by exists ev.
Defined.

(** ** The nonce ledger and the signature, once more *)

(** X27: nonces are spent for good: once a call has succeeded, other than
    through the early return of [validationRequest], no call to the same
    registry with the same principal and nonce succeeds again, whatever
    transactions happen in between. *)
Theorem spent_nonce_never_accepted_again
    sv k env c w r w' log txs env' c' :
  Protocol.call sv k env c w = Done r w' log →
  Protocol.retries env w c = false →
  (∀ w'', Protocol.nonce_used w'' c' = Protocol.nonce_used w'' c) →
  succeeded
    (Protocol.call sv k env' c' (Protocol.run sv k txs w')) = false.
Proof.
  intros Hdone Hretry Hsame.
  apply used_nonce_never_succeeds. rewrite Hsame.
  apply nonce_used_run. by eapply success_spends_nonce.
Qed.

Lemma spent_nonce_never_accepted_again_witness :
  let first :=
    Scenario.register 1 Scenario.TEST_DOMAIN Scenario.agentAddress 1 in
  let between :=
    [Scenario.register 2 Scenario.TEST_DOMAIN_2 Scenario.agentAddress2 2] in
  let replay := Scenario.update Scenario.agentAddress 5 1 "c.example.com" 0 1
  in
  succeeded (Scenario.attempt first Protocol.deployed) = true ∧
  succeeded
    (Scenario.attempt replay
       (Scenario.exec between
          (reached (Scenario.attempt first Protocol.deployed)))) = false.
Proof.
  intros first between replay.
  assert (H : Scenario.attempt first Protocol.deployed
              = Done (Protocol.RetUint 1)
                  (reached (Scenario.attempt first Protocol.deployed))
                  [Protocol.IdentityEvent
                     (IdentityRegistry.AgentRegistered 1 Scenario.TEST_DOMAIN
                        Scenario.agentAddress)])
    by (vm_compute; reflexivity).
  split; [vm_compute; reflexivity |].
  exact (spent_nonce_never_accepted_again TestBase.signatureVerification
           TestBase.keccak256 first.1 first.2 Protocol.deployed _ _ _ between
           replay.1 replay.2 H eq_refl (λ _, eq_refl)).
Defined.

(** X28: the signature bears on a call only through the verdict of
    [signatureVerification] on the EVVM id, the function name, the
    message, the signature and the client of that call: two verifiers
    that agree on this one query give the same outcome, storage and
    events. *)
Theorem outcome_depends_on_signature_through_query
    sv1 sv2 k env c w :
  verify sv1 (Protocol.signature_query env c)
    = verify sv2 (Protocol.signature_query env c) →
  Protocol.call sv1 k env c w = Protocol.call sv2 k env c w.
Proof.
  intros Hsame. destruct c; simpl in *;
    unfold Protocol.on_identity, Protocol.on_reputation,
      Protocol.on_validation.
  - by rewrite !newAgent_cascade, Hsame.
  - by rewrite !updateAgent_cascade, Hsame.
  - by rewrite !acceptFeedback_cascade, Hsame.
  - by rewrite !validationRequest_cascade, Hsame.
  - by rewrite !validationResponse_cascade, Hsame.
Qed.

Lemma outcome_depends_on_signature_through_query_witness :
  let t := Scenario.register 1 Scenario.TEST_DOMAIN Scenario.agentAddress 1 in
  let accept_all : string → string → string → string → N → bool :=
    λ _ _ _ _ _, true in
  Protocol.call TestBase.signatureVerification TestBase.keccak256 t.1 t.2
    Protocol.deployed
  = Protocol.call accept_all TestBase.keccak256 t.1 t.2 Protocol.deployed.
Proof.
  intros t accept_all.
  apply outcome_depends_on_signature_through_query.
  vm_compute. reflexivity.
Defined.
